(** * openrouter-tui: the streaming-response pipeline

    A shallow embedding of the Go sources of the terminal chat client:
    the Markdown renderer ([MarkdownParser]), the SSE stream loop of
    [handleInput] and the chat-history splicing of [appendDelta] and
    [finalizeAssistantMessage].

    Go strings are byte sequences; they are modelled by [string], whose
    characters are the 8-bit [ascii] values.  Two revisions of the program
    are embedded, each in its own module:
    - [MainGo]  : src/main.go
    - [Part001] : src/unnamed/part_001 (the renderer with a partial mode). *)

From Stdlib Require Import String Ascii List ZArith Bool Lia.
Import ListNotations.
Local Open Scope string_scope.

(** ** Bytes and a few constants *)

Definition LF : ascii := "010"%char.
Definition nl : string := String LF EmptyString.
Definition byteVal (c : ascii) : Z := Z.of_nat (nat_of_ascii c).
Definition byteOf (z : Z) : ascii := ascii_of_nat (Z.to_nat z).

(** [s[n:]] *)
Fixpoint sliceFrom (n : nat) (s : string) : string :=
  match n, s with
  | O, _ => s
  | S _, EmptyString => EmptyString
  | S k, String _ s' => sliceFrom k s'
  end.

(** [s[:n]] *)
Fixpoint sliceTo (n : nat) (s : string) : string :=
  match n, s with
  | O, _ => EmptyString
  | S _, EmptyString => EmptyString
  | S k, String c s' => String c (sliceTo k s')
  end.

(** ** Package unicode/utf8 *)
Module utf8.

Definition RuneError : Z := 0xFFFD.
Definition RuneSelf : Z := 0x80.
Definition UTFMax : nat := 4.

Definition inRange (lo hi : Z) (c : ascii) : bool :=
  (lo <=? byteVal c)%Z && (byteVal c <=? hi)%Z.

Definition low6 (c : ascii) : Z := Z.land (byteVal c) 0x3F.

(** [utf8.DecodeRuneInString]: the first rune of [s] and its width in
    bytes; an invalid or short encoding gives [(RuneError, 1)], the empty
    string [(RuneError, 0)]. *)
Definition DecodeRuneInString (s : string) : Z * nat :=
  match s with
  | EmptyString => (RuneError, 0)
  | String c0 s1 =>
    let b0 := byteVal c0 in
    if (b0 <? RuneSelf)%Z then (b0, 1)
    else if (b0 <? 0xC2)%Z || (0xF4 <? b0)%Z then (RuneError, 1)
    else
      let lo := if (b0 =? 0xE0)%Z then 0xA0%Z
                else if (b0 =? 0xF0)%Z then 0x90%Z else 0x80%Z in
      let hi := if (b0 =? 0xED)%Z then 0x9F%Z
                else if (b0 =? 0xF4)%Z then 0x8F%Z else 0xBF%Z in
      match s1 with
      | EmptyString => (RuneError, 1)
      | String c1 s2 =>
        if negb (inRange lo hi c1) then (RuneError, 1)
        else if (b0 <? 0xE0)%Z then
          (Z.lor (Z.shiftl (Z.land b0 0x1F) 6) (low6 c1), 2)
        else
          match s2 with
          | EmptyString => (RuneError, 1)
          | String c2 s3 =>
            if negb (inRange 0x80 0xBF c2) then (RuneError, 1)
            else if (b0 <? 0xF0)%Z then
              (Z.lor (Z.shiftl (Z.land b0 0x0F) 12)
                 (Z.lor (Z.shiftl (low6 c1) 6) (low6 c2)), 3)
            else
              match s3 with
              | EmptyString => (RuneError, 1)
              | String c3 _ =>
                if negb (inRange 0x80 0xBF c3) then (RuneError, 1)
                else
                  (Z.lor (Z.shiftl (Z.land b0 0x07) 18)
                     (Z.lor (Z.shiftl (low6 c1) 12)
                        (Z.lor (Z.shiftl (low6 c2) 6) (low6 c3))), 4)
              end
          end
      end
  end.

Definition RuneStart (c : ascii) : bool :=
  negb (Z.land (byteVal c) 0xC0 =? 0x80)%Z.

(** The backwards scan of [DecodeLastRuneInString]: from index [start]
    down to [lim], stop at the first byte that starts a rune.  The result
    is the index reached; [None] stands for an index below zero. *)
Fixpoint scanStart (s : string) (start : nat) (lim : nat) (fuel : nat)
         {struct fuel} : option nat :=
  match fuel with
  | O => Some start
  | S fuel' =>
    if Nat.ltb start lim then Some start
    else
      match String.get start s with
      | Some c =>
        if RuneStart c then Some start
        else match start with
             | O => None
             | S k => scanStart s k lim fuel'
             end
      | None => Some start
      end
  end.

(** [utf8.DecodeLastRuneInString]. *)
Definition DecodeLastRuneInString (s : string) : Z * nat :=
  let e := String.length s in
  match e with
  | O => (RuneError, 0)
  | S e1 =>
    match String.get e1 s with
    | None => (RuneError, 0)
    | Some c =>
      if (byteVal c <? RuneSelf)%Z then (byteVal c, 1)
      else
        let lim := e - UTFMax in
        let start :=
          match e1 with
          | O => O
          | S e2 => match scanStart s e2 lim UTFMax with
                    | Some k => k
                    | None => O
                    end
          end in
        let '(r, size) := DecodeRuneInString (sliceFrom start s) in
        if Nat.eqb (start + size) e then (r, size) else (RuneError, 1)
    end
  end.

(** [utf8.AppendRune] on an empty buffer: the UTF-8 encoding of [r]. *)
Definition EncodeRune (r : Z) : string :=
  let b (z : Z) := String (byteOf z) EmptyString in
  let three (r : Z) :=
    b (Z.lor 0xE0 (Z.shiftr r 12)) ++
    b (Z.lor 0x80 (Z.land (Z.shiftr r 6) 0x3F)) ++
    b (Z.lor 0x80 (Z.land r 0x3F)) in
  if (r <? 0)%Z then three RuneError
  else if (r <=? 0x7F)%Z then b r
  else if (r <=? 0x7FF)%Z then
    b (Z.lor 0xC0 (Z.shiftr r 6)) ++ b (Z.lor 0x80 (Z.land r 0x3F))
  else if (0x10FFFF <? r)%Z || ((0xD800 <=? r)%Z && (r <=? 0xDFFF)%Z)
  then three RuneError
  else if (r <=? 0xFFFF)%Z then three r
  else
    b (Z.lor 0xF0 (Z.shiftr r 18)) ++
    b (Z.lor 0x80 (Z.land (Z.shiftr r 12) 0x3F)) ++
    b (Z.lor 0x80 (Z.land (Z.shiftr r 6) 0x3F)) ++
    b (Z.lor 0x80 (Z.land r 0x3F)).

End utf8.

(** ** Package unicode *)
Module unicode.

(** The code points of [unicode.IsSpace]: the Latin-1 spaces and the
    White_Space property beyond Latin-1. *)
Definition spaceRunes : list Z :=
  [0x09; 0x0A; 0x0B; 0x0C; 0x0D; 0x20; 0x85; 0xA0; 0x1680;
   0x2000; 0x2001; 0x2002; 0x2003; 0x2004; 0x2005; 0x2006; 0x2007;
   0x2008; 0x2009; 0x200A; 0x2028; 0x2029; 0x202F; 0x205F; 0x3000]%Z.

Definition IsSpace (r : Z) : bool := existsb (Z.eqb r) spaceRunes.

(** [unicode.IsPrint] restricted to Latin-1, where Go reads it off a
    fixed property table: the ASCII graphic characters and space, and
    U+00A1..U+00FF without the soft hyphen U+00AD.  Beyond Latin-1 the
    answer depends on the Unicode range tables, which are not part of
    the program: there the renderer takes the predicate as a
    parameter. *)
Definition IsPrintLatin1 (r : Z) : bool :=
  ((0x20 <=? r) && (r <=? 0x7E) ||
   (0xA1 <=? r) && (r <=? 0xFF) && negb (r =? 0xAD))%Z.

End unicode.

(** ** Package strings *)
Module strings.

Fixpoint HasPrefix (s prefix : string) : bool :=
  match prefix, s with
  | EmptyString, _ => true
  | String _ _, EmptyString => false
  | String p ps, String c cs => Ascii.eqb c p && HasPrefix cs ps
  end.

Definition HasSuffix (s suffix : string) : bool :=
  Nat.leb (String.length suffix) (String.length s) &&
  String.eqb (sliceFrom (String.length s - String.length suffix) s) suffix.

Definition TrimPrefix (s prefix : string) : string :=
  if HasPrefix s prefix then sliceFrom (String.length prefix) s else s.

Definition TrimSuffix (s suffix : string) : string :=
  if HasSuffix s suffix
  then sliceTo (String.length s - String.length suffix) s else s.

Fixpoint Contains (s substr : string) : bool :=
  HasPrefix s substr ||
  match s with
  | EmptyString => false
  | String _ s' => Contains s' substr
  end.

(** [strings.Split] for a non-empty separator: [cur] is the piece being
    collected and [skip] counts the bytes of a separator occurrence that
    are still to be passed over. *)
Fixpoint splitFrom (s sep : string) (skip : nat) (cur : string)
  : list string :=
  match s with
  | EmptyString => [cur]
  | String c s' =>
    match skip with
    | S k => splitFrom s' sep k cur
    | O =>
      if HasPrefix s sep
      then cur :: splitFrom s' sep (String.length sep - 1) EmptyString
      else splitFrom s' sep 0 (cur ++ String c EmptyString)
    end
  end.

Definition Split (s sep : string) : list string :=
  splitFrom s sep 0 EmptyString.

Fixpoint Join (elems : list string) (sep : string) : string :=
  match elems with
  | [] => EmptyString
  | [e] => e
  | e :: rest => e ++ sep ++ Join rest sep
  end.

(** [strings.Map]: the runes of [s] are decoded one after the other; a
    negative result of [mapping] drops the rune, any other result is
    written in UTF-8 (an invalid byte decodes to [RuneError] and is
    written as such when it is kept). *)
Fixpoint mapFrom (fuel : nat) (mapping : Z -> Z) (s : string) : string :=
  match fuel with
  | O => EmptyString
  | S fuel' =>
    match s with
    | EmptyString => EmptyString
    | _ =>
      let '(c, width) := utf8.DecodeRuneInString s in
      let r := mapping c in
      (if (0 <=? r)%Z then utf8.EncodeRune r else EmptyString)
        ++ mapFrom fuel' mapping (sliceFrom width s)
    end
  end.

Definition Map (mapping : Z -> Z) (s : string) : string :=
  mapFrom (String.length s) mapping s.

Fixpoint trimLeftFrom (fuel : nat) (f : Z -> bool) (s : string) : string :=
  match fuel with
  | O => s
  | S fuel' =>
    match s with
    | EmptyString => s
    | _ =>
      let '(r, width) := utf8.DecodeRuneInString s in
      if f r then trimLeftFrom fuel' f (sliceFrom width s) else s
    end
  end.

Definition TrimLeftFunc (s : string) (f : Z -> bool) : string :=
  trimLeftFrom (String.length s) f s.

Fixpoint trimRightFrom (fuel : nat) (f : Z -> bool) (s : string) : string :=
  match fuel with
  | O => s
  | S fuel' =>
    match s with
    | EmptyString => s
    | _ =>
      let '(r, size) := utf8.DecodeLastRuneInString s in
      if f r then trimRightFrom fuel' f (sliceTo (String.length s - size) s)
      else s
    end
  end.

Definition TrimRightFunc (s : string) (f : Z -> bool) : string :=
  trimRightFrom (String.length s) f s.

(** [strings.TrimSpace]: leading and trailing white space, as defined by
    Unicode, removed. *)
Definition TrimSpace (s : string) : string :=
  TrimRightFunc (TrimLeftFunc s unicode.IsSpace) unicode.IsSpace.

End strings.

(** [fmt.Sprintf] with the one verb the program uses: the string [arg]
    takes the place of the first [%s] of [format]. *)
Fixpoint Sprintf (format arg : string) : string :=
  match format with
  | EmptyString => EmptyString
  | String c rest =>
    if strings.HasPrefix format "%s" then arg ++ sliceFrom 2 format
    else String c (Sprintf rest arg)
  end.

(** [fmt.Sprintf] with two [%s] verbs: [a] for the first, [b] for the
    second. *)
Fixpoint Sprintf2 (format a b : string) : string :=
  match format with
  | EmptyString => EmptyString
  | String c rest =>
    if strings.HasPrefix format "%s" then a ++ Sprintf (sliceFrom 2 format) b
    else String c (Sprintf2 rest a b)
  end.

(** * src/main.go *)
Module MainGo.

(** ** MarkdownParser *)

(** The struct of the source; [buf] is the content of the
    [*strings.Builder] that [NewMarkdownParser] allocates. *)
Record MarkdownParser := mkParser {
  inBold : bool;
  inItalic : bool;
  inCode : bool;
  inQuote : bool;
  inList : bool;
  buf : string
}.

Definition NewMarkdownParser : MarkdownParser :=
  mkParser false false false false false EmptyString.

Definition setInCode (p : MarkdownParser) (b : bool) : MarkdownParser :=
  mkParser (inBold p) (inItalic p) b (inQuote p) (inList p) (buf p).
Definition setInQuote (p : MarkdownParser) (b : bool) : MarkdownParser :=
  mkParser (inBold p) (inItalic p) (inCode p) b (inList p) (buf p).
Definition setInList (p : MarkdownParser) (b : bool) : MarkdownParser :=
  mkParser (inBold p) (inItalic p) (inCode p) (inQuote p) b (buf p).
Definition setBuf (p : MarkdownParser) (s : string) : MarkdownParser :=
  mkParser (inBold p) (inItalic p) (inCode p) (inQuote p) (inList p) s.

(** [p.buf.WriteString(s)], [p.buf.WriteByte(c)] and [p.buf.Reset()] *)
Definition bufWriteString (p : MarkdownParser) (s : string) :=
  setBuf p (buf p ++ s).
Definition bufWriteByte (p : MarkdownParser) (c : ascii) :=
  setBuf p (buf p ++ String c EmptyString).
Definition bufReset (p : MarkdownParser) := setBuf p EmptyString.

(** [Reset] resets the parser state for a new message. *)
Definition Reset (p : MarkdownParser) : MarkdownParser :=
  mkParser false false false false false EmptyString.

Definition byteIs (line : string) (i : nat) (c : ascii) : bool :=
  match String.get i line with
  | Some d => Ascii.eqb d c
  | None => false
  end.

(** The [for i := 0; i < len(line); i++] loop of [markdownLine].  One
    unit of [fuel] is one iteration; every iteration advances [i], so
    [len(line)] units are enough.  The result is the parser (its [buf]
    and [inCode]) and the local [active]. *)
Fixpoint markdownLoop (fuel : nat) (line : string) (i : nat)
         (p : MarkdownParser) (active : bool) : MarkdownParser * bool :=
  match fuel with
  | O => (p, active)
  | S fuel' =>
    if negb (Nat.ltb i (String.length line)) then (p, active)
    else if Nat.ltb 0 i && byteIs line (i - 1) "\"%char then
      (* Handle backslash escapes: continue *)
      markdownLoop fuel' line (i + 1) p active
    else if strings.HasPrefix (sliceFrom i line) "**" && negb (inCode p) then
      if active
      then markdownLoop fuel' line (i + 1 + 1)
             (bufWriteString p "[::-][white]") false
      else markdownLoop fuel' line (i + 1 + 1)
             (bufWriteString p "[::b][white]") true
    else if strings.HasPrefix (sliceFrom i line) "__" && negb (inCode p) then
      if active
      then markdownLoop fuel' line (i + 1 + 1)
             (bufWriteString p "[::-][white]") false
      else markdownLoop fuel' line (i + 1 + 1)
             (bufWriteString p "[::u][white]") true
    else if byteIs line i "*"%char && negb (inCode p) then
      if active
      then markdownLoop fuel' line (i + 1)
             (bufWriteString p "[::-][white]") false
      else markdownLoop fuel' line (i + 1)
             (bufWriteString p "[::i][white]") true
    else if byteIs line i "_"%char && negb (inCode p) then
      if active
      then markdownLoop fuel' line (i + 1)
             (bufWriteString p "[::-][white]") false
      else markdownLoop fuel' line (i + 1)
             (bufWriteString p "[::i][white]") true
    else if strings.HasPrefix (sliceFrom i line) "`" && negb (inCode p) then
      if negb (inCode p)
      then markdownLoop fuel' line (i + 1 + 1)
             (setInCode (bufWriteString p "[::r]") true) (negb active)
      else markdownLoop fuel' line (i + 1 + 1)
             (setInCode (bufWriteString p "[::-][white]") false)
             (negb active)
    else
      match String.get i line with
      | Some c => markdownLoop fuel' line (i + 1) (bufWriteByte p c) active
      | None => (p, active)
      end
  end.

Definition markdownLine (p : MarkdownParser) (line : string)
  : MarkdownParser :=
  let p := bufReset p in
  let '(p, active) := markdownLoop (String.length line) line 0 p false in
  (* Close any open formatting at the end of the line *)
  if active then bufWriteString p "[::-]" else p.

Section Renderer.

(** [unicode.IsPrint], decided by the Unicode tables of the Go
    runtime. *)
Variable IsPrint : Z -> bool.

Definition filteredString (s : string) : string :=
  strings.Map (fun r => if IsPrint r then r else (-1)%Z) s.

(** The table-row branch: every non-empty trimmed cell is written as
    a bold run followed by a space. *)
Definition writeCells (p : MarkdownParser) (cells : list string)
  : MarkdownParser :=
  fold_left
    (fun p cell =>
       let cell := strings.TrimSpace cell in
       if negb (String.eqb cell "")
       then bufWriteString p (Sprintf "[::b]%s[::-] " cell)
       else p)
    cells p.

(** The body of [for i, line := range lines] in [RenderMarkdown];
    [rest] is [lines[i:]]. *)
Fixpoint renderLines (lines : list string) (i : nat) (rest : list string)
         (p : MarkdownParser) (output : string) (prevLineEmpty : bool)
  : MarkdownParser * string :=
  match rest with
  | [] => (p, output)
  | line :: rest' =>
    let trimmed := strings.TrimSpace line in
    let lineEmpty := String.eqb trimmed "" in
    (* Skip consecutive empty lines *)
    if lineEmpty && prevLineEmpty
    then renderLines lines (S i) rest' p output prevLineEmpty
    else
      let prevLineEmpty := lineEmpty in
      if strings.HasPrefix trimmed "```"
      then renderLines lines (S i) rest' p output prevLineEmpty
      else if strings.HasPrefix trimmed "|" && strings.Contains trimmed "|"
      then
        (* Handle table rows *)
        if Nat.ltb 0 i &&
           strings.HasPrefix
             (strings.TrimSpace (nth (i - 1) lines EmptyString)) "|"
        then
          let p := bufReset p in
          let p := writeCells p (strings.Split trimmed "|") in
          renderLines lines (S i) rest' p (output ++ (buf p ++ nl))
            prevLineEmpty
        else renderLines lines (S i) rest' p output prevLineEmpty
      else if strings.HasPrefix trimmed "> " then
        (* Blockquote formatting *)
        let p := if negb (inQuote p)
                 then setInQuote (bufWriteString p "[darkcyan]│ [::-]") true
                 else p in
        let content := filteredString (sliceFrom 2 trimmed) in
        let p := markdownLine p content in
        renderLines lines (S i) rest' p (output ++ (buf p ++ nl))
          prevLineEmpty
      else if strings.HasPrefix trimmed "- " then
        (* List formatting *)
        let p := if negb (inList p)
                 then setInList (bufWriteString p " • ") true
                 else p in
        let content := filteredString (sliceFrom 2 trimmed) in
        let p := markdownLine p content in
        renderLines lines (S i) rest' p (output ++ (buf p ++ nl))
          prevLineEmpty
      else if strings.HasPrefix trimmed "* " then
        (* List formatting *)
        let p := if negb (inList p)
                 then setInList (bufWriteString p " • ") true
                 else p in
        let content := filteredString (sliceFrom 2 trimmed) in
        let p := markdownLine p content in
        renderLines lines (S i) rest' p (output ++ (buf p ++ nl))
          prevLineEmpty
      else if lineEmpty then
        (* Reset formatting states on empty line *)
        let p := if inList p then setInList p false else p in
        let p := if inQuote p then setInQuote p false else p in
        renderLines lines (S i) rest' p (output ++ nl) prevLineEmpty
      else
        (* Regular text formatting *)
        let content := filteredString line in
        let p := markdownLine p content in
        renderLines lines (S i) rest' p (output ++ (buf p ++ nl))
          prevLineEmpty
  end.

(** [RenderMarkdown] formats Markdown content with TUI styling.  The
    parser is a mutable object that outlives the call: the function
    takes it in the state the previous call left and returns it
    together with the rendered bytes. *)
Definition RenderMarkdown (p : MarkdownParser) (text : string)
  : MarkdownParser * string :=
  let p := Reset p in
  let lines := strings.Split text nl in
  renderLines lines 0 lines p EmptyString true.

End Renderer.

(** ** Messages, the response body and the chat view *)

Record Message := mkMessage { Role : string; Content : string }.

(** [CompletionResponse]: each element of [Choices] is the
    [Delta.Content] of that choice. *)
Record CompletionResponse := mkChunk { Choices : list string }.

(** The [bufio.Reader] over the response body: the bytes that are still
    to come and how the body ends once they are used up, cleanly
    ([None], [io.EOF]) or with a read error. *)
Record Reader := mkReader { pending : string; failure : option string }.

Inductive ReadErr := EOF | IOError (msg : string).

(** The bytes up to and including the first line feed, and the rest. *)
Fixpoint cutLine (s : string) : option (string * string) :=
  match s with
  | EmptyString => None
  | String c s' =>
    if Ascii.eqb c LF then Some (String c EmptyString, s')
    else match cutLine s' with
         | Some (line, rest) => Some (String c line, rest)
         | None => None
         end
  end.

(** [reader.ReadString('\n')]: a full line with its delimiter, or the
    bytes that were left together with the error that ended the body. *)
Definition ReadString (r : Reader) : string * option ReadErr * Reader :=
  match cutLine (pending r) with
  | Some (line, rest) => (line, None, mkReader rest (failure r))
  | None =>
    (pending r,
     Some (match failure r with None => EOF | Some msg => IOError msg end),
     mkReader EmptyString (failure r))
  end.

(** What the request of a turn comes back with: an error before any
    response (serialization, request creation or transport; [msg] is the
    message handed to [handleStreamError]), a status other than 200 with
    its body, or status 200 with a body to stream. *)
Inductive HttpOutcome :=
| RequestFailed (msg : string)
| BadStatus (status errBody : string)
| OkStream (body : Reader).

(** The struct [ChatUI], without the widgets that the turn does not
    read back (status bar, spinner, layout) and the HTTP client.
    [chatHistory] is the text held by the [tview.TextView]. *)
Record ChatUI := mkUI {
  messages : list Message;
  loadingActive : bool;
  inputDisabled : bool;
  assistantText : string;
  markdownParser : MarkdownParser;
  chatHistory : string
}.

Definition setMessages (ui : ChatUI) (m : list Message) : ChatUI :=
  mkUI m (loadingActive ui) (inputDisabled ui) (assistantText ui)
       (markdownParser ui) (chatHistory ui).
Definition setLoading (ui : ChatUI) (active disabled : bool) : ChatUI :=
  mkUI (messages ui) active disabled (assistantText ui)
       (markdownParser ui) (chatHistory ui).
Definition setAssistantText (ui : ChatUI) (s : string) : ChatUI :=
  mkUI (messages ui) (loadingActive ui) (inputDisabled ui) s
       (markdownParser ui) (chatHistory ui).
Definition setParser (ui : ChatUI) (p : MarkdownParser) : ChatUI :=
  mkUI (messages ui) (loadingActive ui) (inputDisabled ui)
       (assistantText ui) p (chatHistory ui).

(** [ui.chatHistory.SetText(s)] and a write to [ui.chatHistory] *)
Definition SetText (ui : ChatUI) (s : string) : ChatUI :=
  mkUI (messages ui) (loadingActive ui) (inputDisabled ui)
       (assistantText ui) (markdownParser ui) s.
Definition Fprint (ui : ChatUI) (s : string) : ChatUI :=
  SetText ui (chatHistory ui ++ s).

(** The closures handed to [ui.app.QueueUpdateDraw]; each constructor
    carries the variables its closure captured by value. *)
Inductive Update :=
| UpdDelta (delta : string)
| UpdFinal (finalResponse : string)
| UpdStreamError (msg : string)
| UpdSystemError (msg : string).

(** Where the goroutine of [handleInput] stands. *)
Inductive NetPC :=
| Connecting (o : HttpOutcome)
| Reading (r : Reader)
| Finishing
| Finished.

(** A turn in flight: the UI object, the queue of [QueueUpdateDraw]
    (first in, first out), the goroutine and its captured [isFirst].
    The closures of the spinner goroutine are left out of the queue: they
    write the spinner widget and nothing else. *)
Record World := mkWorld {
  ui : ChatUI;
  queue : list Update;
  pc : NetPC;
  isFirst : bool
}.

Inductive LineEvent :=
| Ignore
| Done
| ParseError (msg : string)
| Delta (delta : string).

Inductive Actor := Net | Display.

Section Turn.

Variable IsPrint : Z -> bool.

(** [json.Unmarshal] into a [CompletionResponse]: the text of the
    error, or the decoded chunk. *)
Variable json_Unmarshal : string -> string + CompletionResponse.

(** [TextView.GetText(true)]: the text with the style and region tags
    of the widget stripped. *)
Variable stripAllTags : string -> string.

Definition GetText (ui : ChatUI) : string :=
  stripAllTags (chatHistory ui).

(** [AddMessage] adds a raw message to history without rendering. *)
Definition AddMessage (ui : ChatUI) (role content : string) : ChatUI :=
  setMessages ui (messages ui ++ [mkMessage role content])%list.

Definition formatPlainMessage (text : string) : string :=
  strings.Map (fun r => if IsPrint r then r else (-1)%Z) text.

Definition formatMarkdown (ui : ChatUI) (text : string)
  : ChatUI * string :=
  let '(p, out) := RenderMarkdown IsPrint (markdownParser ui) text in
  (setParser ui p, out).

(** [AppendToChat] renders and displays a message in the chat view. *)
Definition AppendToChat (ui : ChatUI) (role text : string) : ChatUI :=
  if String.eqb role "You" then
    Fprint ui (Sprintf "[purple]You:[-] [white]%s" (formatPlainMessage text)
                 ++ nl)
  else if String.eqb role "Assistant" then
    let '(ui, formatted) := formatMarkdown ui text in
    Fprint ui (Sprintf "[blue]Assistant:[-] %s" formatted ++ nl)
  else if String.eqb role "System" then
    Fprint ui (Sprintf "[red]System:[-] [red]%s" text ++ nl)
  else ui.

(** [AppendToChatPlain] appends a partial assistant message during
    streaming; [role] is not looked at. *)
Definition AppendToChatPlain (ui : ChatUI) (role text : string)
  : ChatUI :=
  Fprint ui (Sprintf "[blue]Assistant:[-] [yellow]%s" text).

Definition StartLoading (ui : ChatUI) : ChatUI :=
  setAssistantText (setLoading ui true true) EmptyString.

Definition StopLoading (ui : ChatUI) : ChatUI :=
  setLoading ui false false.

(** [appendDelta] adds a new chunk to the assistant response. *)
Definition appendDelta (ui : ChatUI) (delta : string) : ChatUI :=
  let currentText := GetText ui in
  let lines := strings.Split currentText nl in
  (* Replace last line with updated content *)
  let lines := removelast lines in
  let newText := strings.Join lines nl in
  let newText := if negb (String.eqb newText "")
                 then newText ++ nl else newText in
  let newText :=
    newText ++
    Sprintf "[blue]Assistant:[-] [yellow]%s" (assistantText ui) in
  SetText ui newText.

(** [finalizeAssistantMessage] formats and renders the completed
    assistant message. *)
Definition finalizeAssistantMessage (ui : ChatUI) : ChatUI :=
  let currentText := GetText ui in
  let lines := strings.Split currentText nl in
  let lines := removelast lines in
  let '(ui, formatted) := formatMarkdown ui (assistantText ui) in
  let lines :=
    (lines ++ [Sprintf "[blue]Assistant:[-] %s" formatted])%list in
  SetText ui (strings.Join lines nl).

(** One pass through the body of the read loop, after a line was
    read without error. *)
Definition lineEvent (line : string) : LineEvent :=
  (* Skip empty lines and SSE comment lines *)
  if String.eqb (strings.TrimSpace line) "" || strings.HasPrefix line ":"
  then Ignore
  else if strings.HasPrefix line "data:" then
    let jsonStr := strings.TrimPrefix line "data:" in
    let jsonStr := strings.TrimSpace jsonStr in
    if String.eqb jsonStr "[DONE]" then Done
    else
      match json_Unmarshal jsonStr with
      | inl err => ParseError err
      | inr chunk =>
        match Choices chunk with
        | content :: _ =>
          if negb (String.eqb content "") then Delta content else Ignore
        | [] => Ignore
        end
      end
  else Ignore.

Definition enqueue (w : World) (u : Update) : World :=
  mkWorld (ui w) (queue w ++ [u])%list (pc w) (isFirst w).
Definition goto (w : World) (next : NetPC) : World :=
  mkWorld (ui w) (queue w) next (isFirst w).
Definition withUI (w : World) (u : ChatUI) : World :=
  mkWorld u (queue w) (pc w) (isFirst w).

Definition handleStreamError (w : World) (msg : string) : World :=
  enqueue w (UpdStreamError msg).
Definition appendSystemError (w : World) (msg : string) : World :=
  enqueue w (UpdSystemError msg).

(** One step of the goroutine started by [handleInput]. *)
Definition netStep (w : World) : option World :=
  match pc w with
  | Connecting (RequestFailed msg) =>
    Some (goto (handleStreamError w msg) Finished)
  | Connecting (BadStatus status errBody) =>
    Some (goto (handleStreamError w
                  ("API error: " ++ status ++ " - " ++ errBody)) Finished)
  | Connecting (OkStream body) =>
    Some (mkWorld (ui w) (queue w) (Reading body) true)
  | Reading r =>
    match ReadString r with
    | (_, Some EOF, _) => Some (goto w Finishing)
    | (_, Some (IOError msg), _) =>
      Some (goto (appendSystemError w ("Stream read error: " ++ msg))
              Finishing)
    | (line, None, r') =>
      match lineEvent line with
      | Ignore => Some (goto w (Reading r'))
      | Done => Some (goto w Finishing)
      | ParseError err =>
        Some (goto (appendSystemError w ("JSON parse error: " ++ err))
                (Reading r'))
      | Delta delta =>
        let w := withUI w (setAssistantText (ui w)
                             (assistantText (ui w) ++ delta)) in
        Some (goto (enqueue w (UpdDelta delta)) (Reading r'))
      end
    end
  | Finishing =>
    (* Add final assistant response *)
    let finalResponse := assistantText (ui w) in
    if negb (String.eqb finalResponse "")
    then Some (goto (enqueue w (UpdFinal finalResponse)) Finished)
    else
      let w := withUI w (StopLoading (ui w)) in
      Some (goto (appendSystemError w
                    "Received empty response from assistant") Finished)
  | Finished => None
  end.

(** Running one queued closure on the display goroutine. *)
Definition runUpdate (u : Update) (ui : ChatUI) (isFirst : bool)
  : ChatUI * bool :=
  match u with
  | UpdDelta delta =>
    (* For the first chunk, setup the assistant line *)
    let '(ui, isFirst) :=
      if isFirst
      then
        let ui := SetText ui (strings.TrimSuffix (GetText ui) nl) in
        (AppendToChatPlain ui "Assistant" "[yellow]", false)
      else (ui, isFirst) in
    (appendDelta ui delta, isFirst)
  | UpdFinal finalResponse =>
    (* Save assistant response to message history *)
    let ui := AddMessage ui "assistant" finalResponse in
    let ui := StopLoading ui in
    (finalizeAssistantMessage ui, isFirst)
  | UpdStreamError msg =>
    let ui := StopLoading ui in
    (AppendToChat ui "System" ("Error: " ++ msg), isFirst)
  | UpdSystemError msg =>
    (AppendToChatPlain ui "System" msg, isFirst)
  end.

Definition displayStep (w : World) : option World :=
  match queue w with
  | [] => None
  | u :: rest =>
    let '(ui', first') := runUpdate u (ui w) (isFirst w) in
    Some (mkWorld ui' rest (pc w) first')
  end.

(** [handleInput] up to the [go] statement: the user message is
    recorded and shown, loading starts, the assistant line is begun and
    the goroutine is started on its request. *)
Definition handleInput (ui : ChatUI) (input : string) (o : HttpOutcome)
  : World :=
  let ui := AddMessage ui "user" input in
  let ui := AppendToChat ui "You" input in
  let ui := StartLoading ui in
  let ui := AppendToChatPlain ui "Assistant" "" in
  mkWorld ui [] (Connecting o) true.

(** The two goroutines interleave in any order; a schedule names who
    moves next, and a move that is not possible leaves the world as it
    is. *)
Definition stepBy (a : Actor) (w : World) : World :=
  match a with
  | Net => match netStep w with Some w' => w' | None => w end
  | Display => match displayStep w with Some w' => w' | None => w end
  end.

Definition runSchedule (schedule : list Actor) (w : World) : World :=
  fold_left (fun w a => stepBy a w) schedule w.

(** The turn is over: the goroutine has returned and the display has
    run every queued closure. *)
Definition turnOver (w : World) : bool :=
  match pc w, queue w with
  | Finished, [] => true
  | _, _ => false
  end.

(** The content deltas that the read loop takes from a body, in the
    order of their lines, up to the sentinel or the end of the body. *)
Fixpoint deltasFrom (fuel : nat) (r : Reader) : list string :=
  match fuel with
  | O => []
  | S fuel' =>
    match ReadString r with
    | (line, None, r') =>
      match lineEvent line with
      | Delta delta => delta :: deltasFrom fuel' r'
      | Done => []
      | _ => deltasFrom fuel' r'
      end
    | _ => []
    end
  end.

Definition streamDeltas (r : Reader) : list string :=
  deltasFrom (S (String.length (pending r))) r.

End Turn.

End MainGo.

(** * src/unnamed/part_001: the renderer with a partial mode *)
Module Part001.

Record MarkdownParser := mkParser {
  inBold : bool;
  inItalic : bool;
  inCode : bool;
  inQuote : bool;
  inList : bool;
  buffer : string;
  partialMode : bool
}.

Definition NewMarkdownParser : MarkdownParser :=
  mkParser false false false false false EmptyString false.

Definition setInCode (p : MarkdownParser) (b : bool) : MarkdownParser :=
  mkParser (inBold p) (inItalic p) b (inQuote p) (inList p) (buffer p)
           (partialMode p).
Definition setInQuote (p : MarkdownParser) (b : bool) : MarkdownParser :=
  mkParser (inBold p) (inItalic p) (inCode p) b (inList p) (buffer p)
           (partialMode p).
Definition setInList (p : MarkdownParser) (b : bool) : MarkdownParser :=
  mkParser (inBold p) (inItalic p) (inCode p) (inQuote p) b (buffer p)
           (partialMode p).
Definition setBuffer (p : MarkdownParser) (s : string) : MarkdownParser :=
  mkParser (inBold p) (inItalic p) (inCode p) (inQuote p) (inList p) s
           (partialMode p).
Definition setPartialMode (p : MarkdownParser) (b : bool)
  : MarkdownParser :=
  mkParser (inBold p) (inItalic p) (inCode p) (inQuote p) (inList p)
           (buffer p) b.

Definition bufWriteString (p : MarkdownParser) (s : string) :=
  setBuffer p (buffer p ++ s).
Definition bufWriteByte (p : MarkdownParser) (c : ascii) :=
  setBuffer p (buffer p ++ String c EmptyString).
Definition bufReset (p : MarkdownParser) := setBuffer p EmptyString.

(** [Reset] leaves [partialMode] as it is. *)
Definition Reset (p : MarkdownParser) : MarkdownParser :=
  mkParser false false false false false EmptyString (partialMode p).

Definition byteIs (line : string) (i : nat) (c : ascii) : bool :=
  match String.get i line with
  | Some d => Ascii.eqb d c
  | None => false
  end.

(** The loop of [markdownLine], one unit of [fuel] per iteration. *)
Fixpoint markdownLoop (fuel : nat) (line : string) (i : nat)
         (p : MarkdownParser) (active : bool) : MarkdownParser * bool :=
  match fuel with
  | O => (p, active)
  | S fuel' =>
    if negb (Nat.ltb i (String.length line)) then (p, active)
    else if Nat.ltb 0 i && byteIs line (i - 1) "\"%char then
      markdownLoop fuel' line (i + 1) p active
    else if strings.HasPrefix (sliceFrom i line) "**" && negb (inCode p) then
      if active
      then markdownLoop fuel' line (i + 1 + 1)
             (bufWriteString p "[::-][white]") false
      else markdownLoop fuel' line (i + 1 + 1)
             (bufWriteString p "[::b][white]") true
    else if strings.HasPrefix (sliceFrom i line) "__" && negb (inCode p) then
      if active
      then markdownLoop fuel' line (i + 1 + 1)
             (bufWriteString p "[::-][white]") false
      else markdownLoop fuel' line (i + 1 + 1)
             (bufWriteString p "[::u][white]") true
    else if byteIs line i "*"%char && negb (inCode p) then
      if active
      then markdownLoop fuel' line (i + 1)
             (bufWriteString p "[::-][white]") false
      else markdownLoop fuel' line (i + 1)
             (bufWriteString p "[::i][white]") true
    else if byteIs line i "_"%char && negb (inCode p) then
      if active
      then markdownLoop fuel' line (i + 1)
             (bufWriteString p "[::-][white]") false
      else markdownLoop fuel' line (i + 1)
             (bufWriteString p "[::i][white]") true
    else if strings.HasPrefix (sliceFrom i line) "`" && negb (inCode p)
            && negb (partialMode p) then
      (* Only handle code blocks in non-streaming mode *)
      if negb (inCode p)
      then markdownLoop fuel' line (i + 1 + 1)
             (setInCode (bufWriteString p "[::r]") true) (negb active)
      else markdownLoop fuel' line (i + 1 + 1)
             (setInCode (bufWriteString p "[::-][white]") false)
             (negb active)
    else
      match String.get i line with
      | Some c => markdownLoop fuel' line (i + 1) (bufWriteByte p c) active
      | None => (p, active)
      end
  end.

Definition markdownLine (p : MarkdownParser) (line : string)
  : MarkdownParser :=
  let p := bufReset p in
  let '(p, active) := markdownLoop (String.length line) line 0 p false in
  if active then bufWriteString p "[::-]" else p.

Section Renderer.

Variable IsPrint : Z -> bool.

Definition filteredString (s : string) : string :=
  strings.Map (fun r => if IsPrint r then r else (-1)%Z) s.

Definition writeCells (p : MarkdownParser) (cells : list string)
  : MarkdownParser :=
  fold_left
    (fun p cell =>
       let cell := strings.TrimSpace cell in
       if negb (String.eqb cell "")
       then bufWriteString p (Sprintf "[::b]%s[::-] " cell)
       else p)
    cells p.

(** The body of [for i, line := range lines] in [renderInternal];
    [rest] is [lines[i:]]. *)
Fixpoint renderLines (partial : bool) (lines : list string) (i : nat)
         (rest : list string) (p : MarkdownParser) (output : string)
         (prevLineEmpty : bool) : MarkdownParser * string :=
  match rest with
  | [] => (p, output)
  | line :: rest' =>
    let trimmed := strings.TrimSpace line in
    let lineEmpty := String.eqb trimmed "" in
    (* Skip consecutive empty lines in partial mode *)
    if lineEmpty && prevLineEmpty && partial
    then renderLines partial lines (S i) rest' p output prevLineEmpty
    else
      let prevLineEmpty := lineEmpty in
      if strings.HasPrefix trimmed "```"
      then renderLines partial lines (S i) rest' p output prevLineEmpty
      else if strings.HasPrefix trimmed "|" && strings.Contains trimmed "|"
      then
        (* Handle tables *)
        if Nat.ltb 0 i &&
           strings.HasPrefix
             (strings.TrimSpace (nth (i - 1) lines EmptyString)) "|"
        then
          let p := bufReset p in
          let p := writeCells p (strings.Split trimmed "|") in
          renderLines partial lines (S i) rest' p
            (output ++ (buffer p ++ nl)) prevLineEmpty
        else renderLines partial lines (S i) rest' p output prevLineEmpty
      else if strings.HasPrefix trimmed "> " then
        let p := if negb (inQuote p)
                 then setInQuote (bufWriteString p "[darkcyan]│ [::-]") true
                 else p in
        let content := filteredString (sliceFrom 2 trimmed) in
        let p := markdownLine p content in
        renderLines partial lines (S i) rest' p
          (output ++ (buffer p ++ nl)) prevLineEmpty
      else if strings.HasPrefix trimmed "- " ||
              strings.HasPrefix trimmed "* " then
        let p := if negb (inList p)
                 then setInList (bufWriteString p " • ") true
                 else p in
        let content := filteredString (sliceFrom 2 trimmed) in
        let p := markdownLine p content in
        renderLines partial lines (S i) rest' p
          (output ++ (buffer p ++ nl)) prevLineEmpty
      else if lineEmpty then
        let p := if inList p then setInList p false else p in
        let p := if inQuote p then setInQuote p false else p in
        renderLines partial lines (S i) rest' p (output ++ nl)
          prevLineEmpty
      else
        let content := filteredString line in
        let p := markdownLine p content in
        renderLines partial lines (S i) rest' p
          (output ++ (buffer p ++ nl)) prevLineEmpty
  end.

Definition renderInternal (p : MarkdownParser) (text : string)
           (partial : bool) : MarkdownParser * string :=
  let p := setPartialMode p partial in
  let p := Reset p in
  let lines := strings.Split text nl in
  renderLines partial lines 0 lines p EmptyString true.

(** [RenderMarkdown] renders complete text. *)
Definition RenderMarkdown (p : MarkdownParser) (text : string) :=
  renderInternal p text false.

(** [RenderPartial] renders text incrementally (for streaming). *)
Definition RenderPartial (p : MarkdownParser) (text : string) :=
  renderInternal p text true.

End Renderer.

(** ** The turn of part_001 *)

(** The struct [ChatUI] of part_001, without the widgets that the turn
    does not read back. *)
Record ChatUI := mkUI {
  messages : list MainGo.Message;
  loadingActive : bool;
  inputDisabled : bool;
  assistantText : string;
  markdownParser : MarkdownParser;
  chatHistory : string
}.

Definition setMessages (ui : ChatUI) (m : list MainGo.Message) : ChatUI :=
  mkUI m (loadingActive ui) (inputDisabled ui) (assistantText ui)
       (markdownParser ui) (chatHistory ui).
Definition setLoading (ui : ChatUI) (active disabled : bool) : ChatUI :=
  mkUI (messages ui) active disabled (assistantText ui)
       (markdownParser ui) (chatHistory ui).
Definition setAssistantText (ui : ChatUI) (s : string) : ChatUI :=
  mkUI (messages ui) (loadingActive ui) (inputDisabled ui) s
       (markdownParser ui) (chatHistory ui).
Definition setParser (ui : ChatUI) (p : MarkdownParser) : ChatUI :=
  mkUI (messages ui) (loadingActive ui) (inputDisabled ui)
       (assistantText ui) p (chatHistory ui).

(** A write to [ui.chatHistory]. *)
Definition Fprint (ui : ChatUI) (s : string) : ChatUI :=
  mkUI (messages ui) (loadingActive ui) (inputDisabled ui)
       (assistantText ui) (markdownParser ui) (chatHistory ui ++ s).

(** What the request comes back with: a failure ([msg] is the text that
    [handleStreamError] receives, for a status other than 200 the one
    built from the status code and the response body), or status 200
    with a body to stream. *)
Inductive HttpOutcome :=
| Failed (msg : string)
| Streamed (body : MainGo.Reader).

(** The closures handed to [ui.app.QueueUpdateDraw]. *)
Inductive Update :=
| UpdPartial (delta : string)
| UpdFinish
| UpdStreamError (msg : string).

Inductive NetPC :=
| Connecting (o : HttpOutcome)
| Reading (r : MainGo.Reader)
| Finishing
| Finished.

(** A turn in flight; [responseStarted] is the variable of the
    goroutine that the last closure reads. *)
Record World := mkWorld {
  ui : ChatUI;
  queue : list Update;
  pc : NetPC;
  responseStarted : bool
}.

Section Turn.

Variable IsPrint : Z -> bool.
Variable json_Unmarshal : string -> string + MainGo.CompletionResponse.

Definition AddMessage (ui : ChatUI) (role content : string) : ChatUI :=
  setMessages ui (messages ui ++ [MainGo.mkMessage role content])%list.

(** [AppendToChat] renders and displays a message in the chat view. *)
Definition AppendToChat (ui : ChatUI) (role text : string) : ChatUI :=
  if String.eqb role "You" then
    Fprint ui (Sprintf "[purple]You:[-] [white]%s" text ++ nl)
  else if String.eqb role "Assistant" then
    let '(p, formatted) := RenderMarkdown IsPrint (markdownParser ui) text in
    Fprint (setParser ui p) (Sprintf "[blue]Assistant:[-] %s" formatted ++ nl)
  else if String.eqb role "System" then
    Fprint ui (Sprintf "[red]System:[-] %s" text ++ nl)
  else
    Fprint ui (Sprintf2 "[white]%s:[-] %s" role text ++ nl).

(** [AppendPartialAssistant] appends streaming text with markdown
    applied. *)
Definition AppendPartialAssistant (ui : ChatUI) (text : string) : ChatUI :=
  let '(p, formatted) := RenderPartial IsPrint (markdownParser ui) text in
  Fprint (setParser ui p) (Sprintf "[blue]Assistant:[-] %s" formatted).

Definition StartLoading (ui : ChatUI) : ChatUI :=
  setAssistantText (setLoading ui true true) EmptyString.

Definition StopLoading (ui : ChatUI) : ChatUI :=
  setLoading ui false false.

Definition AddCompletedAssistantMessage (ui : ChatUI) (text : string)
  : ChatUI :=
  AppendToChat ui "Assistant" text.

Definition enqueue (w : World) (u : Update) : World :=
  mkWorld (ui w) (queue w ++ [u])%list (pc w) (responseStarted w).
Definition goto (w : World) (next : NetPC) : World :=
  mkWorld (ui w) (queue w) next (responseStarted w).

(** One step of the goroutine started by [handleInput].  A read error
    and a malformed chunk are written to the process log only. *)
Definition netStep (w : World) : option World :=
  match pc w with
  | Connecting (Failed msg) =>
    Some (goto (enqueue w (UpdStreamError msg)) Finished)
  | Connecting (Streamed body) =>
    Some (mkWorld (ui w) (queue w) (Reading body) false)
  | Reading r =>
    match MainGo.ReadString r with
    | (_, Some _, _) => Some (goto w Finishing)
    | (line, None, r') =>
      match MainGo.lineEvent json_Unmarshal line with
      | MainGo.Ignore => Some (goto w (Reading r'))
      | MainGo.Done => Some (goto w Finishing)
      | MainGo.ParseError _ => Some (goto w (Reading r'))
      | MainGo.Delta delta =>
        let x := setAssistantText (ui w) (assistantText (ui w) ++ delta) in
        Some (mkWorld x (queue w ++ [UpdPartial delta])%list (Reading r')
                      true)
      end
    end
  | Finishing => Some (goto (enqueue w UpdFinish) Finished)
  | Finished => None
  end.

(** Running one queued closure on the display goroutine. *)
Definition runUpdate (u : Update) (ui : ChatUI) (responseStarted : bool)
  : ChatUI :=
  match u with
  | UpdPartial delta => AppendPartialAssistant ui delta
  | UpdFinish =>
    (* Add full message with final markdown rendering *)
    let finalResponse := assistantText ui in
    let ui :=
      if negb (String.eqb finalResponse "") then
        AddCompletedAssistantMessage
          (AddMessage ui "assistant" finalResponse) finalResponse
      else if negb responseStarted then
        AppendToChat ui "System" "Assistant returned an empty response"
      else ui in
    StopLoading ui
  | UpdStreamError msg =>
    AppendToChat (StopLoading ui) "System" ("Error: " ++ msg)
  end.

Definition displayStep (w : World) : option World :=
  match queue w with
  | [] => None
  | u :: rest =>
    Some (mkWorld (runUpdate u (ui w) (responseStarted w)) rest (pc w)
                  (responseStarted w))
  end.

(** [handleInput] up to the [go] statement. *)
Definition handleInput (ui : ChatUI) (input : string) (o : HttpOutcome)
  : World :=
  let ui := AddMessage ui "user" input in
  let ui := AppendToChat ui "You" input in
  let ui := StartLoading ui in
  mkWorld ui [] (Connecting o) false.

Definition stepBy (a : MainGo.Actor) (w : World) : World :=
  match a with
  | MainGo.Net => match netStep w with Some w' => w' | None => w end
  | MainGo.Display => match displayStep w with Some w' => w' | None => w end
  end.

Definition runSchedule (schedule : list MainGo.Actor) (w : World) : World :=
  fold_left (fun w a => stepBy a w) schedule w.

Definition turnOver (w : World) : bool :=
  match pc w, queue w with
  | Finished, [] => true
  | _, _ => false
  end.

End Turn.

End Part001.

(** * Sample instances of the library parameters

    The renderer and the turn are parametric in three functions of
    libraries outside the program.  The instances below fix them on the
    inputs of the examples: they are used to run the model on concrete
    streams and texts. *)
Module Sample.

Definition dq : string := String (ascii_of_nat 34) EmptyString.

(** The JSON text of a chunk with one choice whose delta has the given
    content. *)
Definition chunkHead : string :=
  "{" ++ dq ++ "choices" ++ dq ++ ":[{" ++ dq ++ "delta" ++ dq ++ ":{"
      ++ dq ++ "content" ++ dq ++ ":" ++ dq.
Definition chunkTail : string := dq ++ "}}]}".
Definition chunkJSON (content : string) : string :=
  chunkHead ++ content ++ chunkTail.

(** The escapes of a JSON string: a backslash before [n] stands for a
    line feed, before any other byte for that byte. *)
Fixpoint unescape (s : string) (escaped : bool) : string :=
  match s with
  | EmptyString => EmptyString
  | String c s' =>
    if escaped
    then String (if Ascii.eqb c "n"%char then LF else c) (unescape s' false)
    else if Ascii.eqb c "\"%char then unescape s' true
         else String c (unescape s' false)
  end.

(** A decoder for texts of the shape [chunkJSON content], with
    [content] free of quotes, and for the empty object; any other text is
    reported as malformed. *)
Definition Unmarshal (s : string) : string + MainGo.CompletionResponse :=
  if String.eqb s "{}" then inr (MainGo.mkChunk [])
  else if strings.HasPrefix s chunkHead && strings.HasSuffix s chunkTail
  then
    let content :=
      sliceTo (String.length s - String.length chunkHead
               - String.length chunkTail)
              (sliceFrom (String.length chunkHead) s) in
    if strings.Contains content dq
    then inl "invalid character after object key:value pair"
    else inr (MainGo.mkChunk [unescape content false])
  else inl "invalid character 'n' looking for beginning of object key string".

Definition tagByte (c : ascii) : bool :=
  let b := byteVal c in
  ((65 <=? b) && (b <=? 90) || (97 <=? b) && (b <=? 122) ||
   (48 <=? b) && (b <=? 57) || (b =? 58) || (b =? 45) || (b =? 35))%Z.

(** The length of the tag body that starts [s], when [s] is such a body
    followed by the closing bracket. *)
Fixpoint tagBody (s : string) : option nat :=
  match s with
  | EmptyString => None
  | String c s' =>
    if Ascii.eqb c "]"%char then Some 0
    else if tagByte c
         then match tagBody s' with Some n => Some (S n) | None => None end
         else None
  end.

(** Style tags such as [[blue]], [[-]] or [[::b]] removed: a bracket
    pair around a non-empty run of letters, digits, [:], [-] and [#].
    [skip] counts the bytes of a recognised tag still to be dropped. *)
Fixpoint stripFrom (s : string) (skip : nat) : string :=
  match s with
  | EmptyString => EmptyString
  | String c s' =>
    match skip with
    | S k => stripFrom s' k
    | O =>
      if Ascii.eqb c "["%char then
        match tagBody s' with
        | Some (S n) => stripFrom s' (S (S n))
        | _ => String c (stripFrom s' 0)
        end
      else String c (stripFrom s' 0)
    end
  end.

Definition stripAllTags (s : string) : string := stripFrom s 0.

(** A body with two content chunks, the second one after a malformed
    event, ended by the sentinel. *)
Definition body : MainGo.Reader :=
  MainGo.mkReader
    ("data: " ++ chunkJSON "Hel" ++ nl ++ nl ++
     "data: {not json}" ++ nl ++
     ": keep-alive" ++ nl ++
     "data: " ++ chunkJSON "lo" ++ nl ++ nl ++
     "data: [DONE]" ++ nl)
    None.

Definition emptyUI : MainGo.ChatUI :=
  MainGo.mkUI [] false false EmptyString MainGo.NewMarkdownParser
              EmptyString.

Definition start (body : MainGo.Reader) : MainGo.World :=
  MainGo.handleInput unicode.IsPrintLatin1 emptyUI "hi"
                     (MainGo.OkStream body).

Definition run (schedule : list MainGo.Actor) (w : MainGo.World)
  : MainGo.World :=
  MainGo.runSchedule unicode.IsPrintLatin1 Unmarshal stripAllTags
                     schedule w.

(** One interleaving of the goroutine and the display that ends the
    turn. *)
Definition schedule : list MainGo.Actor :=
  [MainGo.Net; MainGo.Net; MainGo.Display; MainGo.Net; MainGo.Net;
   MainGo.Display; MainGo.Net; MainGo.Net; MainGo.Net; MainGo.Display;
   MainGo.Net; MainGo.Net; MainGo.Net; MainGo.Net; MainGo.Display;
   MainGo.Display; MainGo.Display].

(** The stream of the malformed-chunk example: a content line, the
    line [data: {not json}], a second content line. *)
Definition helLine : string := "data: " ++ chunkJSON "Hel" ++ nl.
Definition loLine : string := "data: " ++ chunkJSON "lo" ++ nl.
Definition sandwichBody : MainGo.Reader :=
  MainGo.mkReader (helLine ++ ("data: {not json}" ++ nl) ++ loLine) None.

(** A body whose first delta holds a line feed. *)
Definition twoLineBody : MainGo.Reader :=
  MainGo.mkReader
    ("data: " ++ chunkJSON "a\nb" ++ nl ++ "data: " ++ chunkJSON "c" ++ nl)
    None.

(** A body on which the model sends no content: only a chunk without
    choices and a comment line before the sentinel. *)
Definition silentBody : MainGo.Reader :=
  MainGo.mkReader
    ("data: {}" ++ nl ++ ": keep-alive" ++ nl ++ "data: [DONE]" ++ nl) None.

(** The same for the turn of part_001. *)
Definition emptyUI001 : Part001.ChatUI :=
  Part001.mkUI [] false false EmptyString Part001.NewMarkdownParser
               EmptyString.

Definition start001 (body : MainGo.Reader) : Part001.World :=
  Part001.handleInput unicode.IsPrintLatin1 emptyUI001 "hi"
                      (Part001.Streamed body).

Definition run001 (schedule : list MainGo.Actor) (w : Part001.World)
  : Part001.World :=
  Part001.runSchedule unicode.IsPrintLatin1 Unmarshal schedule w.

End Sample.

(** * Vocabulary of the statements *)

(** [d1 + .. + dn] *)
Definition concatAll (ds : list string) : string :=
  fold_right append EmptyString ds.

(** The blank lines of a rendered text: the empty ones among the lines
    that its line feeds end. *)
Definition blankLines (out : string) : nat :=
  List.length
    (filter (fun l => String.eqb l "") (removelast (strings.Split out nl))).

(** Every byte of [s] is a graphic ASCII character or a space. *)
Definition printableASCII (s : string) : bool :=
  forallb (fun c => (0x20 <=? byteVal c)%Z && (byteVal c <=? 0x7E)%Z)
          (list_ascii_of_string s).

(** A text with a run of two empty lines between two paragraphs. *)
Definition gapText : string := "a" ++ nl ++ nl ++ nl ++ "b".

(** The chat view while the assistant text [a], line feed, [b] is on
    display below one user line, as the widget holds it and as
    [GetText(true)] returns it. *)
Definition twoLineView : string :=
  "You: hi" ++ nl ++ "[blue]Assistant:[-] [yellow]a" ++ nl ++ "b".
Definition twoLineViewStripped : string :=
  "You: hi" ++ nl ++ "Assistant: a" ++ nl ++ "b".

(** The two pipe lines of the table example. *)
Definition tableText : string := "| a | b |" ++ nl ++ "| 1 | 2 |".

Module TurnInv.
Import MainGo.

Definition emptyNotice : string := "Received empty response from assistant".

(** The closure that the goroutine queues last. *)
Definition lastUpdate (total : string) : Update :=
  if negb (String.eqb total "") then UpdFinal total
  else UpdSystemError emptyNotice.

Definition notFinal (u : Update) : Prop :=
  match u with UpdFinal _ => False | _ => True end.

(** A bound on the moves that the goroutine still has to make. *)
Definition netFuel (w : World) : nat :=
  match pc w with
  | Connecting (OkStream b) => String.length (pending b) + 3
  | Connecting _ => 1
  | Reading r => String.length (pending r) + 2
  | Finishing => 1
  | Finished => 0
  end.

Section Inv.
Variable IsPrint : Z -> bool.
Variable json_Unmarshal : string -> string + CompletionResponse.
Variable stripAllTags : string -> string.
Variable body : Reader.
Variable log0 : list Message.

Definition total : string :=
  concatAll (streamDeltas json_Unmarshal body).

(** What holds of a turn on [body], started with conversation log
    [log0], at every point of every interleaving. *)
Definition Inv (w : World) : Prop :=
  match pc w with
  | Connecting o =>
    o = OkStream body /\ assistantText (ui w) = EmptyString /\
    messages (ui w) = log0 /\ Forall notFinal (queue w)
  | Reading r =>
    total = assistantText (ui w)
            ++ concatAll (streamDeltas json_Unmarshal r) /\
    messages (ui w) = log0 /\ Forall notFinal (queue w)
  | Finishing =>
    assistantText (ui w) = total /\
    messages (ui w) = log0 /\ Forall notFinal (queue w)
  | Finished =>
    assistantText (ui w) = total /\
    ((exists q, queue w = (q ++ [lastUpdate total])%list /\
                Forall notFinal q /\ messages (ui w) = log0) \/
     (queue w = [] /\
      exists u first,
        messages u = log0 /\ assistantText u = total /\
        ui w = fst (runUpdate IsPrint stripAllTags
                      (lastUpdate total) u first)))
  end.
End Inv.
End TurnInv.

(** ** Vocabulary of the further properties *)

(** [l] is one line of a body: its only line feed is its last byte. *)
Definition completeLine (l : string) : bool :=
  match MainGo.cutLine l with
  | Some (_, rest) => String.eqb rest ""
  | None => false
  end.

(** [s] holds no line feed. *)
Definition noLF (s : string) : bool :=
  forallb (fun c => negb (Ascii.eqb c LF)) (list_ascii_of_string s).

(** Every byte of [s] is below [utf8.RuneSelf]. *)
Definition asciiOnly (s : string) : bool :=
  forallb (fun c => (byteVal c <? utf8.RuneSelf)%Z) (list_ascii_of_string s).

(** The bytes of [s] that [keep] accepts, in their order. *)
Fixpoint keepBytes (keep : ascii -> bool) (s : string) : string :=
  match s with
  | EmptyString => EmptyString
  | String c s' =>
    if keep c then String c (keepBytes keep s') else keepBytes keep s'
  end.

(** The bytes that the inline pass reads as markers. *)
Definition markerByte (c : ascii) : bool :=
  Ascii.eqb c "*"%char || Ascii.eqb c "_"%char || Ascii.eqb c "`"%char.

(** A line that the inline pass copies through: it has no backslash,
    and no marker byte unless a code span is open. *)
Definition quietLine (inCode : bool) (line : string) : bool :=
  forallb (fun c => negb (Ascii.eqb c "\"%char)
                    && (inCode || negb (markerByte c)))
          (list_ascii_of_string line).

(** The closures that stop the loading state when they run. *)
Definition stopsLoading (u : MainGo.Update) : bool :=
  match u with
  | MainGo.UpdFinal _ | MainGo.UpdStreamError _ => true
  | _ => false
  end.

(** The message that [handleStreamError] receives for a request that
    did not come back with status 200. *)
Definition failureMessage (o : MainGo.HttpOutcome) : string :=
  match o with
  | MainGo.RequestFailed msg => msg
  | MainGo.BadStatus status errBody =>
    "API error: " ++ status ++ " - " ++ errBody
  | MainGo.OkStream _ => EmptyString
  end.

Definition isStream (o : MainGo.HttpOutcome) : bool :=
  match o with MainGo.OkStream _ => true | _ => false end.

(** Once the goroutine has returned, loading is off or a closure that
    turns it off is still queued. *)
Definition loadingSettles (w : MainGo.World) : Prop :=
  MainGo.pc w = MainGo.Finished ->
  (MainGo.loadingActive (MainGo.ui w) = false /\
   MainGo.inputDisabled (MainGo.ui w) = false) \/
  existsb stopsLoading (MainGo.queue w) = true.

(** The parser of part_001 read as a parser of main.go: the same
    fields, without the mode flag. *)
Definition toMain (q : Part001.MarkdownParser) : MainGo.MarkdownParser :=
  MainGo.mkParser (Part001.inBold q) (Part001.inItalic q) (Part001.inCode q)
                  (Part001.inQuote q) (Part001.inList q) (Part001.buffer q).

(** [line] holds no backtick. *)
Definition noBacktick (line : string) : bool :=
  forallb (fun c => negb (Ascii.eqb c "`"%char)) (list_ascii_of_string line).

(** [l] is empty after trimming. *)
Definition blankLine (l : string) : bool :=
  String.eqb (strings.TrimSpace l) "".

(** A rendered text is empty or ends with a line feed. *)
Definition endsWithLF (out : string) : Prop :=
  out = "" \/ exists t : string, out = t ++ nl.

(** A parser of part_001 in partial mode with no code span open. *)
Definition calm (q : Part001.MarkdownParser) : Prop :=
  Part001.partialMode q = true /\ Part001.inCode q = false.

(** Two parsers that the inline pass cannot tell apart: the same open
    code span and the same buffer. *)
Definition sameInk (p p' : MainGo.MarkdownParser) : Prop :=
  MainGo.inCode p = MainGo.inCode p' /\ MainGo.buf p = MainGo.buf p'.

(** The trimmed line starts like a quote line or a list line. *)
Definition prefixedLine (trimmed : string) : bool :=
  strings.HasPrefix trimmed "> " || strings.HasPrefix trimmed "- "
  || strings.HasPrefix trimmed "* ".

Module Part001Inv.
Import Part001.

Section Inv.
Variable IsPrint : Z -> bool.
Variable json_Unmarshal : string -> string + MainGo.CompletionResponse.
Variable body : MainGo.Reader.
Variable log0 : list MainGo.Message.
Variable view1 : string.

(** What the closure of one delta adds to the chat view. *)
Definition fragment (delta : string) : string :=
  "[blue]Assistant:[-] "
    ++ snd (RenderPartial IsPrint NewMarkdownParser delta).

Definition shown (ds : list string) : string :=
  concatAll (map fragment ds).

Definition deltas : list string := MainGo.streamDeltas json_Unmarshal body.
Definition total : string := concatAll deltas.

(** The turn before its last closure has run: the deltas [done] are on
    display, the deltas [qd] wait in the queue before the closures
    [tailq], and the deltas [rest] are still to be read. *)
Definition streaming (w : World) (rest : list string) (tailq : list Update)
  : Prop :=
  exists done qd : list string,
    queue w = (map UpdPartial qd ++ tailq)%list /\
    chatHistory (ui w) = view1 ++ shown done /\
    assistantText (ui w) = concatAll (done ++ qd) /\
    deltas = (done ++ qd ++ rest)%list /\
    messages (ui w) = log0 /\
    responseStarted w = negb (String.eqb (assistantText (ui w)) "").

(** The UI that the last closure leaves. *)
Definition settled (x : ChatUI) : Prop :=
  assistantText x = total /\
  loadingActive x = false /\ inputDisabled x = false /\
  (total <> "" ->
   messages x = (log0 ++ [MainGo.mkMessage "assistant" total])%list /\
   chatHistory x
   = view1 ++ shown deltas ++ "[blue]Assistant:[-] "
       ++ snd (RenderMarkdown IsPrint NewMarkdownParser total) ++ nl) /\
  (total = "" ->
   messages x = log0 /\
   chatHistory x
   = view1 ++ "[red]System:[-] Assistant returned an empty response" ++ nl).

Definition Inv (w : World) : Prop :=
  match pc w with
  | Connecting o =>
    o = Streamed body /\ assistantText (ui w) = "" /\ streaming w deltas []
  | Reading r => streaming w (MainGo.streamDeltas json_Unmarshal r) []
  | Finishing => streaming w [] []
  | Finished =>
    streaming w [] [UpdFinish] \/ (queue w = [] /\ settled (ui w))
  end.

End Inv.
End Part001Inv.

(** A line that the block pass takes as a paragraph: after trimming
    it is not empty and starts neither like a fence, nor like a table
    row, a quote or a list item. *)
Definition paragraphLine (line : string) : bool :=
  let trimmed := strings.TrimSpace line in
  negb (String.eqb trimmed "") && negb (strings.HasPrefix trimmed "```")
  && negb (strings.HasPrefix trimmed "|") && negb (prefixedLine trimmed).

(** A line of plain text: printable ASCII, a paragraph, with no
    backslash and no marker byte. *)
Definition plainLine (line : string) : bool :=
  printableASCII line && paragraphLine line && quietLine false line.

(** The closure that reports a failed request in part_001. *)
Definition isStreamError (u : Part001.Update) : bool :=
  match u with Part001.UpdStreamError _ => true | _ => false end.

(** * Properties *)

Lemma append_nil_r (s : string) : s ++ "" = s.
Proof. induction s as [|c s IH]; simpl; [reflexivity | now rewrite IH]. Qed.

Lemma append_assoc (a b c : string) : (a ++ b) ++ c = a ++ (b ++ c).
Proof. induction a as [|x a IH]; simpl; [reflexivity | now rewrite IH]. Qed.

Lemma append_cancel_l (s a b : string) : s ++ a = s ++ b -> a = b.
Proof.
  induction s as [|c s IH]; simpl; intros H; [exact H|].
  apply IH. now inversion H.
Qed.

Lemma append_nil_inv (a b : string) : a ++ b = "" -> a = "" /\ b = "".
Proof. destruct a; simpl; intros H; [auto | discriminate]. Qed.

Lemma concatAll_nonempty (ds : list string) :
  Forall (fun d => d <> "") ds -> ds <> [] -> concatAll ds <> "".
Proof.
  intros HF Hne. destruct ds as [|d ds]; [congruence|].
  inversion HF; subst. simpl. intros H.
  apply append_nil_inv in H. tauto.
Qed.

Section TurnFacts.
Import MainGo TurnInv.
Variable IsPrint : Z -> bool.
Variable json_Unmarshal : string -> string + CompletionResponse.
Variable stripAllTags : string -> string.

Local Abbreviation lineEvent := (lineEvent json_Unmarshal).
Local Abbreviation streamDeltas := (streamDeltas json_Unmarshal).
Local Abbreviation deltasFrom := (deltasFrom json_Unmarshal).
Local Abbreviation runUpdate := (runUpdate IsPrint stripAllTags).
Local Abbreviation netStep := (netStep json_Unmarshal).
Local Abbreviation displayStep := (displayStep IsPrint stripAllTags).
Local Abbreviation stepBy := (stepBy IsPrint json_Unmarshal stripAllTags).
Local Abbreviation runSchedule := (runSchedule IsPrint json_Unmarshal stripAllTags).

Lemma cutLine_shorter (s line rest : string) :
  cutLine s = Some (line, rest) -> String.length rest < String.length s.
Proof.
  revert line rest; induction s as [|c s IH]; simpl; intros line rest H.
  - discriminate.
  - destruct (Ascii.eqb c LF).
    + inversion H; subst; lia.
    + destruct (cutLine s) as [[l r]|] eqn:E; [|discriminate].
      inversion H; subst. specialize (IH _ _ eq_refl). lia.
Qed.

Lemma ReadString_shorter (r r' : Reader) (line : string) :
  ReadString r = (line, None, r') ->
  String.length (pending r') < String.length (pending r).
Proof.
  unfold ReadString. destruct (cutLine (pending r)) as [[l rest]|] eqn:E.
  - intros H; inversion H; subst; simpl. eapply cutLine_shorter; eauto.
  - discriminate.
Qed.

(** The read loop needs no more fuel than the body has bytes. *)
Lemma deltasFrom_fuel (f1 : nat) :
  forall (f2 : nat) (r : Reader),
    String.length (pending r) < f1 -> String.length (pending r) < f2 ->
    deltasFrom f1 r = deltasFrom f2 r.
Proof.
  induction f1 as [|f1 IH]; intros f2 r H1 H2; [lia|].
  destruct f2 as [|f2]; [lia|]. simpl.
  destruct (ReadString r) as [[line [e|]] r'] eqn:E; [reflexivity|].
  pose proof (ReadString_shorter _ _ _ E) as Hs.
  destruct (lineEvent line); try reflexivity;
    try (apply IH; lia). f_equal; apply IH; lia.
Qed.

Lemma streamDeltas_line (r r' : Reader) (line : string) :
  ReadString r = (line, None, r') ->
  streamDeltas r =
  match lineEvent line with
  | Delta delta => delta :: streamDeltas r'
  | Done => []
  | _ => streamDeltas r'
  end.
Proof.
  intros E. pose proof (ReadString_shorter _ _ _ E) as Hs.
  unfold MainGo.streamDeltas at 1. simpl. rewrite E.
  destruct (lineEvent line); try reflexivity;
    try (apply deltasFrom_fuel; lia).
  f_equal; apply deltasFrom_fuel; lia.
Qed.

Lemma streamDeltas_end (r r' : Reader) (line : string) (e : ReadErr) :
  ReadString r = (line, Some e, r') -> streamDeltas r = [].
Proof. intros E. unfold MainGo.streamDeltas. simpl. now rewrite E. Qed.

Lemma lineEvent_Delta_nonempty (line delta : string) :
  lineEvent line = Delta delta -> delta <> "".
Proof.
  unfold MainGo.lineEvent.
  destruct (_ || _); [discriminate|].
  destruct (strings.HasPrefix line "data:"); [|discriminate].
  destruct (String.eqb _ "[DONE]"); [discriminate|].
  destruct (json_Unmarshal _) as [err|chunk]; [discriminate|].
  destruct (Choices chunk) as [|content rest]; [discriminate|].
  destruct (String.eqb content "") eqn:E; simpl; [discriminate|].
  intros H; inversion H; subst. now apply String.eqb_neq.
Qed.

Lemma deltasFrom_nonempty (fuel : nat) :
  forall r, Forall (fun d => d <> "") (deltasFrom fuel r).
Proof.
  induction fuel as [|fuel IH]; intros r; simpl; [constructor|].
  destruct (ReadString r) as [[line [e|]] r']; [constructor|].
  destruct (lineEvent line) eqn:E; auto.
  constructor; [eapply lineEvent_Delta_nonempty; eauto | apply IH].
Qed.

(** No queued closure writes the accumulator, and only the final one
    writes the conversation log. *)
Lemma runUpdate_assistantText (u : Update) (x : ChatUI) (first : bool) :
  assistantText (fst (runUpdate u x first)) = assistantText x.
Proof.
  destruct u; simpl.
  - destruct first; reflexivity.
  - unfold finalizeAssistantMessage, formatMarkdown. simpl.
    destruct (RenderMarkdown _ _ _); reflexivity.
  - reflexivity.
  - reflexivity.
Qed.

Lemma runUpdate_messages (u : Update) (x : ChatUI) (first : bool) :
  notFinal u -> messages (fst (runUpdate u x first)) = messages x.
Proof.
  destruct u; simpl; intros H; try contradiction.
  - destruct first; reflexivity.
  - reflexivity.
  - reflexivity.
Qed.

Lemma runUpdate_final_messages (x : ChatUI) (first : bool) (s : string) :
  messages (fst (runUpdate (UpdFinal s) x first)) =
  (messages x ++ [mkMessage "assistant" s])%list.
Proof.
  simpl. unfold finalizeAssistantMessage, formatMarkdown. simpl.
  destruct (RenderMarkdown _ _ _); reflexivity.
Qed.

Section Preservation.
Variable body : Reader.
Variable log0 : list Message.
Local Abbreviation Inv := (Inv IsPrint json_Unmarshal stripAllTags body log0).
Local Abbreviation total := (total json_Unmarshal body).

Lemma Inv_netStep (w w' : World) :
  Inv w -> netStep w = Some w' -> Inv w'.
Proof.
  unfold TurnInv.Inv, MainGo.netStep. destruct w as [x q c first]; simpl.
  destruct c as [o|r| |]; simpl.
  - intros (-> & Hacc & Hm & Hq) H. inversion H; subst; simpl.
    rewrite Hacc. auto.
  - intros (Ht & Hm & Hq).
    destruct (ReadString r) as [[line [e|]] r'] eqn:E.
    + pose proof (streamDeltas_end _ _ _ _ E) as Hend.
      rewrite Hend in Ht; simpl in Ht; rewrite append_nil_r in Ht.
      destruct e; intros H; inversion H; subst; simpl; repeat split; auto.
      apply Forall_app; split; [assumption | repeat constructor].
    + rewrite (streamDeltas_line _ _ _ E) in Ht.
      destruct (lineEvent line) eqn:EL; intros H; inversion H; subst;
        simpl; repeat split; auto.
      * simpl in Ht; now rewrite append_nil_r in Ht.
      * apply Forall_app; split; [assumption | repeat constructor].
      * simpl in Ht. now rewrite append_assoc.
      * apply Forall_app; split; [assumption | repeat constructor].
  - intros (Hacc & Hm & Hq). rewrite Hacc. unfold lastUpdate.
    destruct (negb (String.eqb total "")); intros H; inversion H; subst;
      simpl; (split; [assumption|]); left; exists q; auto.
  - discriminate.
Qed.

Lemma Inv_displayStep (w w' : World) :
  Inv w -> displayStep w = Some w' -> Inv w'.
Proof.
  unfold TurnInv.Inv, MainGo.displayStep.
  destruct w as [x q c first]; simpl.
  destruct q as [|u q]; [discriminate|].
  destruct (runUpdate u x first) as [x' first'] eqn:ER.
  assert (Hx : x' = fst (runUpdate u x first)) by now rewrite ER.
  intros HI H; inversion H; subst w'; simpl; clear H.
  destruct c as [o|r| |]; simpl in *.
  - destruct HI as (Ho & Hacc & Hm & Hq). inversion Hq; subst.
    rewrite runUpdate_assistantText, runUpdate_messages; auto.
  - destruct HI as (Ht & Hm & Hq). inversion Hq; subst.
    rewrite runUpdate_assistantText, runUpdate_messages; auto.
  - destruct HI as (Hacc & Hm & Hq). inversion Hq; subst.
    rewrite runUpdate_assistantText, runUpdate_messages; auto.
  - destruct HI as (Hacc & HI). subst x'.
    rewrite runUpdate_assistantText. split; [assumption|].
    destruct HI as [(q1 & Hq & HF & Hm) | (Hq & _)]; [|discriminate].
    destruct q1 as [|u1 q1]; simpl in Hq; inversion Hq; subst.
    + right. split; [reflexivity|]. exists x, first. auto.
    + left. exists q1. inversion HF; subst.
      rewrite runUpdate_messages; auto.
Qed.

Lemma Inv_stepBy (a : Actor) (w : World) : Inv w -> Inv (stepBy a w).
Proof.
  intros HI. destruct a; simpl.
  - destruct (netStep w) eqn:E; [eapply Inv_netStep; eauto | assumption].
  - destruct (displayStep w) eqn:E;
      [eapply Inv_displayStep; eauto | assumption].
Qed.

Lemma Inv_runSchedule (schedule : list Actor) :
  forall w, Inv w -> Inv (runSchedule schedule w).
Proof.
  induction schedule as [|a schedule IH]; intros w HI; simpl;
    [assumption | apply IH, Inv_stepBy, HI].
Qed.
End Preservation.

Lemma Inv_handleInput (x : ChatUI) (input : string) (body : Reader) :
  Inv IsPrint json_Unmarshal stripAllTags body
      (messages x ++ [mkMessage "user" input])%list
      (handleInput IsPrint x input (OkStream body)).
Proof. unfold TurnInv.Inv; simpl. repeat split; auto. Qed.

(** The state in which every interleaving of a turn on a streamed body
    ends: the accumulator holds the concatenation of the deltas, and the
    UI is the one that the closure queued last leaves. *)
Lemma turn_end (x : ChatUI) (input : string) (body : Reader)
      (schedule : list Actor) :
  let w := runSchedule schedule
             (handleInput IsPrint x input (OkStream body)) in
  let total := concatAll (streamDeltas body) in
  turnOver w = true ->
  assistantText (ui w) = total /\
  exists u first,
    messages u = (messages x ++ [mkMessage "user" input])%list /\
    assistantText u = total /\
    ui w = fst (runUpdate (lastUpdate total) u first).
Proof.
  intros w tot Hover.
  pose proof (Inv_runSchedule body _ schedule _
                (Inv_handleInput x input body)) as HI.
  fold w in HI. unfold TurnInv.Inv in HI. unfold turnOver in Hover.
  destruct (pc w); try discriminate.
  destruct (queue w) eqn:Eq; [|discriminate].
  destruct HI as (Hacc & [(q & Hq & _) | (_ & u & first & Hu)]).
  - destruct q; discriminate.
  - split; [exact Hacc|]. exists u, first. exact Hu.
Qed.

(** *** Every turn ends *)

Lemma netStep_progress (w w' : World) :
  netStep w = Some w' -> netFuel w' < netFuel w.
Proof.
  unfold MainGo.netStep, netFuel. destruct w as [x q c first]; simpl.
  destruct c as [o|r| |].
  - destruct o; intros H; inversion H; subst; simpl; lia.
  - destruct (ReadString r) as [[line [e|]] r'] eqn:E.
    + destruct e; intros H; inversion H; subst; simpl; lia.
    + pose proof (ReadString_shorter _ _ _ E) as Hs.
      destruct (lineEvent line); intros H; inversion H; subst; simpl; lia.
  - destruct (negb _); intros H; inversion H; subst; simpl; lia.
  - discriminate.
Qed.

Lemma netStep_none (w : World) : netStep w = None -> pc w = Finished.
Proof.
  unfold MainGo.netStep. destruct w as [x q c first]; simpl.
  destruct c as [o|r| |]; try reflexivity.
  - destruct o; discriminate.
  - destruct (ReadString r) as [[line [e|]] r'].
    + destruct e; discriminate.
    + destruct (lineEvent line); discriminate.
  - destruct (negb _); discriminate.
Qed.

Lemma net_moves_finish (n : nat) :
  forall w, netFuel w <= n -> pc (runSchedule (repeat Net n) w) = Finished.
Proof.
  induction n as [|n IH]; intros w Hn; simpl.
  - unfold netFuel in Hn. destruct (pc w) as [[| |b]|r| |]; try lia.
    reflexivity.
  - destruct (netStep w) as [w'|] eqn:E.
    + apply IH. apply netStep_progress in E. lia.
    + apply IH. apply netStep_none in E. unfold netFuel. rewrite E. lia.
Qed.

Lemma display_moves_drain (n : nat) :
  forall w, List.length (queue w) <= n ->
            pc (runSchedule (repeat Display n) w) = pc w /\
            queue (runSchedule (repeat Display n) w) = [].
Proof.
  induction n as [|n IH]; intros w Hn; simpl.
  - destruct (queue w); [auto | simpl in Hn; lia].
  - unfold MainGo.displayStep.
    destruct w as [x q c first]; simpl in *.
    destruct q as [|u q].
    + apply (IH (mkWorld x [] c first)). simpl; lia.
    + destruct (runUpdate u x first) as [x' first'].
      apply (IH (mkWorld x' q c first')). simpl in *; lia.
Qed.

(** Whatever the body, the turn is over once the goroutine has made as
    many moves as the body has bytes, and three more, and the display has
    then run the closures in the queue. *)
Lemma turn_ends (x : ChatUI) (input : string) (body : Reader) :
  exists schedule : list Actor,
    turnOver (runSchedule schedule
                (handleInput IsPrint x input (OkStream body))) = true.
Proof.
  set (w0 := handleInput IsPrint x input (OkStream body)).
  set (n := String.length (pending body) + 3).
  set (w1 := runSchedule (repeat Net n) w0).
  exists (repeat Net n ++ repeat Display (List.length (queue w1)))%list.
  unfold MainGo.runSchedule. rewrite fold_left_app.
  fold (runSchedule (repeat Net n) w0). fold w1.
  fold (runSchedule (repeat Display (List.length (queue w1))) w1).
  destruct (display_moves_drain (List.length (queue w1)) w1 (le_n _))
    as [Hpc Hq].
  unfold turnOver. rewrite Hpc, Hq.
  unfold w1. rewrite net_moves_finish; [reflexivity|].
  unfold netFuel, w0. simpl. unfold n. lia.
Qed.

End TurnFacts.

Lemma Sprintf_assistant (arg : string) :
  Sprintf "[blue]Assistant:[-] %s" arg = "[blue]Assistant:[-] " ++ arg.
Proof. simpl. now rewrite append_nil_r. Qed.

Lemma Sprintf_assistant_yellow (arg : string) :
  Sprintf "[blue]Assistant:[-] [yellow]%s" arg
  = "[blue]Assistant:[-] [yellow]" ++ arg.
Proof. simpl. now rewrite append_nil_r. Qed.

(** ** The loops never run out of fuel *)

(** Every iteration of the inline loop advances [i]: any amount of fuel
    that covers the bytes from [i] to the end of the line gives the same
    result, so the [len(line)] units that [markdownLine] hands over are
    enough. *)
Lemma markdownLoop_fuel (f1 : nat) :
  forall (f2 : nat) (line : string) (i : nat) (p : MainGo.MarkdownParser)
         (active : bool),
    String.length line - i <= f1 -> String.length line - i <= f2 ->
    MainGo.markdownLoop f1 line i p active
    = MainGo.markdownLoop f2 line i p active.
Proof.
  induction f1 as [|f1 IH]; intros f2 line i p active H1 H2.
  - destruct f2 as [|f2]; [reflexivity|]. simpl.
    destruct (Nat.ltb i (String.length line)) eqn:E; [|reflexivity].
    apply Nat.ltb_lt in E. lia.
  - destruct f2 as [|f2]; simpl;
      destruct (Nat.ltb i (String.length line)) eqn:E; try reflexivity;
      apply Nat.ltb_lt in E; [lia|]. simpl.
    repeat match goal with
           | |- context [if ?c then _ else _] => destruct c
           | |- context [match String.get ?n ?l with _ => _ end] =>
             destruct (String.get n l)
           end; try reflexivity; apply IH; lia.
Qed.

Lemma part001_markdownLoop_fuel (f1 : nat) :
  forall (f2 : nat) (line : string) (i : nat) (p : Part001.MarkdownParser)
         (active : bool),
    String.length line - i <= f1 -> String.length line - i <= f2 ->
    Part001.markdownLoop f1 line i p active
    = Part001.markdownLoop f2 line i p active.
Proof.
  induction f1 as [|f1 IH]; intros f2 line i p active H1 H2.
  - destruct f2 as [|f2]; [reflexivity|]. simpl.
    destruct (Nat.ltb i (String.length line)) eqn:E; [|reflexivity].
    apply Nat.ltb_lt in E. lia.
  - destruct f2 as [|f2]; simpl;
      destruct (Nat.ltb i (String.length line)) eqn:E; try reflexivity;
      apply Nat.ltb_lt in E; [lia|]. simpl.
    repeat match goal with
           | |- context [if ?c then _ else _] => destruct c
           | |- context [match String.get ?n ?l with _ => _ end] =>
             destruct (String.get n l)
           end; try reflexivity; apply IH; lia.
Qed.

(** The escape guard of the inline loop: the byte that follows a
    backslash is passed over, with nothing written and no state changed. *)
Lemma markdownLoop_after_backslash
      (fuel : nat) (line : string) (i : nat) (p : MainGo.MarkdownParser)
      (active : bool) :
  i < String.length line ->
  MainGo.byteIs line i "\"%char = true ->
  S i < String.length line ->
  MainGo.markdownLoop (S fuel) line (S i) p active
  = MainGo.markdownLoop fuel line (S i + 1) p active.
Proof.
  intros Hi Hb Hn. cbn [MainGo.markdownLoop].
  assert (E : Nat.ltb (S i) (String.length line) = true)
    by now apply Nat.ltb_lt.
  rewrite E. cbn [negb]. cbv iota.
  replace (S i - 1) with i by lia. rewrite Hb.
  reflexivity.
Qed.

Lemma sliceFrom_length (n : nat) :
  forall s : string, String.length (sliceFrom n s) = String.length s - n.
Proof.
  induction n as [|n IH]; intros s; simpl; [lia|].
  destruct s as [|c s]; simpl; [reflexivity | apply IH].
Qed.

Lemma DecodeRune_width (s : string) :
  s <> "" -> 1 <= snd (utf8.DecodeRuneInString s).
Proof.
  intros Hs. destruct s as [|c0 s1]; [congruence|].
  unfold utf8.DecodeRuneInString.
  repeat match goal with
         | |- context [if ?c then _ else _] => destruct c
         | |- context [match ?x with EmptyString => _ | String _ _ => _ end] =>
           destruct x
         end; simpl; lia.
Qed.

(** [strings.Map] reads at least one byte per rune: the [len(s)] units
    of fuel are enough. *)
Lemma mapFrom_fuel (mapping : Z -> Z) (f1 : nat) :
  forall (f2 : nat) (s : string),
    String.length s <= f1 -> String.length s <= f2 ->
    strings.mapFrom f1 mapping s = strings.mapFrom f2 mapping s.
Proof.
  induction f1 as [|f1 IH]; intros f2 s H1 H2.
  - destruct s; [|simpl in H1; lia]. destruct f2; reflexivity.
  - destruct f2 as [|f2].
    + destruct s; [reflexivity | simpl in H2; lia].
    + destruct s as [|c s]; [reflexivity|].
      cbn [strings.mapFrom].
      pose proof (DecodeRune_width (String c s)) as Hw.
      destruct (utf8.DecodeRuneInString (String c s)) as [r width].
      simpl in Hw. specialize (Hw ltac:(discriminate)).
      f_equal. apply IH; rewrite sliceFrom_length;
        cbn [String.length] in *; lia.
Qed.

Lemma trimLeftFrom_fuel (f : Z -> bool) (f1 : nat) :
  forall (f2 : nat) (s : string),
    String.length s <= f1 -> String.length s <= f2 ->
    strings.trimLeftFrom f1 f s = strings.trimLeftFrom f2 f s.
Proof.
  induction f1 as [|f1 IH]; intros f2 s H1 H2.
  - destruct s; [|simpl in H1; lia]. destruct f2; reflexivity.
  - destruct f2 as [|f2].
    + destruct s; [reflexivity | simpl in H2; lia].
    + destruct s as [|c s]; [reflexivity|].
      cbn [strings.trimLeftFrom].
      pose proof (DecodeRune_width (String c s)) as Hw.
      destruct (utf8.DecodeRuneInString (String c s)) as [r width].
      simpl in Hw. specialize (Hw ltac:(discriminate)).
      destruct (f r); [|reflexivity].
      apply IH; rewrite sliceFrom_length; cbn [String.length] in *; lia.
Qed.

Lemma scanStart_le (s : string) (lim fuel : nat) :
  forall start k : nat,
    utf8.scanStart s start lim fuel = Some k -> k <= start.
Proof.
  induction fuel as [|fuel IH]; intros start k; cbn [utf8.scanStart].
  - intros H; inversion H; lia.
  - destruct (Nat.ltb start lim); [intros H; inversion H; lia|].
    destruct (String.get start s) as [c|]; [|intros H; inversion H; lia].
    destruct (utf8.RuneStart c); [intros H; inversion H; lia|].
    destruct start as [|start']; [discriminate|].
    intros H. apply IH in H. lia.
Qed.

Lemma sliceFrom_nonempty (n : nat) (s : string) :
  n < String.length s -> sliceFrom n s <> "".
Proof.
  intros Hn E. pose proof (sliceFrom_length n s) as HL.
  rewrite E in HL. simpl in HL. lia.
Qed.

Lemma DecodeLastRune_size (s : string) :
  s <> "" -> 1 <= snd (utf8.DecodeLastRuneInString s).
Proof.
  intros Hs. unfold utf8.DecodeLastRuneInString.
  destruct (String.length s) as [|e1] eqn:EL.
  - destruct s; [congruence | discriminate].
  - destruct (String.get e1 s) as [c|] eqn:EG.
    + destruct (byteVal c <? utf8.RuneSelf)%Z; [simpl; lia|].
      match goal with
      | |- context [utf8.DecodeRuneInString (sliceFrom ?st s)] =>
        assert (Hst : st < String.length s)
      end.
      { rewrite EL. destruct e1 as [|e2]; [lia|].
        destruct (utf8.scanStart s e2 (S (S e2) - utf8.UTFMax) utf8.UTFMax)
          as [k|] eqn:ES; [apply scanStart_le in ES; lia | lia]. }
      match goal with
      | |- context [utf8.DecodeRuneInString (sliceFrom ?st s)] =>
        pose proof (DecodeRune_width (sliceFrom st s)
                      (sliceFrom_nonempty st s Hst)) as Hw;
        destruct (utf8.DecodeRuneInString (sliceFrom st s)) as [r size];
        destruct (Nat.eqb (st + size) (S e1))
      end; simpl in *; lia.
    + exfalso. clear Hs. revert e1 EL EG.
      induction s as [|c s IH]; intros e1 EL EG; [discriminate|].
      destruct e1 as [|e1]; [discriminate|].
      simpl in EL, EG. inversion EL. destruct s as [|c' s'].
      * discriminate.
      * eapply IH; eauto.
Qed.

Lemma sliceTo_length (n : nat) :
  forall s : string, String.length (sliceTo n s) = Nat.min n (String.length s).
Proof.
  induction n as [|n IH]; intros s; simpl; [reflexivity|].
  destruct s as [|c s]; simpl; [reflexivity | now rewrite IH].
Qed.

(** [strings.TrimSpace] reads at least one byte per rune from either
    end. *)
Lemma trimRightFrom_fuel (f : Z -> bool) (f1 : nat) :
  forall (f2 : nat) (s : string),
    String.length s <= f1 -> String.length s <= f2 ->
    strings.trimRightFrom f1 f s = strings.trimRightFrom f2 f s.
Proof.
  induction f1 as [|f1 IH]; intros f2 s H1 H2.
  - destruct s; [|simpl in H1; lia]. destruct f2; reflexivity.
  - destruct f2 as [|f2].
    + destruct s; [reflexivity | simpl in H2; lia].
    + destruct s as [|c s]; [reflexivity|].
      cbn [strings.trimRightFrom].
      pose proof (DecodeLastRune_size (String c s)) as Hw.
      destruct (utf8.DecodeLastRuneInString (String c s)) as [r size].
      simpl in Hw. specialize (Hw ltac:(discriminate)).
      destruct (f r); [|reflexivity].
      apply IH; rewrite sliceTo_length;
        cbn [String.length] in *; lia.
Qed.

(** ** The accumulator and the conversation log *)

(** C1.  On a streamed body, whatever the interleaving of the goroutine
    and the display, once the turn is over the accumulator holds the
    concatenation [d1 + .. + dn] of the content deltas of the body in
    their order, and when there is at least one delta the conversation log
    is the log before the turn followed by the user message and by one
    assistant message whose content is that very string. *)
Theorem C1_accumulator_reaches_log :
  forall (IsPrint : Z -> bool)
         (json_Unmarshal : string -> string + MainGo.CompletionResponse)
         (stripAllTags : string -> string)
         (x : MainGo.ChatUI) (input : string) (body : MainGo.Reader)
         (schedule : list MainGo.Actor),
    let w := MainGo.runSchedule IsPrint json_Unmarshal stripAllTags schedule
               (MainGo.handleInput IsPrint x input (MainGo.OkStream body)) in
    let ds := MainGo.streamDeltas json_Unmarshal body in
    MainGo.turnOver w = true ->
    MainGo.assistantText (MainGo.ui w) = concatAll ds /\
    (ds <> [] ->
     MainGo.messages (MainGo.ui w) =
     (MainGo.messages x ++
      [MainGo.mkMessage "user" input;
       MainGo.mkMessage "assistant" (concatAll ds)])%list).
Proof.
  intros IsPrint json strip x input body schedule w ds Hover.
  destruct (turn_end IsPrint json strip x input body schedule Hover)
    as (Hacc & u & first & Hm & Hu & Hw).
  fold w in Hacc, Hw. fold ds in Hacc, Hu, Hw.
  split; [exact Hacc|]. intros Hne.
  assert (Htot : concatAll ds <> "").
  { apply concatAll_nonempty; [|exact Hne].
    unfold ds, MainGo.streamDeltas. apply deltasFrom_nonempty. }
  unfold TurnInv.lastUpdate in Hw.
  apply String.eqb_neq in Htot. rewrite Htot in Hw. simpl negb in Hw.
  cbv iota in Hw. rewrite Hw, runUpdate_final_messages, Hm.
  now rewrite <- app_assoc.
Qed.

Lemma C1_accumulator_reaches_log_witness :
  let w := Sample.run Sample.schedule (Sample.start Sample.body) in
  let ds := MainGo.streamDeltas Sample.Unmarshal Sample.body in
  MainGo.assistantText (MainGo.ui w) = concatAll ds /\
  (ds <> [] ->
   MainGo.messages (MainGo.ui w) =
   (MainGo.messages Sample.emptyUI ++
    [MainGo.mkMessage "user" "hi";
     MainGo.mkMessage "assistant" (concatAll ds)])%list).
Proof.
  apply (C1_accumulator_reaches_log unicode.IsPrintLatin1 Sample.Unmarshal
           Sample.stripAllTags Sample.emptyUI "hi" Sample.body
           Sample.schedule).
  vm_compute. reflexivity.
Defined.

(** C7.  Once the turn on a streamed body is over, whatever the
    interleaving: if the accumulated text is not empty, the log has gained
    exactly one assistant message holding it, and the chat view is the
    earlier text without its last line followed by the assistant line
    rendered by [RenderMarkdown]; if it is empty, the log holds nothing
    beyond the user message, but what the view gains is not a system
    notice: [appendSystemError] goes through [AppendToChatPlain], which
    does not look at its role, so the text arrives under the blue
    assistant label, in yellow and without a line feed, and the view is
    not the one that [AppendToChat] with the role System, the call of
    [handleStreamError], would have left. *)
Theorem C7_end_of_stream :
  forall (IsPrint : Z -> bool)
         (json_Unmarshal : string -> string + MainGo.CompletionResponse)
         (stripAllTags : string -> string)
         (x : MainGo.ChatUI) (input : string) (body : MainGo.Reader)
         (schedule : list MainGo.Actor),
    let w := MainGo.runSchedule IsPrint json_Unmarshal stripAllTags schedule
               (MainGo.handleInput IsPrint x input (MainGo.OkStream body)) in
    let acc := MainGo.assistantText (MainGo.ui w) in
    let log0 := (MainGo.messages x ++ [MainGo.mkMessage "user" input])%list in
    MainGo.turnOver w = true ->
    (acc <> "" ->
     MainGo.messages (MainGo.ui w)
     = (log0 ++ [MainGo.mkMessage "assistant" acc])%list /\
     exists u : MainGo.ChatUI,
       MainGo.chatHistory (MainGo.ui w) =
       strings.Join
         (removelast (strings.Split (stripAllTags (MainGo.chatHistory u)) nl)
          ++ [("[blue]Assistant:[-] " ++
               snd (MainGo.RenderMarkdown IsPrint (MainGo.markdownParser u)
                      acc))%string])%list nl) /\
    (acc = "" ->
     MainGo.messages (MainGo.ui w) = log0 /\
     exists u : MainGo.ChatUI,
       MainGo.chatHistory (MainGo.ui w) =
       MainGo.chatHistory u ++
       "[blue]Assistant:[-] [yellow]Received empty response from assistant" /\
       MainGo.chatHistory (MainGo.ui w) <>
       MainGo.chatHistory
         (MainGo.AppendToChat IsPrint u "System" TurnInv.emptyNotice)).
Proof.
  intros IsPrint json strip x input body schedule w acc log0 Hover.
  destruct (turn_end IsPrint json strip x input body schedule Hover)
    as (Hacc & u & first & Hm & Hu & Hw).
  fold w in Hacc, Hw. fold acc in Hacc. rewrite <- Hacc in Hu, Hw.
  unfold TurnInv.lastUpdate in Hw. split; intros Hne.
  - apply String.eqb_neq in Hne. rewrite Hne in Hw. simpl negb in Hw.
    cbv iota in Hw. split.
    + rewrite Hw, runUpdate_final_messages, Hm. reflexivity.
    + exists u. rewrite Hw.
      unfold MainGo.runUpdate, MainGo.finalizeAssistantMessage,
        MainGo.formatMarkdown, MainGo.GetText.
      cbn [fst MainGo.StopLoading MainGo.AddMessage MainGo.setLoading
           MainGo.setMessages MainGo.assistantText MainGo.markdownParser
           MainGo.chatHistory].
      rewrite Hu.
      destruct (MainGo.RenderMarkdown IsPrint (MainGo.markdownParser u) acc)
        as [p out] eqn:ER.
      cbn [fst snd MainGo.SetText MainGo.setParser MainGo.chatHistory].
      now rewrite Sprintf_assistant.
  - rewrite Hne in Hw. simpl in Hw. split.
    + rewrite Hw. exact Hm.
    + exists u. rewrite Hw. split; [reflexivity|].
      unfold MainGo.runUpdate, MainGo.AppendToChatPlain, MainGo.AppendToChat,
        MainGo.Fprint, MainGo.SetText, TurnInv.emptyNotice.
      cbn [fst String.eqb Ascii.eqb Bool.eqb MainGo.chatHistory].
      intros H. apply append_cancel_l in H. discriminate H.
Qed.

Lemma C7_end_of_stream_witness :
  let w := Sample.run Sample.schedule (Sample.start Sample.silentBody) in
  let acc := MainGo.assistantText (MainGo.ui w) in
  let log0 := (MainGo.messages Sample.emptyUI
               ++ [MainGo.mkMessage "user" "hi"])%list in
  (acc <> "" ->
   MainGo.messages (MainGo.ui w)
   = (log0 ++ [MainGo.mkMessage "assistant" acc])%list /\
   exists u : MainGo.ChatUI,
     MainGo.chatHistory (MainGo.ui w) =
     strings.Join
       (removelast
          (strings.Split (Sample.stripAllTags (MainGo.chatHistory u)) nl)
        ++ [("[blue]Assistant:[-] " ++
             snd (MainGo.RenderMarkdown unicode.IsPrintLatin1
                    (MainGo.markdownParser u) acc))%string])%list nl) /\
  (acc = "" ->
   MainGo.messages (MainGo.ui w) = log0 /\
   exists u : MainGo.ChatUI,
     MainGo.chatHistory (MainGo.ui w) =
     MainGo.chatHistory u ++
     "[blue]Assistant:[-] [yellow]Received empty response from assistant" /\
     MainGo.chatHistory (MainGo.ui w) <>
     MainGo.chatHistory
       (MainGo.AppendToChat unicode.IsPrintLatin1 u "System"
          TurnInv.emptyNotice)).
Proof.
  apply (C7_end_of_stream unicode.IsPrintLatin1 Sample.Unmarshal
           Sample.stripAllTags Sample.emptyUI "hi" Sample.silentBody
           Sample.schedule).
  vm_compute. reflexivity.
Defined.

(** The view of C7 in a turn: on a body that sends no content the view
    ends, once the tags are stripped, with the notice behind two
    assistant labels, the one that [handleInput] wrote to begin the
    response line and the one of the notice itself; no line carries the
    System label. *)
Example empty_response_in_a_turn :
  let w := Sample.run Sample.schedule (Sample.start Sample.silentBody) in
  MainGo.turnOver w = true /\
  MainGo.assistantText (MainGo.ui w) = "" /\
  Sample.stripAllTags (MainGo.chatHistory (MainGo.ui w)) =
  "You: hi" ++ nl ++
  "Assistant: Assistant: Received empty response from assistant" /\
  strings.Contains (MainGo.chatHistory (MainGo.ui w)) "System" = false.
Proof. vm_compute. repeat split; reflexivity. Qed.

(** ** The renderer *)

(** C9.  [RenderMarkdown] resets the parser before it reads the text:
    its result does not depend on the state in which earlier calls left
    the parser, so rendering the same text a second time, with the parser
    that the first call returned, gives the same bytes. *)
Theorem C9_render_is_pure :
  forall (IsPrint : Z -> bool) (p : MainGo.MarkdownParser) (text : string),
    snd (MainGo.RenderMarkdown IsPrint
           (fst (MainGo.RenderMarkdown IsPrint p text)) text)
    = snd (MainGo.RenderMarkdown IsPrint p text) /\
    forall q : MainGo.MarkdownParser,
      MainGo.RenderMarkdown IsPrint q text
      = MainGo.RenderMarkdown IsPrint p text.
Proof.
  intros IsPrint p text. unfold MainGo.RenderMarkdown, MainGo.Reset.
  split; [reflexivity | intros q; reflexivity].
Qed.

(** [strings.Map] keeps a text of printable ASCII bytes as it is when
    the mapping keeps every printable ASCII rune. *)
Lemma mapFrom_printable (IsPrint : Z -> bool) :
  (forall r, (0x20 <= r <= 0x7E)%Z -> IsPrint r = true) ->
  forall (s : string) (fuel : nat),
    printableASCII s = true -> String.length s <= fuel ->
    strings.mapFrom fuel (fun r => if IsPrint r then r else (-1)%Z) s = s.
Proof.
  intros HP s. induction s as [|c s IH]; intros fuel Hs Hf.
  - destruct fuel; reflexivity.
  - destruct fuel as [|fuel]; [simpl in Hf; lia|].
    unfold printableASCII in Hs. simpl in Hs.
    apply andb_true_iff in Hs. destruct Hs as [Hc Hs].
    apply andb_true_iff in Hc. destruct Hc as [Hlo Hhi].
    apply Z.leb_le in Hlo. apply Z.leb_le in Hhi.
    cbn [strings.mapFrom]. unfold utf8.DecodeRuneInString.
    assert (Hlt : (byteVal c <? utf8.RuneSelf)%Z = true)
      by (apply Z.ltb_lt; unfold utf8.RuneSelf; lia).
    rewrite Hlt. rewrite (HP (byteVal c)) by lia.
    assert (H0 : (0 <=? byteVal c)%Z = true) by (apply Z.leb_le; lia).
    rewrite H0. unfold utf8.EncodeRune.
    assert (Hn : (byteVal c <? 0)%Z = false) by (apply Z.ltb_ge; lia).
    assert (H7 : (byteVal c <=? 0x7F)%Z = true) by (apply Z.leb_le; lia).
    rewrite Hn, H7. unfold byteOf, byteVal.
    rewrite Nat2Z.id, ascii_nat_embedding. simpl.
    f_equal. apply IH; [exact Hs | simpl in Hf; lia].
Qed.

Lemma Map_printable (IsPrint : Z -> bool) (s : string) :
  (forall r, (0x20 <= r <= 0x7E)%Z -> IsPrint r = true) ->
  printableASCII s = true ->
  strings.Map (fun r => if IsPrint r then r else (-1)%Z) s = s.
Proof.
  intros HP Hs. unfold strings.Map. now apply mapFrom_printable.
Qed.

(** Evaluation of [RenderMarkdown] on a text of printable ASCII bytes,
    for any [IsPrint] that keeps them. *)
Ltac render_ascii HP :=
  unfold MainGo.RenderMarkdown, MainGo.filteredString;
  cbv -[strings.Map MainGo.markdownLine];
  rewrite ?(fun s => Map_printable _ s HP) by reflexivity;
  vm_compute; reflexivity.

(** C2.  On the line [a\*b*c*] the inline pass writes the backslash and
    leaves out the asterisk that follows it: the byte after a backslash is
    passed over without being written.  The two later asterisks open and
    close an italic span around [c]. *)
Theorem C2_escaped_byte_is_left_out :
  forall p : MainGo.MarkdownParser,
    MainGo.buf (MainGo.markdownLine (MainGo.Reset p) "a\*b*c*")
    = "a\b[::i][white]c[::-][white]".
Proof. intros p. vm_compute. reflexivity. Qed.

(** C3.  A quote line and a list line come out without any prefix: the
    quote bar and the bullet are written to the buffer that
    [markdownLine] clears before it renders the rest of the line.  This
    holds for the first line of a run as for the following ones. *)
Theorem C3_prefix_is_lost :
  forall (IsPrint : Z -> bool) (p : MainGo.MarkdownParser),
    (forall r, (0x20 <= r <= 0x7E)%Z -> IsPrint r = true) ->
    snd (MainGo.RenderMarkdown IsPrint p "> hi") = "hi" ++ nl /\
    snd (MainGo.RenderMarkdown IsPrint p "- hi") = "hi" ++ nl /\
    snd (MainGo.RenderMarkdown IsPrint p "* hi") = "hi" ++ nl /\
    snd (MainGo.RenderMarkdown IsPrint p ("> hi" ++ nl ++ "> there"))
    = "hi" ++ nl ++ "there" ++ nl.
Proof.
  intros IsPrint p HP. repeat split; render_ascii HP.
Qed.

Lemma C3_prefix_is_lost_witness :
  snd (MainGo.RenderMarkdown unicode.IsPrintLatin1 MainGo.NewMarkdownParser
         "> hi") = "hi" ++ nl /\
  snd (MainGo.RenderMarkdown unicode.IsPrintLatin1 MainGo.NewMarkdownParser
         "- hi") = "hi" ++ nl /\
  snd (MainGo.RenderMarkdown unicode.IsPrintLatin1 MainGo.NewMarkdownParser
         "* hi") = "hi" ++ nl /\
  snd (MainGo.RenderMarkdown unicode.IsPrintLatin1 MainGo.NewMarkdownParser
         ("> hi" ++ nl ++ "> there"))
  = "hi" ++ nl ++ "there" ++ nl.
Proof.
  apply (C3_prefix_is_lost unicode.IsPrintLatin1 MainGo.NewMarkdownParser).
  intros r Hr. unfold unicode.IsPrintLatin1.
  apply orb_true_iff; left. apply andb_true_iff; split; apply Z.leb_le; lia.
Defined.

(** C4, the claim refuted: on the two pipe lines the output is not the
    first line as a paragraph followed by the cells of the second. *)
Lemma C4_first_pipe_line_not_a_paragraph :
  snd (MainGo.RenderMarkdown unicode.IsPrintLatin1 MainGo.NewMarkdownParser
         tableText)
  <> MainGo.buf (MainGo.markdownLine MainGo.NewMarkdownParser
                   (MainGo.filteredString unicode.IsPrintLatin1 "| a | b |"))
     ++ nl ++ "[::b]1[::-] [::b]2[::-] " ++ nl.
Proof. vm_compute. discriminate. Qed.

(** C4, amended.  On the two pipe lines the whole output is the second
    line as cells, each non-empty trimmed cell a bold run followed by a
    space; the first line, which has no pipe line before it, produces no
    output. *)
Theorem C4_table_rows :
  forall (IsPrint : Z -> bool) (p : MainGo.MarkdownParser),
    snd (MainGo.RenderMarkdown IsPrint p tableText)
    = "[::b]1[::-] [::b]2[::-] " ++ nl.
Proof. intros IsPrint p. vm_compute. reflexivity. Qed.

(** C6.  In the renderer of main.go and in the full mode of part_001,
    on the line [`ab`c] the first backtick opens the span and takes the
    byte after it along, and the second backtick is written as text: the
    span stays open to the end of the line and [inCode] stays set.  In
    partial mode the backticks are written as text and [inCode] stays
    clear. *)
Theorem C6_backtick_span :
  forall (p : MainGo.MarkdownParser) (q : Part001.MarkdownParser),
    (let r := MainGo.markdownLine (MainGo.Reset p) "`ab`c" in
     MainGo.buf r = "[::r]b`c[::-]" /\ MainGo.inCode r = true) /\
    (let r := Part001.markdownLine
                (Part001.Reset (Part001.setPartialMode q false)) "`ab`c" in
     Part001.buffer r = "[::r]b`c[::-]" /\ Part001.inCode r = true) /\
    (let r := Part001.markdownLine
                (Part001.Reset (Part001.setPartialMode q true)) "`ab`c" in
     Part001.buffer r = "`ab`c" /\ Part001.inCode r = false).
Proof. intros p q. vm_compute. repeat split; reflexivity. Qed.

(** C8, the claim refuted: on a text with a run of two empty lines
    between two paragraphs, the full mode of part_001 does not give
    exactly one blank line and its partial mode does not give none. *)
Lemma C8_blank_line_counts_differ :
  blankLines (snd (Part001.RenderMarkdown unicode.IsPrintLatin1
                     Part001.NewMarkdownParser gapText)) <> 1 /\
  blankLines (snd (Part001.RenderPartial unicode.IsPrintLatin1
                     Part001.NewMarkdownParser gapText)) <> 0.
Proof. vm_compute. split; discriminate. Qed.

(** C8, amended.  In the line loop, a run of two empty lines met after
    a line that was not empty adds exactly one line feed to the output
    in the partial mode of part_001 and in [RenderMarkdown] of main.go,
    and two in the full mode of part_001; in each case the list and quote
    flags are cleared and the loop goes on after the run. *)
Theorem C8_empty_line_run :
  forall (IsPrint : Z -> bool) (lines : list string) (i : nat)
         (e1 e2 : string) (rest : list string)
         (p : Part001.MarkdownParser) (q : MainGo.MarkdownParser)
         (output : string),
    strings.TrimSpace e1 = "" -> strings.TrimSpace e2 = "" ->
    Part001.renderLines IsPrint true lines i (e1 :: e2 :: rest) p output false
    = Part001.renderLines IsPrint true lines (S (S i)) rest
        (Part001.setInQuote (Part001.setInList p false) false)
        (output ++ nl) true /\
    Part001.renderLines IsPrint false lines i (e1 :: e2 :: rest) p output false
    = Part001.renderLines IsPrint false lines (S (S i)) rest
        (Part001.setInQuote (Part001.setInList p false) false)
        ((output ++ nl) ++ nl) true /\
    MainGo.renderLines IsPrint lines i (e1 :: e2 :: rest) q output false
    = MainGo.renderLines IsPrint lines (S (S i)) rest
        (MainGo.setInQuote (MainGo.setInList q false) false)
        (output ++ nl) true.
Proof.
  intros IsPrint lines i e1 e2 rest p q output H1 H2.
  cbn [Part001.renderLines MainGo.renderLines].
  rewrite H1, H2. cbn -[Part001.renderLines MainGo.renderLines nl].
  destruct p as [pb pi pc pq pl pbuf pm]; destruct q as [qb qi qc qq ql qbuf].
  destruct pl, pq, ql, qq; repeat split; reflexivity.
Qed.

Lemma C8_empty_line_run_witness :
  let lines := ["a"; ""; "  "; "b"] in
  let p := Part001.NewMarkdownParser in
  let q := MainGo.NewMarkdownParser in
  let IsPrint := unicode.IsPrintLatin1 in
  let output := "a" ++ nl in
  Part001.renderLines IsPrint true lines 1 [""; "  "; "b"] p output false
  = Part001.renderLines IsPrint true lines 3 ["b"]
      (Part001.setInQuote (Part001.setInList p false) false)
      (output ++ nl) true /\
  Part001.renderLines IsPrint false lines 1 [""; "  "; "b"] p output false
  = Part001.renderLines IsPrint false lines 3 ["b"]
      (Part001.setInQuote (Part001.setInList p false) false)
      ((output ++ nl) ++ nl) true /\
  MainGo.renderLines IsPrint lines 1 [""; "  "; "b"] q output false
  = MainGo.renderLines IsPrint lines 3 ["b"]
      (MainGo.setInQuote (MainGo.setInList q false) false)
      (output ++ nl) true.
Proof.
  apply (C8_empty_line_run unicode.IsPrintLatin1 ["a"; ""; "  "; "b"] 1
           "" "  " ["b"] Part001.NewMarkdownParser MainGo.NewMarkdownParser
           ("a" ++ nl)); reflexivity.
Defined.

(** ** The stream loop and the chat view *)

Lemma cutLine_app (l rest : string) :
  MainGo.cutLine l = Some (l, "") -> MainGo.cutLine (l ++ rest) = Some (l, rest).
Proof.
  induction l as [|c l IH]; simpl; [discriminate|].
  destruct (Ascii.eqb c LF).
  - intros H; inversion H; subst. reflexivity.
  - destruct (MainGo.cutLine l) as [[l' r']|] eqn:E; [|discriminate].
    intros H; inversion H; subst. now rewrite IH.
Qed.

Lemma ReadString_app (l rest : string) (f : option string) :
  MainGo.cutLine l = Some (l, "") ->
  MainGo.ReadString (MainGo.mkReader (l ++ rest) f)
  = (l, None, MainGo.mkReader rest f).
Proof.
  intros H. unfold MainGo.ReadString. simpl.
  now rewrite (cutLine_app l rest H).
Qed.

Lemma runSchedule_cons
      (IsPrint : Z -> bool)
      (json_Unmarshal : string -> string + MainGo.CompletionResponse)
      (stripAllTags : string -> string)
      (a : MainGo.Actor) (schedule : list MainGo.Actor) (w : MainGo.World) :
  MainGo.runSchedule IsPrint json_Unmarshal stripAllTags (a :: schedule) w
  = MainGo.runSchedule IsPrint json_Unmarshal stripAllTags schedule
      (MainGo.stepBy IsPrint json_Unmarshal stripAllTags a w).
Proof. reflexivity. Qed.

Lemma lineEvent_not_json
      (json_Unmarshal : string -> string + MainGo.CompletionResponse)
      (err : string) :
  json_Unmarshal "{not json}" = inl err ->
  MainGo.lineEvent json_Unmarshal ("data: {not json}" ++ nl)
  = MainGo.ParseError err.
Proof.
  intros H. unfold MainGo.lineEvent.
  change (strings.TrimSpace
            (strings.TrimPrefix ("data: {not json}" ++ nl) "data:"))
    with "{not json}".
  change (String.eqb (strings.TrimSpace ("data: {not json}" ++ nl)) ""
          || strings.HasPrefix ("data: {not json}" ++ nl) ":") with false.
  change (strings.HasPrefix ("data: {not json}" ++ nl) "data:") with true.
  cbv iota. rewrite H. reflexivity.
Qed.

(** One move of the goroutine at the head of a schedule, and the
    clean-up of the world it leaves. *)
Ltac net_move :=
  rewrite runSchedule_cons; cbn [MainGo.stepBy]; unfold MainGo.netStep;
  cbn [MainGo.pc].
Ltac net_settle :=
  unfold MainGo.goto, MainGo.enqueue, MainGo.withUI, MainGo.appendSystemError;
  cbn [MainGo.ui MainGo.queue MainGo.pc MainGo.isFirst app].

(** C5, the claim refuted: on the stream of a content line, the line
    [data: {not json}] and a second content line, the closures that the
    goroutine hands to the display are not free of error notices. *)
Lemma C5_parse_error_is_surfaced :
  let w := Sample.run (repeat MainGo.Net 6)
                      (Sample.start Sample.sandwichBody) in
  ~ (forall u : MainGo.Update,
        In u (MainGo.queue w) ->
        match u with MainGo.UpdSystemError _ => False | _ => True end).
Proof.
  intros w H.
  apply (H (MainGo.UpdSystemError
              ("JSON parse error: " ++
               "invalid character 'n' looking for beginning of object key string"))).
  vm_compute. right; left; reflexivity.
Qed.

(** C5, amended.  On a body made of a content line for [d1], the line
    [data: {not json}] and a content line for [d2], the read loop takes
    exactly the deltas [d1] and [d2], in this order, and does not stop at
    the malformed line: the accumulator ends as [d1 + d2] and the
    goroutine returns after queueing the final message.  For the
    malformed line it queues a notice for the chat view, made of
    [JSON parse error: ] and the decoder's message, between the closures
    of the two deltas. *)
Theorem C5_malformed_chunk_is_skipped :
  forall (IsPrint : Z -> bool)
         (json_Unmarshal : string -> string + MainGo.CompletionResponse)
         (stripAllTags : string -> string)
         (x : MainGo.ChatUI) (input l1 l2 d1 d2 err : string),
    MainGo.cutLine l1 = Some (l1, "") ->
    MainGo.cutLine l2 = Some (l2, "") ->
    MainGo.lineEvent json_Unmarshal l1 = MainGo.Delta d1 ->
    MainGo.lineEvent json_Unmarshal l2 = MainGo.Delta d2 ->
    json_Unmarshal "{not json}" = inl err ->
    let body := MainGo.mkReader (l1 ++ ("data: {not json}" ++ nl) ++ l2)
                                None in
    let w := MainGo.runSchedule IsPrint json_Unmarshal stripAllTags
               (repeat MainGo.Net 6)
               (MainGo.handleInput IsPrint x input (MainGo.OkStream body)) in
    MainGo.streamDeltas json_Unmarshal body = [d1; d2] /\
    MainGo.assistantText (MainGo.ui w) = d1 ++ d2 /\
    MainGo.pc w = MainGo.Finished /\
    MainGo.queue w =
    [MainGo.UpdDelta d1;
     MainGo.UpdSystemError ("JSON parse error: " ++ err);
     MainGo.UpdDelta d2;
     MainGo.UpdFinal (d1 ++ d2)].
Proof.
  intros IsPrint json strip x input l1 l2 d1 d2 err Hl1 Hl2 He1 He2 Hbad
         body w.
  pose proof (lineEvent_not_json json err Hbad) as Hev.
  pose proof (lineEvent_Delta_nonempty json l1 d1 He1) as Hd1.
  assert (R1 : MainGo.ReadString body
               = (l1, None,
                  MainGo.mkReader (("data: {not json}" ++ nl) ++ l2) None))
    by (apply ReadString_app; exact Hl1).
  assert (R2 : MainGo.ReadString
                 (MainGo.mkReader (("data: {not json}" ++ nl) ++ l2) None)
               = ("data: {not json}" ++ nl, None, MainGo.mkReader l2 None))
    by reflexivity.
  assert (R3 : MainGo.ReadString (MainGo.mkReader l2 None)
               = (l2, None, MainGo.mkReader "" None)).
  { rewrite <- (append_nil_r l2) at 1. apply ReadString_app; exact Hl2. }
  assert (R4 : MainGo.ReadString (MainGo.mkReader "" None)
               = ("", Some MainGo.EOF, MainGo.mkReader "" None))
    by reflexivity.
  split.
  - rewrite (streamDeltas_line json _ _ _ R1), He1.
    rewrite (streamDeltas_line json _ _ _ R2), Hev.
    rewrite (streamDeltas_line json _ _ _ R3), He2.
    now rewrite (streamDeltas_end json _ _ _ _ R4).
  - assert (Hw : w = MainGo.mkWorld
                     (MainGo.setAssistantText
                        (MainGo.ui (MainGo.handleInput IsPrint x input
                                      (MainGo.OkStream body)))
                        (d1 ++ d2))
                     [MainGo.UpdDelta d1;
                      MainGo.UpdSystemError ("JSON parse error: " ++ err);
                      MainGo.UpdDelta d2;
                      MainGo.UpdFinal (d1 ++ d2)]
                     MainGo.Finished true).
    { subst w. simpl repeat.
      set (ui0 := MainGo.ui (MainGo.handleInput IsPrint x input
                               (MainGo.OkStream body))).
      assert (Hacc0 : MainGo.assistantText ui0 = "") by reflexivity.
      change (MainGo.handleInput IsPrint x input (MainGo.OkStream body))
        with (MainGo.mkWorld ui0 [] (MainGo.Connecting (MainGo.OkStream body))
                             true).
      net_move. net_settle.
      net_move. rewrite R1, He1. net_settle.
      net_move. rewrite R2, Hev. net_settle.
      net_move. rewrite R3, He2. net_settle.
      net_move. rewrite R4. net_settle.
      net_move. unfold MainGo.setAssistantText at 3.
      cbn [MainGo.assistantText]. rewrite Hacc0.
      destruct d1 as [|c d1']; [congruence|].
      cbn [append String.eqb negb Ascii.eqb]. net_settle.
      unfold MainGo.setAssistantText. cbn. reflexivity. }
    rewrite Hw. cbn. auto.
Qed.

Lemma C5_malformed_chunk_is_skipped_witness :
  let body := MainGo.mkReader
                (Sample.helLine ++ ("data: {not json}" ++ nl) ++ Sample.loLine)
                None in
  let w := MainGo.runSchedule unicode.IsPrintLatin1 Sample.Unmarshal
             Sample.stripAllTags (repeat MainGo.Net 6)
             (MainGo.handleInput unicode.IsPrintLatin1 Sample.emptyUI "hi"
                                 (MainGo.OkStream body)) in
  MainGo.streamDeltas Sample.Unmarshal body = ["Hel"; "lo"] /\
  MainGo.assistantText (MainGo.ui w) = "Hel" ++ "lo" /\
  MainGo.pc w = MainGo.Finished /\
  MainGo.queue w =
  [MainGo.UpdDelta "Hel";
   MainGo.UpdSystemError
     ("JSON parse error: " ++
      "invalid character 'n' looking for beginning of object key string");
   MainGo.UpdDelta "lo";
   MainGo.UpdFinal ("Hel" ++ "lo")].
Proof.
  apply (C5_malformed_chunk_is_skipped unicode.IsPrintLatin1 Sample.Unmarshal
           Sample.stripAllTags Sample.emptyUI "hi" Sample.helLine
           Sample.loLine "Hel" "lo"
           "invalid character 'n' looking for beginning of object key string");
    vm_compute; reflexivity.
Defined.

(** C10.  While the assistant text [a], line feed, [b] is on display
    and the delta [c] has just been accumulated, [appendDelta] removes
    only the last line [b] of the view: the earlier line of the assistant
    text stays, and the assistant prefix with the whole accumulated text
    is written after it.  The result is not the user line followed by the
    prefix and the accumulated text. *)
Theorem C10_appendDelta_keeps_stale_line :
  forall (stripAllTags : string -> string) (log : list MainGo.Message)
         (active disabled : bool) (parser : MainGo.MarkdownParser),
    stripAllTags twoLineView = twoLineViewStripped ->
    let x := MainGo.mkUI log active disabled ("a" ++ nl ++ "bc") parser
                         twoLineView in
    let x' := MainGo.appendDelta stripAllTags x "c" in
    MainGo.chatHistory x' =
    "You: hi" ++ nl ++ "Assistant: a" ++ nl ++
    "[blue]Assistant:[-] [yellow]a" ++ nl ++ "bc" /\
    MainGo.chatHistory x' <>
    "You: hi" ++ nl ++ "[blue]Assistant:[-] [yellow]a" ++ nl ++ "bc" /\
    MainGo.messages x' = log /\
    MainGo.assistantText x' = "a" ++ nl ++ "bc".
Proof.
  intros strip log active disabled parser Hs x x'.
  assert (Hx : MainGo.chatHistory x' =
               "You: hi" ++ nl ++ "Assistant: a" ++ nl ++
               "[blue]Assistant:[-] [yellow]a" ++ nl ++ "bc").
  { unfold x', MainGo.appendDelta, MainGo.GetText.
    cbn [MainGo.chatHistory MainGo.assistantText x MainGo.SetText].
    rewrite Hs. vm_compute. reflexivity. }
  repeat split.
  - exact Hx.
  - rewrite Hx. vm_compute. discriminate.
Qed.

Lemma C10_appendDelta_keeps_stale_line_witness :
  let x := MainGo.mkUI [] true true ("a" ++ nl ++ "bc")
                       MainGo.NewMarkdownParser twoLineView in
  let x' := MainGo.appendDelta Sample.stripAllTags x "c" in
  MainGo.chatHistory x' =
  "You: hi" ++ nl ++ "Assistant: a" ++ nl ++
  "[blue]Assistant:[-] [yellow]a" ++ nl ++ "bc" /\
  MainGo.chatHistory x' <>
  "You: hi" ++ nl ++ "[blue]Assistant:[-] [yellow]a" ++ nl ++ "bc" /\
  MainGo.messages x' = [] /\
  MainGo.assistantText x' = "a" ++ nl ++ "bc".
Proof.
  apply (C10_appendDelta_keeps_stale_line Sample.stripAllTags [] true true
           MainGo.NewMarkdownParser).
  vm_compute. reflexivity.
Defined.

(** The view of C10 arises in a turn: after the deltas [a], line feed,
    [b] and then [c], with the display running each closure as soon as it
    is queued, the second [appendDelta] starts from [twoLineView] and
    leaves the line [Assistant: a] twice on display. *)
Example appendDelta_in_a_turn :
  let before := Sample.run [MainGo.Net; MainGo.Net; MainGo.Display; MainGo.Net]
                           (Sample.start Sample.twoLineBody) in
  let after := Sample.run [MainGo.Display] before in
  MainGo.chatHistory (MainGo.ui before) = twoLineView /\
  MainGo.assistantText (MainGo.ui before) = "a" ++ nl ++ "bc" /\
  MainGo.queue before = [MainGo.UpdDelta "c"] /\
  Sample.stripAllTags (MainGo.chatHistory (MainGo.ui after)) =
  "You: hi" ++ nl ++ "Assistant: a" ++ nl ++ "Assistant: a" ++ nl ++ "bc".
Proof. vm_compute. repeat split; reflexivity. Qed.

(** * Further properties of the stream loop *)

Lemma cutLine_split (s line rest : string) :
  MainGo.cutLine s = Some (line, rest) -> s = line ++ rest.
Proof.
  revert line rest. induction s as [|c s IH]; simpl; intros line rest H.
  - discriminate.
  - destruct (Ascii.eqb c LF).
    + inversion H; subst. reflexivity.
    + destruct (MainGo.cutLine s) as [[l r]|]; [|discriminate].
      inversion H; subst. simpl. f_equal. now apply IH.
Qed.

Lemma completeLine_cut (l : string) :
  completeLine l = true -> MainGo.cutLine l = Some (l, "").
Proof.
  unfold completeLine.
  destruct (MainGo.cutLine l) as [[l' rest]|] eqn:E; [|discriminate].
  intros H. apply String.eqb_eq in H. subst rest.
  apply cutLine_split in E. rewrite append_nil_r in E. now subst l'.
Qed.

Lemma cutLine_noLF (s : string) : noLF s = true -> MainGo.cutLine s = None.
Proof.
  unfold noLF. induction s as [|c s IH]; simpl; [reflexivity|].
  intros H. apply andb_true_iff in H. destruct H as [Hc Hs].
  destruct (Ascii.eqb c LF); [discriminate|]. now rewrite (IH Hs).
Qed.

(** Complete lines in front of two bodies that give the same deltas
    leave them giving the same deltas. *)
Lemma streamDeltas_after_lines
      (json_Unmarshal : string -> string + MainGo.CompletionResponse)
      (pre : list string) (a b : string) (f g : option string) :
  forallb completeLine pre = true ->
  MainGo.streamDeltas json_Unmarshal (MainGo.mkReader a f)
  = MainGo.streamDeltas json_Unmarshal (MainGo.mkReader b g) ->
  MainGo.streamDeltas json_Unmarshal (MainGo.mkReader (concatAll pre ++ a) f)
  = MainGo.streamDeltas json_Unmarshal (MainGo.mkReader (concatAll pre ++ b) g).
Proof.
  intros Hpre Hab. induction pre as [|l pre IH]; simpl; [exact Hab|].
  simpl in Hpre. apply andb_true_iff in Hpre. destruct Hpre as [Hl Hpre].
  apply completeLine_cut in Hl. rewrite !append_assoc.
  rewrite (streamDeltas_line json_Unmarshal _ _ _
             (ReadString_app l (concatAll pre ++ a) f Hl)).
  rewrite (streamDeltas_line json_Unmarshal _ _ _
             (ReadString_app l (concatAll pre ++ b) g Hl)).
  rewrite (IH Hpre). reflexivity.
Qed.

(** X1.  The sentinel ends the stream: the deltas of a body do not
    depend on what follows the line [data: [DONE]], be it further data
    lines or a read error. *)
Theorem X1_nothing_is_read_after_the_sentinel :
  forall (json_Unmarshal : string -> string + MainGo.CompletionResponse)
         (pre : list string) (rest : string) (f : option string),
    forallb completeLine pre = true ->
    MainGo.streamDeltas json_Unmarshal
      (MainGo.mkReader (concatAll pre ++ ("data: [DONE]" ++ nl) ++ rest) f)
    = MainGo.streamDeltas json_Unmarshal
        (MainGo.mkReader (concatAll pre ++ ("data: [DONE]" ++ nl)) None).
Proof.
  intros json pre rest f Hpre.
  apply streamDeltas_after_lines; [exact Hpre|].
  assert (R1 : MainGo.ReadString
                 (MainGo.mkReader (("data: [DONE]" ++ nl) ++ rest) f)
               = ("data: [DONE]" ++ nl, None, MainGo.mkReader rest f))
    by reflexivity.
  assert (R2 : MainGo.ReadString
                 (MainGo.mkReader ("data: [DONE]" ++ nl) None)
               = ("data: [DONE]" ++ nl, None, MainGo.mkReader "" None))
    by reflexivity.
  rewrite (streamDeltas_line json _ _ _ R1).
  rewrite (streamDeltas_line json _ _ _ R2).
  reflexivity.
Qed.

Lemma X1_nothing_is_read_after_the_sentinel_witness :
  MainGo.streamDeltas Sample.Unmarshal
    (MainGo.mkReader
       (concatAll [Sample.helLine] ++ ("data: [DONE]" ++ nl) ++ Sample.loLine)
       (Some "connection reset"))
  = MainGo.streamDeltas Sample.Unmarshal
      (MainGo.mkReader (concatAll [Sample.helLine] ++ ("data: [DONE]" ++ nl))
                       None).
Proof.
  apply (X1_nothing_is_read_after_the_sentinel Sample.Unmarshal
           [Sample.helLine] Sample.loLine (Some "connection reset")).
  vm_compute. reflexivity.
Defined.

(** X2.  Bytes after the last line feed of a body are never looked at:
    a last event line that the server did not end with a line feed is
    dropped, whatever it holds and however the body ends. *)
Theorem X2_unterminated_last_line_is_dropped :
  forall (json_Unmarshal : string -> string + MainGo.CompletionResponse)
         (pre : list string) (tail : string) (f : option string),
    forallb completeLine pre = true -> noLF tail = true ->
    MainGo.streamDeltas json_Unmarshal
      (MainGo.mkReader (concatAll pre ++ tail) f)
    = MainGo.streamDeltas json_Unmarshal
        (MainGo.mkReader (concatAll pre) None).
Proof.
  intros json pre tail f Hpre Htail.
  transitivity (MainGo.streamDeltas json
                  (MainGo.mkReader (concatAll pre ++ "") None));
    [|now rewrite append_nil_r].
  apply streamDeltas_after_lines; [exact Hpre|].
  assert (R1 : exists e,
             MainGo.ReadString (MainGo.mkReader tail f)
             = (tail, Some e, MainGo.mkReader "" f)).
  { unfold MainGo.ReadString. simpl. rewrite (cutLine_noLF tail Htail).
    eexists; reflexivity. }
  destruct R1 as [e R1].
  rewrite (streamDeltas_end json _ _ _ _ R1). reflexivity.
Qed.

Lemma X2_unterminated_last_line_is_dropped_witness :
  MainGo.streamDeltas Sample.Unmarshal
    (MainGo.mkReader
       (concatAll [Sample.helLine] ++ ("data: " ++ Sample.chunkJSON "lo"))
       None)
  = MainGo.streamDeltas Sample.Unmarshal
      (MainGo.mkReader (concatAll [Sample.helLine]) None).
Proof.
  apply (X2_unterminated_last_line_is_dropped Sample.Unmarshal
           [Sample.helLine] ("data: " ++ Sample.chunkJSON "lo") None);
    vm_compute; reflexivity.
Defined.

(** * Further properties of the turn *)

Section TurnMore.
Import MainGo.
Variable IsPrint : Z -> bool.
Variable json_Unmarshal : string -> string + CompletionResponse.
Variable stripAllTags : string -> string.

Local Abbreviation run := (runSchedule IsPrint json_Unmarshal stripAllTags).
Local Abbreviation move := (stepBy IsPrint json_Unmarshal stripAllTags).

(** The three worlds of a turn whose request fails. *)
Lemma failed_request_worlds (x : ChatUI) (o : HttpOutcome) :
  isStream o = false ->
  let w0 := mkWorld x [] (Connecting o) true in
  let w1 := mkWorld x [UpdStreamError (failureMessage o)] Finished true in
  let w2 := mkWorld (AppendToChat IsPrint (StopLoading x) "System"
                       ("Error: " ++ failureMessage o)) [] Finished true in
  forall (schedule : list Actor) (w : World),
    w = w0 \/ w = w1 \/ w = w2 ->
    run schedule w = w0 \/ run schedule w = w1 \/ run schedule w = w2.
Proof.
  intros Ho w0 w1 w2 schedule.
  induction schedule as [|a schedule IH]; intros w Hw; [exact Hw|].
  change (run (a :: schedule) w) with (run schedule (move a w)).
  apply IH. destruct Hw as [-> | [-> | ->]]; destruct a.
  - right; left. destruct o; try discriminate; reflexivity.
  - left; reflexivity.
  - right; left; reflexivity.
  - right; right; reflexivity.
  - right; right; reflexivity.
  - right; right; reflexivity.
Qed.

Lemma loading_flags_of_update (u : Update) (x : ChatUI) (first : bool) :
  let x' := fst (runUpdate IsPrint stripAllTags u x first) in
  if stopsLoading u
  then loadingActive x' = false /\ inputDisabled x' = false
  else loadingActive x' = loadingActive x /\
       inputDisabled x' = inputDisabled x.
Proof.
  destruct u; simpl.
  - destruct first; split; reflexivity.
  - unfold finalizeAssistantMessage, formatMarkdown. simpl.
    destruct (RenderMarkdown _ _ _); split; reflexivity.
  - split; reflexivity.
  - split; reflexivity.
Qed.

Lemma loadingSettles_move (a : Actor) (w : World) :
  loadingSettles w -> loadingSettles (move a w).
Proof.
  unfold loadingSettles. intros HI. destruct a; simpl.
  - destruct (netStep json_Unmarshal w) as [w'|] eqn:E; [|exact HI].
    clear HI. revert E. unfold netStep.
    destruct w as [x q c first]; simpl.
    destruct c as [o|r| |].
    + destruct o; intros E; inversion E; subst; simpl; intros Hpc;
        try discriminate; right; rewrite existsb_app; simpl;
          apply orb_true_r.
    + destruct (ReadString r) as [[line [e|]] r'].
      * destruct e; intros E; inversion E; subst; simpl; discriminate.
      * destruct (lineEvent json_Unmarshal line); intros E; inversion E;
          subst; simpl; discriminate.
    + destruct (negb _); intros E; inversion E; subst; simpl; intros _.
      * right. rewrite existsb_app. simpl. apply orb_true_r.
      * left. split; reflexivity.
    + discriminate.
  - unfold displayStep. destruct w as [x q c first]; simpl in *.
    destruct q as [|u q]; [exact HI|].
    pose proof (loading_flags_of_update u x first) as HU.
    destruct (runUpdate IsPrint stripAllTags u x first) as [x' first'].
    simpl in *. intros Hpc. specialize (HI Hpc).
    destruct (stopsLoading u) eqn:Es.
    + left. exact HU.
    + destruct HU as [Hl Hd]. rewrite Hl, Hd. simpl in HI. exact HI.
Qed.

Lemma loadingSettles_run (schedule : list Actor) :
  forall w, loadingSettles w -> loadingSettles (run schedule w).
Proof.
  induction schedule as [|a schedule IH]; intros w HI; [exact HI|].
  change (run (a :: schedule) w) with (run schedule (move a w)).
  apply IH, loadingSettles_move, HI.
Qed.

End TurnMore.

(** X3.  A turn whose request fails, before a response or with a
    status other than 200, never reads a stream and never touches the
    accumulator: under every interleaving it ends with the conversation
    log holding the user message as its last entry, with loading off, and
    with one red system line in the chat view that carries [Error: ] and
    the failure message (for a bad status, the status and the whole
    response body). *)
Theorem X3_failed_request_ends_with_a_system_line :
  forall (IsPrint : Z -> bool)
         (json_Unmarshal : string -> string + MainGo.CompletionResponse)
         (stripAllTags : string -> string)
         (x : MainGo.ChatUI) (input : string) (o : MainGo.HttpOutcome)
         (schedule : list MainGo.Actor),
    let w0 := MainGo.handleInput IsPrint x input o in
    let w := MainGo.runSchedule IsPrint json_Unmarshal stripAllTags
               schedule w0 in
    isStream o = false ->
    MainGo.turnOver w = true ->
    MainGo.messages (MainGo.ui w)
    = (MainGo.messages x ++ [MainGo.mkMessage "user" input])%list /\
    MainGo.assistantText (MainGo.ui w) = "" /\
    MainGo.loadingActive (MainGo.ui w) = false /\
    MainGo.chatHistory (MainGo.ui w)
    = MainGo.chatHistory (MainGo.ui w0)
      ++ "[red]System:[-] [red]Error: " ++ failureMessage o ++ nl.
Proof.
  intros IsPrint json strip x input o schedule w0 w Ho Hover.
  destruct (failed_request_worlds IsPrint json strip (MainGo.ui w0) o Ho
              schedule w0 (or_introl eq_refl)) as [H | [H | H]];
    fold w in H; rewrite H in Hover |- *; try discriminate.
  cbn [MainGo.ui]. unfold MainGo.AppendToChat.
  cbn [String.eqb Ascii.eqb Bool.eqb]. cbv iota.
  unfold MainGo.Fprint, MainGo.SetText, MainGo.StopLoading, MainGo.setLoading.
  cbn [MainGo.messages MainGo.assistantText MainGo.loadingActive
       MainGo.chatHistory].
  repeat split.
  f_equal. simpl. now rewrite append_nil_r.
Qed.

Lemma X3_failed_request_ends_with_a_system_line_witness :
  let o := MainGo.BadStatus "429 Too Many Requests" "rate limited" in
  let w0 := MainGo.handleInput unicode.IsPrintLatin1 Sample.emptyUI "hi" o in
  let w := MainGo.runSchedule unicode.IsPrintLatin1 Sample.Unmarshal
             Sample.stripAllTags [MainGo.Display; MainGo.Net; MainGo.Display]
             w0 in
  MainGo.messages (MainGo.ui w)
  = (MainGo.messages Sample.emptyUI ++ [MainGo.mkMessage "user" "hi"])%list /\
  MainGo.assistantText (MainGo.ui w) = "" /\
  MainGo.loadingActive (MainGo.ui w) = false /\
  MainGo.chatHistory (MainGo.ui w)
  = MainGo.chatHistory (MainGo.ui w0)
    ++ "[red]System:[-] [red]Error: " ++ failureMessage o ++ nl.
Proof.
  apply (X3_failed_request_ends_with_a_system_line unicode.IsPrintLatin1
           Sample.Unmarshal Sample.stripAllTags Sample.emptyUI "hi"
           (MainGo.BadStatus "429 Too Many Requests" "rate limited")
           [MainGo.Display; MainGo.Net; MainGo.Display]);
    vm_compute; reflexivity.
Defined.

(** X4.  However the request comes back and however the goroutine and
    the display interleave, when the turn is over the loading flag is
    off and the input field is enabled again. *)
Theorem X4_turn_end_reenables_input :
  forall (IsPrint : Z -> bool)
         (json_Unmarshal : string -> string + MainGo.CompletionResponse)
         (stripAllTags : string -> string)
         (x : MainGo.ChatUI) (input : string) (o : MainGo.HttpOutcome)
         (schedule : list MainGo.Actor),
    let w := MainGo.runSchedule IsPrint json_Unmarshal stripAllTags schedule
               (MainGo.handleInput IsPrint x input o) in
    MainGo.turnOver w = true ->
    MainGo.loadingActive (MainGo.ui w) = false /\
    MainGo.inputDisabled (MainGo.ui w) = false.
Proof.
  intros IsPrint json strip x input o schedule w Hover.
  assert (HI : loadingSettles w).
  { apply loadingSettles_run. unfold loadingSettles. simpl. discriminate. }
  unfold loadingSettles in HI. unfold MainGo.turnOver in Hover.
  destruct (MainGo.pc w); try discriminate.
  destruct (MainGo.queue w); [|discriminate].
  destruct (HI eq_refl) as [H | H]; [exact H | discriminate].
Qed.

Lemma X4_turn_end_reenables_input_witness :
  let w := Sample.run Sample.schedule (Sample.start Sample.silentBody) in
  MainGo.loadingActive (MainGo.ui w) = false /\
  MainGo.inputDisabled (MainGo.ui w) = false.
Proof.
  apply (X4_turn_end_reenables_input unicode.IsPrintLatin1 Sample.Unmarshal
           Sample.stripAllTags Sample.emptyUI "hi"
           (MainGo.OkStream Sample.silentBody) Sample.schedule).
  vm_compute. reflexivity.
Defined.

(** X5.  The accumulator only grows towards the final text: at every
    point of every interleaving of a turn on a streamed body, the text
    accumulated so far is a prefix of the concatenation of all the deltas
    of the body. *)
Theorem X5_accumulator_is_a_prefix :
  forall (IsPrint : Z -> bool)
         (json_Unmarshal : string -> string + MainGo.CompletionResponse)
         (stripAllTags : string -> string)
         (x : MainGo.ChatUI) (input : string) (body : MainGo.Reader)
         (schedule : list MainGo.Actor),
    let w := MainGo.runSchedule IsPrint json_Unmarshal stripAllTags schedule
               (MainGo.handleInput IsPrint x input (MainGo.OkStream body)) in
    exists rest : string,
      concatAll (MainGo.streamDeltas json_Unmarshal body)
      = MainGo.assistantText (MainGo.ui w) ++ rest.
Proof.
  intros IsPrint json strip x input body schedule w.
  pose proof (Inv_runSchedule IsPrint json strip body _ schedule _
                (Inv_handleInput IsPrint json strip x input body)) as HI.
  fold w in HI. unfold TurnInv.Inv, TurnInv.total in HI.
  destruct (MainGo.pc w).
  - destruct HI as (_ & Hacc & _). rewrite Hacc. eexists; reflexivity.
  - destruct HI as (Ht & _). eexists; exact Ht.
  - destruct HI as (Hacc & _). exists "". now rewrite Hacc, append_nil_r.
  - destruct HI as (Hacc & _). exists "". now rewrite Hacc, append_nil_r.
Qed.

(** X6.  While a turn on a streamed body is in flight the conversation
    log is the log that [handleInput] left, ending with the user
    message: no partial assistant text is ever recorded.  The log changes
    once, when the last queued closure has run, and only if some content
    arrived. *)
Theorem X6_log_is_written_once :
  forall (IsPrint : Z -> bool)
         (json_Unmarshal : string -> string + MainGo.CompletionResponse)
         (stripAllTags : string -> string)
         (x : MainGo.ChatUI) (input : string) (body : MainGo.Reader)
         (schedule : list MainGo.Actor),
    let w := MainGo.runSchedule IsPrint json_Unmarshal stripAllTags schedule
               (MainGo.handleInput IsPrint x input (MainGo.OkStream body)) in
    let log0 := (MainGo.messages x ++ [MainGo.mkMessage "user" input])%list in
    let total := concatAll (MainGo.streamDeltas json_Unmarshal body) in
    MainGo.messages (MainGo.ui w) = log0 \/
    (MainGo.turnOver w = true /\ total <> "" /\
     MainGo.messages (MainGo.ui w)
     = (log0 ++ [MainGo.mkMessage "assistant" total])%list).
Proof.
  intros IsPrint json strip x input body schedule w log0 total.
  pose proof (Inv_runSchedule IsPrint json strip body _ schedule _
                (Inv_handleInput IsPrint json strip x input body)) as HI.
  fold w in HI. unfold TurnInv.Inv in HI. unfold MainGo.turnOver.
  fold total in HI. change (TurnInv.total json body) with total in HI.
  destruct (MainGo.pc w).
  - left. tauto.
  - left. tauto.
  - left. tauto.
  - destruct HI as (_ & [(q & _ & _ & Hm) | (Hq & u & first & Hm & _ & Hw)]).
    + left. exact Hm.
    + rewrite Hq, Hw. unfold TurnInv.lastUpdate.
      destruct (String.eqb total "") eqn:E; simpl negb; cbv iota.
      * left. simpl. exact Hm.
      * right. apply String.eqb_neq in E. repeat split; [exact E|].
        rewrite runUpdate_final_messages, Hm. reflexivity.
Qed.

(** * Further properties of the inline pass *)

Lemma sliceFrom_get (line : string) :
  forall (i : nat) (c : ascii),
    String.get i line = Some c ->
    sliceFrom i line = String c (sliceFrom (S i) line).
Proof.
  induction line as [|d line IH]; intros i c H.
  - destruct i; discriminate.
  - destruct i as [|i]; simpl in *.
    + inversion H; subst. destruct line; reflexivity.
    + rewrite (IH i c H). reflexivity.
Qed.

Lemma get_in_range (line : string) :
  forall i : nat, i < String.length line -> exists c, String.get i line = Some c.
Proof.
  induction line as [|d line IH]; intros i Hi; simpl in Hi; [lia|].
  destruct i as [|i]; simpl; [eexists; reflexivity | apply IH; lia].
Qed.

Lemma forallb_get (P : ascii -> bool) (line : string) :
  forallb P (list_ascii_of_string line) = true ->
  forall (i : nat) (c : ascii), String.get i line = Some c -> P c = true.
Proof.
  induction line as [|d line IH]; intros H i c Hg.
  - destruct i; discriminate.
  - simpl in H. apply andb_true_iff in H. destruct H as [Hd Hl].
    destruct i as [|i]; simpl in Hg; [inversion Hg; subst; exact Hd|].
    eapply IH; eauto.
Qed.

Lemma setBuf_same (p : MainGo.MarkdownParser) :
  MainGo.setBuf p (MainGo.buf p) = p.
Proof. destruct p; reflexivity. Qed.

(** The inline loop on a quiet line, from any index: the rest of the
    line is appended to the buffer and nothing else changes. *)
Lemma markdownLoop_quiet (line : string) (fuel : nat) :
  forall (i : nat) (p : MainGo.MarkdownParser),
    quietLine (MainGo.inCode p) line = true ->
    String.length line - i <= fuel ->
    MainGo.markdownLoop fuel line i p false
    = (MainGo.bufWriteString p (sliceFrom i line), false).
Proof.
  induction fuel as [|fuel IH]; intros i p Hq Hf.
  - simpl. assert (Hi : String.length line <= i) by lia.
    pose proof (sliceFrom_length i line) as HL.
    destruct (sliceFrom i line); [|simpl in HL; lia].
    unfold MainGo.bufWriteString. rewrite append_nil_r.
    now rewrite setBuf_same.
  - cbn [MainGo.markdownLoop].
    destruct (Nat.ltb i (String.length line)) eqn:Ei; cbn [negb]; cbv iota.
    2:{ apply Nat.ltb_ge in Ei.
        pose proof (sliceFrom_length i line) as HL.
        destruct (sliceFrom i line); [|simpl in HL; lia].
        unfold MainGo.bufWriteString. rewrite append_nil_r.
        now rewrite setBuf_same. }
    apply Nat.ltb_lt in Ei.
    destruct (get_in_range line i Ei) as [c Hc].
    pose proof (forallb_get _ line Hq i c Hc) as Pc. cbv beta in Pc.
    apply andb_true_iff in Pc. destruct Pc as [Hbs Hmk].
    assert (Hprev : Nat.ltb 0 i && MainGo.byteIs line (i - 1) "\"%char = false).
    { destruct i as [|j]; [reflexivity|]. cbn [Nat.ltb Nat.leb andb].
      replace (S j - 1) with j by lia.
      destruct (get_in_range line j ltac:(lia)) as [d Hd].
      pose proof (forallb_get _ line Hq j d Hd) as Pd. cbv beta in Pd.
      apply andb_true_iff in Pd. destruct Pd as [Hd1 _].
      unfold MainGo.byteIs. rewrite Hd. now apply negb_true_iff in Hd1. }
    rewrite Hprev. rewrite (sliceFrom_get line i c Hc).
    unfold MainGo.byteIs. rewrite Hc.
    assert (Hcase : MainGo.inCode p = true \/ markerByte c = false).
    { apply orb_true_iff in Hmk. destruct Hmk as [H|H]; [now left|].
      right. now apply negb_true_iff in H. }
    assert (Hall :
              (strings.HasPrefix (String c (sliceFrom (S i) line)) "**"
               && negb (MainGo.inCode p) = false) /\
              (strings.HasPrefix (String c (sliceFrom (S i) line)) "__"
               && negb (MainGo.inCode p) = false) /\
              (Ascii.eqb c "*"%char && negb (MainGo.inCode p) = false) /\
              (Ascii.eqb c "_"%char && negb (MainGo.inCode p) = false) /\
              (strings.HasPrefix (String c (sliceFrom (S i) line)) "`"
               && negb (MainGo.inCode p) = false)).
    { destruct Hcase as [Hin | Hm].
      - rewrite Hin. cbn [negb]. rewrite !andb_false_r. tauto.
      - unfold markerByte in Hm.
        apply orb_false_iff in Hm. destruct Hm as [Hm Hbt].
        apply orb_false_iff in Hm. destruct Hm as [Hst Hus].
        cbn [strings.HasPrefix]. rewrite Hst, Hus, Hbt.
        cbn [andb]. tauto. }
    destruct Hall as (H1 & H2 & H3 & H4 & H5).
    rewrite H1, H2, H3, H4, H5.
    rewrite IH; [|exact Hq|lia].
    f_equal. unfold MainGo.bufWriteString, MainGo.bufWriteByte, MainGo.setBuf.
    cbn [MainGo.buf MainGo.inBold MainGo.inItalic MainGo.inCode MainGo.inQuote
         MainGo.inList].
    replace (i + 1) with (S i) by lia.
    rewrite append_assoc. reflexivity.
Qed.

(** X7.  A line without a backslash and without the marker bytes
    [*], [_] and backtick is copied to the buffer byte for byte, and the
    parser flags stay as they are.  While a code span is open the same
    holds of every line without a backslash: the marker bytes are then
    copied as text as well. *)
Theorem X7_quiet_line_is_copied :
  forall (p : MainGo.MarkdownParser) (line : string),
    quietLine (MainGo.inCode p) line = true ->
    MainGo.markdownLine p line = MainGo.setBuf p line.
Proof.
  intros p line Hq. unfold MainGo.markdownLine.
  rewrite (markdownLoop_quiet line (String.length line) 0 (MainGo.bufReset p));
    [|exact Hq|lia].
  destruct p; reflexivity.
Qed.

Lemma X7_quiet_line_is_copied_witness :
  MainGo.markdownLine (MainGo.setInCode MainGo.NewMarkdownParser true)
                      "**not bold** `x`"
  = MainGo.setBuf (MainGo.setInCode MainGo.NewMarkdownParser true)
                  "**not bold** `x`".
Proof.
  apply (X7_quiet_line_is_copied
           (MainGo.setInCode MainGo.NewMarkdownParser true)
           "**not bold** `x`").
  vm_compute. reflexivity.
Defined.

Lemma markdownLoop_inCode (line : string) (fuel : nat) :
  forall (i : nat) (p : MainGo.MarkdownParser) (active : bool),
    MainGo.inCode p = true ->
    MainGo.inCode (fst (MainGo.markdownLoop fuel line i p active)) = true.
Proof.
  induction fuel as [|fuel IH]; intros i p active Hp; [exact Hp|].
  cbn [MainGo.markdownLoop]. rewrite Hp. cbn [negb].
  rewrite !andb_false_r.
  destruct (negb (Nat.ltb i (String.length line))); [exact Hp|].
  destruct (Nat.ltb 0 i && MainGo.byteIs line (i - 1) "\"%char);
    [now apply IH|].
  destruct (String.get i line); [now apply IH | exact Hp].
Qed.

(** X8.  A code span never closes.  Once [inCode] is set, it is still
    set after [markdownLine] has rendered any line whatever, and so it
    stays set for the rest of the text that is being rendered. *)
Theorem X8_code_span_never_closes :
  forall (p : MainGo.MarkdownParser) (line : string),
    MainGo.inCode p = true ->
    MainGo.inCode (MainGo.markdownLine p line) = true.
Proof.
  intros p line Hp. unfold MainGo.markdownLine.
  pose proof (markdownLoop_inCode line (String.length line) 0
                (MainGo.bufReset p) false Hp) as H.
  destruct (MainGo.markdownLoop (String.length line) line 0
              (MainGo.bufReset p) false) as [p' active].
  simpl in H. destruct active; exact H.
Qed.

Lemma X8_code_span_never_closes_witness :
  MainGo.inCode
    (MainGo.markdownLine
       (MainGo.markdownLine MainGo.NewMarkdownParser "`open") "close` **b**")
  = true.
Proof.
  apply (X8_code_span_never_closes
           (MainGo.markdownLine MainGo.NewMarkdownParser "`open")
           "close` **b**").
  vm_compute. reflexivity.
Defined.

(** ** The two revisions of the inline pass *)

Lemma noBacktick_prefix (line : string) (i : nat) :
  noBacktick line = true ->
  strings.HasPrefix (sliceFrom i line) "`" = false.
Proof.
  intros Hn. destruct (Nat.ltb i (String.length line)) eqn:Ei.
  - apply Nat.ltb_lt in Ei. destruct (get_in_range line i Ei) as [c Hc].
    rewrite (sliceFrom_get line i c Hc). cbn [strings.HasPrefix].
    pose proof (forallb_get _ line Hn i c Hc) as Pc. cbv beta in Pc.
    apply negb_true_iff in Pc. now rewrite Pc.
  - apply Nat.ltb_ge in Ei. pose proof (sliceFrom_length i line) as HL.
    destruct (sliceFrom i line); [reflexivity | simpl in HL; lia].
Qed.

Lemma part001_loop_agrees (line : string) (fuel : nat) :
  forall (i : nat) (q : Part001.MarkdownParser) (active : bool),
    negb (Part001.partialMode q) || noBacktick line = true ->
    MainGo.markdownLoop fuel line i (toMain q) active
    = (toMain (fst (Part001.markdownLoop fuel line i q active)),
       snd (Part001.markdownLoop fuel line i q active)).
Proof.
  induction fuel as [|fuel IH]; intros i q active Hq; [reflexivity|].
  cbn [Part001.markdownLoop MainGo.markdownLoop].
  change (MainGo.inCode (toMain q)) with (Part001.inCode q).
  unfold MainGo.byteIs, Part001.byteIs.
  assert (Hbt : strings.HasPrefix (sliceFrom i line) "`"
                && negb (Part001.inCode q) && negb (Part001.partialMode q)
                = strings.HasPrefix (sliceFrom i line) "`"
                  && negb (Part001.inCode q)).
  { apply orb_true_iff in Hq. destruct Hq as [Hm | Hn].
    - rewrite Hm. apply andb_true_r.
    - rewrite (noBacktick_prefix line i Hn). reflexivity. }
  rewrite Hbt. clear Hbt.
  repeat match goal with
         | |- context [if ?c then _ else _] => destruct c
         | |- context [match String.get ?n ?l with _ => _ end] =>
           destruct (String.get n l)
         end;
    try reflexivity;
    match goal with
    | |- MainGo.markdownLoop _ _ ?j _ ?a
         = (toMain (fst (Part001.markdownLoop _ _ _ ?q' _)), _) =>
      exact (IH j q' a Hq)
    end.
Qed.

(** X9.  The inline pass of part_001 and the one of main.go are the
    same function on every line when part_001 is in full mode, and on
    every line without a backtick when it is in partial mode: they write
    the same buffer and leave the same flags. *)
Theorem X9_revisions_agree_on_the_inline_pass :
  forall (q : Part001.MarkdownParser) (line : string),
    negb (Part001.partialMode q) || noBacktick line = true ->
    toMain (Part001.markdownLine q line) = MainGo.markdownLine (toMain q) line.
Proof.
  intros q line Hq. unfold Part001.markdownLine, MainGo.markdownLine.
  change (MainGo.bufReset (toMain q)) with (toMain (Part001.bufReset q)).
  rewrite (part001_loop_agrees line (String.length line) 0
             (Part001.bufReset q) false Hq).
  destruct (Part001.markdownLoop (String.length line) line 0
              (Part001.bufReset q) false) as [q' active].
  cbn [fst snd]. destruct active; reflexivity.
Qed.

Lemma X9_revisions_agree_on_the_inline_pass_witness :
  toMain (Part001.markdownLine
            (Part001.setPartialMode Part001.NewMarkdownParser true)
            "a **b** _c_")
  = MainGo.markdownLine
      (toMain (Part001.setPartialMode Part001.NewMarkdownParser true))
      "a **b** _c_".
Proof.
  apply (X9_revisions_agree_on_the_inline_pass
           (Part001.setPartialMode Part001.NewMarkdownParser true)
           "a **b** _c_").
  vm_compute. reflexivity.
Defined.

(** ** Partial mode and code spans *)

Lemma calm_markdownLoop (line : string) (fuel : nat) :
  forall (i : nat) (q : Part001.MarkdownParser) (active : bool),
    calm q -> calm (fst (Part001.markdownLoop fuel line i q active)).
Proof.
  induction fuel as [|fuel IH]; intros i q active Hq; [exact Hq|].
  cbn [Part001.markdownLoop]. destruct Hq as [Hm Hc].
  rewrite Hm. cbn [negb]. rewrite andb_false_r.
  repeat match goal with
         | |- context [if ?c then _ else _] => destruct c
         | |- context [match String.get ?n ?l with _ => _ end] =>
           destruct (String.get n l)
         end;
    try (split; assumption);
    apply IH; split; assumption.
Qed.

Lemma calm_markdownLine (q : Part001.MarkdownParser) (line : string) :
  calm q -> calm (Part001.markdownLine q line).
Proof.
  intros Hq. unfold Part001.markdownLine.
  pose proof (calm_markdownLoop line (String.length line) 0
                (Part001.bufReset q) false Hq) as H.
  destruct (Part001.markdownLoop (String.length line) line 0
              (Part001.bufReset q) false) as [q' active].
  simpl in H. destruct active; exact H.
Qed.

Lemma calm_writeCells (cells : list string) :
  forall q : Part001.MarkdownParser,
    calm q -> calm (Part001.writeCells q cells).
Proof.
  unfold Part001.writeCells.
  induction cells as [|cell cells IH]; intros q Hq; [exact Hq|].
  simpl. apply IH. destruct (negb _); exact Hq.
Qed.

Lemma calm_renderLines (IsPrint : Z -> bool) (partial : bool)
      (lines rest : list string) :
  forall (i : nat) (q : Part001.MarkdownParser) (output : string)
         (prevLineEmpty : bool),
    calm q ->
    calm (fst (Part001.renderLines IsPrint partial lines i rest q output
                 prevLineEmpty)).
Proof.
  induction rest as [|line rest IH]; intros i q output prev Hq; [exact Hq|].
  cbn [Part001.renderLines].
  repeat match goal with
         | |- context [if ?c then _ else _] => destruct c
         end;
    apply IH;
    repeat first [ exact Hq
                 | apply calm_markdownLine
                 | apply calm_writeCells ].
Qed.

(** X10.  Partial rendering never opens a code span: whatever the text
    and whatever state earlier calls left the parser in, after
    [RenderPartial] the parser is in partial mode with [inCode] clear. *)
Theorem X10_partial_mode_opens_no_code_span :
  forall (IsPrint : Z -> bool) (q : Part001.MarkdownParser) (text : string),
    calm (fst (Part001.RenderPartial IsPrint q text)).
Proof.
  intros IsPrint q text.
  unfold Part001.RenderPartial, Part001.renderInternal.
  apply calm_renderLines. split; reflexivity.
Qed.

(** * Further properties of the block pass *)

Lemma renderLines_blank (IsPrint : Z -> bool) (lines rest : list string) :
  forall (i : nat) (p : MainGo.MarkdownParser) (output : string),
    forallb blankLine rest = true ->
    MainGo.renderLines IsPrint lines i rest p output true = (p, output).
Proof.
  induction rest as [|line rest IH]; intros i p output H; [reflexivity|].
  simpl in H. apply andb_true_iff in H. destruct H as [Hl Hrest].
  cbn [MainGo.renderLines]. unfold blankLine in Hl. rewrite Hl.
  cbn [andb]. now apply IH.
Qed.

(** X11.  A text whose lines are all empty after trimming renders to
    the empty output: leading empty lines are skipped, and here every
    line is one.  (Such a text is not the empty string, so at the end of
    a turn it is recorded in the log and shown as an empty assistant
    line.) *)
Theorem X11_blank_text_renders_to_nothing :
  forall (IsPrint : Z -> bool) (p : MainGo.MarkdownParser) (text : string),
    forallb blankLine (strings.Split text nl) = true ->
    snd (MainGo.RenderMarkdown IsPrint p text) = "".
Proof.
  intros IsPrint p text H. unfold MainGo.RenderMarkdown.
  now rewrite renderLines_blank.
Qed.

Lemma X11_blank_text_renders_to_nothing_witness :
  snd (MainGo.RenderMarkdown unicode.IsPrintLatin1 MainGo.NewMarkdownParser
         (" " ++ nl ++ nl ++ "  "))
  = "".
Proof.
  apply (X11_blank_text_renders_to_nothing unicode.IsPrintLatin1
           MainGo.NewMarkdownParser (" " ++ nl ++ nl ++ "  ")).
  vm_compute. reflexivity.
Defined.

Lemma endsWithLF_line (output line : string) :
  endsWithLF (output ++ (line ++ nl)).
Proof. right. exists (output ++ line). now rewrite append_assoc. Qed.

Lemma endsWithLF_nl (output : string) : endsWithLF (output ++ nl).
Proof. right. exists output. reflexivity. Qed.

Lemma endsWithLF_renderLines (IsPrint : Z -> bool)
      (lines rest : list string) :
  forall (i : nat) (p : MainGo.MarkdownParser) (output : string)
         (prevLineEmpty : bool),
    endsWithLF output ->
    endsWithLF (snd (MainGo.renderLines IsPrint lines i rest p output
                       prevLineEmpty)).
Proof.
  induction rest as [|line rest IH]; intros i p output prev Ho; [exact Ho|].
  cbn [MainGo.renderLines].
  repeat match goal with
         | |- context [if ?c then _ else _] => destruct c
         end;
    apply IH;
    first [ exact Ho | apply endsWithLF_line | apply endsWithLF_nl ].
Qed.

(** X12.  The rendered text is made of whole lines: it is empty or it
    ends with a line feed, whatever the input, also when the input does
    not end with one. *)
Theorem X12_rendered_text_ends_with_a_line_feed :
  forall (IsPrint : Z -> bool) (p : MainGo.MarkdownParser) (text : string),
    endsWithLF (snd (MainGo.RenderMarkdown IsPrint p text)).
Proof.
  intros IsPrint p text. unfold MainGo.RenderMarkdown.
  apply endsWithLF_renderLines. left; reflexivity.
Qed.

(** ** Filtering of non-printable characters *)

Lemma mapFrom_ascii (IsPrint : Z -> bool) :
  forall (s : string) (fuel : nat),
    asciiOnly s = true -> String.length s <= fuel ->
    strings.mapFrom fuel (fun r => if IsPrint r then r else (-1)%Z) s
    = keepBytes (fun c => IsPrint (byteVal c)) s.
Proof.
  intros s. induction s as [|c s IH]; intros fuel Hs Hf.
  - destruct fuel; reflexivity.
  - destruct fuel as [|fuel]; [simpl in Hf; lia|].
    unfold asciiOnly in Hs. simpl in Hs.
    apply andb_true_iff in Hs. destruct Hs as [Hc Hs].
    cbn [strings.mapFrom keepBytes]. unfold utf8.DecodeRuneInString.
    rewrite Hc. cbn [sliceFrom].
    assert (Hpos : (0 <= byteVal c)%Z) by (unfold byteVal; lia).
    apply Z.ltb_lt in Hc. unfold utf8.RuneSelf in Hc.
    destruct (IsPrint (byteVal c)).
    + assert (H0 : (0 <=? byteVal c)%Z = true) by (apply Z.leb_le; lia).
      rewrite H0. unfold utf8.EncodeRune.
      assert (Hn : (byteVal c <? 0)%Z = false) by (apply Z.ltb_ge; lia).
      assert (H7 : (byteVal c <=? 0x7F)%Z = true) by (apply Z.leb_le; lia).
      rewrite Hn, H7. unfold byteOf, byteVal.
      rewrite Nat2Z.id, ascii_nat_embedding. simpl.
      f_equal. apply IH; [exact Hs | simpl in Hf; lia].
    + simpl. apply IH; [exact Hs | simpl in Hf; lia].
Qed.

(** X13.  On a text of ASCII bytes [filteredString] removes exactly
    the bytes that [unicode.IsPrint] rejects and keeps the others in
    their order; [formatPlainMessage], used for the user message, is the
    same filter. *)
Theorem X13_filter_on_ascii_text :
  forall (IsPrint : Z -> bool) (s : string),
    asciiOnly s = true ->
    MainGo.filteredString IsPrint s
    = keepBytes (fun c => IsPrint (byteVal c)) s /\
    MainGo.formatPlainMessage IsPrint s = MainGo.filteredString IsPrint s.
Proof.
  intros IsPrint s Hs. split; [|reflexivity].
  unfold MainGo.filteredString, strings.Map.
  now apply mapFrom_ascii.
Qed.

Lemma X13_filter_on_ascii_text_witness :
  let s := "a" ++ String (byteOf 9) "b" ++ String (byteOf 27) "[0mc" in
  MainGo.filteredString unicode.IsPrintLatin1 s
  = keepBytes (fun c => unicode.IsPrintLatin1 (byteVal c)) s /\
  MainGo.formatPlainMessage unicode.IsPrintLatin1 s
  = MainGo.filteredString unicode.IsPrintLatin1 s.
Proof.
  apply (X13_filter_on_ascii_text unicode.IsPrintLatin1
           ("a" ++ String (byteOf 9) "b" ++ String (byteOf 27) "[0mc")).
  vm_compute. reflexivity.
Defined.

(** * Further properties of the chat view *)

Lemma splitFrom_nl_step (c : ascii) (s cur : string) :
  strings.splitFrom (String c s) nl 0 cur
  = if Ascii.eqb c LF then cur :: strings.splitFrom s nl 0 ""
    else strings.splitFrom s nl 0 (cur ++ String c "").
Proof.
  cbn [strings.splitFrom]. unfold nl at 1. cbn [strings.HasPrefix].
  assert (He : strings.HasPrefix s "" = true) by (destruct s; reflexivity).
  rewrite He, andb_true_r. reflexivity.
Qed.

Lemma splitFrom_nonempty (s : string) :
  forall cur : string, strings.splitFrom s nl 0 cur <> [].
Proof.
  induction s as [|c s IH]; intros cur; [discriminate|].
  rewrite splitFrom_nl_step. destruct (Ascii.eqb c LF); [discriminate|].
  apply IH.
Qed.

Lemma splitFrom_noLF (s : string) :
  forall cur : string,
    noLF s = true -> strings.splitFrom s nl 0 cur = [cur ++ s].
Proof.
  unfold noLF. induction s as [|c s IH]; intros cur H.
  - simpl. now rewrite append_nil_r.
  - simpl in H. apply andb_true_iff in H. destruct H as [Hc Hs].
    rewrite splitFrom_nl_step. apply negb_true_iff in Hc. rewrite Hc.
    rewrite (IH _ Hs). now rewrite append_assoc.
Qed.

Lemma splitFrom_last_line (before last : string) :
  forall cur : string,
    noLF last = true ->
    strings.splitFrom (before ++ nl ++ last) nl 0 cur
    = (strings.splitFrom before nl 0 cur ++ [last])%list.
Proof.
  induction before as [|c before IH]; intros cur Hl.
  - change ("" ++ nl ++ last) with (String LF last).
    rewrite splitFrom_nl_step. cbn [Ascii.eqb Bool.eqb LF]. cbv iota.
    now rewrite (splitFrom_noLF last "" Hl).
  - change (String c before ++ nl ++ last)
      with (String c (before ++ nl ++ last)).
    rewrite !splitFrom_nl_step. destruct (Ascii.eqb c LF).
    + now rewrite (IH "" Hl).
    + now rewrite (IH _ Hl).
Qed.

Lemma Join_cons (e : string) (rest : list string) :
  rest <> [] -> strings.Join (e :: rest) nl = e ++ nl ++ strings.Join rest nl.
Proof. destruct rest; [congruence | reflexivity]. Qed.

(** Splitting at line feeds and joining with line feeds gives the text
    back. *)
Lemma Join_splitFrom (s : string) :
  forall cur : string, strings.Join (strings.splitFrom s nl 0 cur) nl = cur ++ s.
Proof.
  induction s as [|c s IH]; intros cur.
  - simpl. now rewrite append_nil_r.
  - rewrite splitFrom_nl_step. destruct (Ascii.eqb c LF) eqn:E.
    + rewrite Join_cons by apply splitFrom_nonempty.
      rewrite IH. apply Ascii.eqb_eq in E. subst c. reflexivity.
    + rewrite IH. now rewrite append_assoc.
Qed.

Lemma Join_snoc (l : list string) (x : string) :
  l <> [] -> strings.Join (l ++ [x]) nl = strings.Join l nl ++ nl ++ x.
Proof.
  induction l as [|e l IH]; intros Hl; [congruence|].
  destruct l as [|e' l].
  - reflexivity.
  - change ((e :: e' :: l) ++ [x])%list with (e :: ((e' :: l) ++ [x]))%list.
    rewrite Join_cons by discriminate.
    rewrite IH by discriminate.
    rewrite (Join_cons e (e' :: l)) by discriminate.
    now rewrite !append_assoc.
Qed.

(** X14.  When the assistant text on display takes one line, i.e. the
    text of the view with its tags stripped is some non-empty text, a
    line feed and a last line, [appendDelta] replaces that last line
    alone: the new view is the stripped text before it, a line feed, the
    assistant prefix and the whole accumulated text.  The log, the
    accumulator and the flags are left as they are. *)
Theorem X14_appendDelta_replaces_the_last_line :
  forall (stripAllTags : string -> string) (x : MainGo.ChatUI)
         (delta before last : string),
    stripAllTags (MainGo.chatHistory x) = before ++ nl ++ last ->
    noLF last = true -> before <> "" ->
    MainGo.appendDelta stripAllTags x delta
    = MainGo.SetText x
        (before ++ nl ++ "[blue]Assistant:[-] [yellow]"
                ++ MainGo.assistantText x).
Proof.
  intros strip x delta before last Hv Hl Hb.
  unfold MainGo.appendDelta, MainGo.GetText. rewrite Hv.
  unfold strings.Split. rewrite (splitFrom_last_line before last "" Hl).
  rewrite removelast_last. rewrite Join_splitFrom. cbn [append].
  apply String.eqb_neq in Hb. rewrite Hb. cbn [negb]. cbv iota.
  rewrite Sprintf_assistant_yellow. now rewrite !append_assoc.
Qed.

Lemma X14_appendDelta_replaces_the_last_line_witness :
  let x := MainGo.mkUI [] true true "Hello" MainGo.NewMarkdownParser
             ("[purple]You:[-] [white]hi" ++ nl ++
              "[blue]Assistant:[-] [yellow]Hel") in
  MainGo.appendDelta Sample.stripAllTags x "lo"
  = MainGo.SetText x
      ("You: hi" ++ nl ++ "[blue]Assistant:[-] [yellow]"
                 ++ MainGo.assistantText x).
Proof.
  apply (X14_appendDelta_replaces_the_last_line Sample.stripAllTags
           (MainGo.mkUI [] true true "Hello" MainGo.NewMarkdownParser
              ("[purple]You:[-] [white]hi" ++ nl ++
               "[blue]Assistant:[-] [yellow]Hel"))
           "lo" "You: hi" "Assistant: Hel").
  - vm_compute. reflexivity.
  - vm_compute. reflexivity.
  - discriminate.
Defined.

(** X15.  When the stripped text of the view has no line feed, or
    only an empty line before its last line, [appendDelta] keeps nothing
    of it: the new view is the assistant prefix and the accumulated text
    alone. *)
Theorem X15_appendDelta_on_a_one_line_view :
  forall (stripAllTags : string -> string) (x : MainGo.ChatUI)
         (delta last : string),
    (stripAllTags (MainGo.chatHistory x) = last \/
     stripAllTags (MainGo.chatHistory x) = nl ++ last) ->
    noLF last = true ->
    MainGo.chatHistory (MainGo.appendDelta stripAllTags x delta)
    = "[blue]Assistant:[-] [yellow]" ++ MainGo.assistantText x.
Proof.
  intros strip x delta last Hv Hl.
  unfold MainGo.appendDelta, MainGo.GetText, strings.Split.
  destruct Hv as [Hv | Hv]; rewrite Hv.
  - rewrite (splitFrom_noLF last "" Hl). cbn [removelast strings.Join].
    cbn [String.eqb negb append MainGo.SetText MainGo.chatHistory].
    apply Sprintf_assistant_yellow.
  - change (nl ++ last) with ("" ++ nl ++ last).
    rewrite (splitFrom_last_line "" last "" Hl).
    rewrite removelast_last. cbn [strings.splitFrom strings.Join].
    cbn [String.eqb negb append MainGo.SetText MainGo.chatHistory].
    apply Sprintf_assistant_yellow.
Qed.

Lemma X15_appendDelta_on_a_one_line_view_witness :
  let x := MainGo.mkUI [] true true "Hello" MainGo.NewMarkdownParser
             "Welcome to the chat" in
  MainGo.chatHistory (MainGo.appendDelta Sample.stripAllTags x "lo")
  = "[blue]Assistant:[-] [yellow]" ++ MainGo.assistantText x.
Proof.
  apply (X15_appendDelta_on_a_one_line_view Sample.stripAllTags
           (MainGo.mkUI [] true true "Hello" MainGo.NewMarkdownParser
              "Welcome to the chat")
           "lo" "Welcome to the chat").
  - left. vm_compute. reflexivity.
  - vm_compute. reflexivity.
Defined.

(** X16.  [finalizeAssistantMessage] replaces the last line of the
    view by the assistant prefix followed by the rendering of the whole
    accumulated text, keeps the stripped text before that line, and
    changes neither the log nor the accumulator. *)
Theorem X16_finalize_replaces_the_last_line :
  forall (IsPrint : Z -> bool) (stripAllTags : string -> string)
         (x : MainGo.ChatUI) (before last : string),
    stripAllTags (MainGo.chatHistory x) = before ++ nl ++ last ->
    noLF last = true ->
    let x' := MainGo.finalizeAssistantMessage IsPrint stripAllTags x in
    MainGo.chatHistory x'
    = before ++ nl ++ "[blue]Assistant:[-] "
             ++ snd (MainGo.RenderMarkdown IsPrint (MainGo.markdownParser x)
                       (MainGo.assistantText x)) /\
    MainGo.messages x' = MainGo.messages x /\
    MainGo.assistantText x' = MainGo.assistantText x.
Proof.
  intros IsPrint strip x before last Hv Hl.
  unfold MainGo.finalizeAssistantMessage, MainGo.formatMarkdown,
    MainGo.GetText.
  rewrite Hv. unfold strings.Split.
  rewrite (splitFrom_last_line before last "" Hl). rewrite removelast_last.
  destruct (MainGo.RenderMarkdown IsPrint (MainGo.markdownParser x)
              (MainGo.assistantText x)) as [p out].
  cbn [snd MainGo.SetText MainGo.setParser MainGo.chatHistory MainGo.messages
       MainGo.assistantText].
  repeat split.
  rewrite Join_snoc by apply splitFrom_nonempty.
  rewrite Join_splitFrom, Sprintf_assistant. reflexivity.
Qed.

Lemma X16_finalize_replaces_the_last_line_witness :
  let x := MainGo.mkUI [] false false "**Hi**" MainGo.NewMarkdownParser
             ("You: hi" ++ nl ++ "[blue]Assistant:[-] [yellow]**Hi**") in
  let x' := MainGo.finalizeAssistantMessage unicode.IsPrintLatin1
              Sample.stripAllTags x in
  MainGo.chatHistory x'
  = "You: hi" ++ nl ++ "[blue]Assistant:[-] "
      ++ snd (MainGo.RenderMarkdown unicode.IsPrintLatin1
                (MainGo.markdownParser x) (MainGo.assistantText x)) /\
  MainGo.messages x' = MainGo.messages x /\
  MainGo.assistantText x' = MainGo.assistantText x.
Proof.
  apply (X16_finalize_replaces_the_last_line unicode.IsPrintLatin1
           Sample.stripAllTags
           (MainGo.mkUI [] false false "**Hi**" MainGo.NewMarkdownParser
              ("You: hi" ++ nl ++ "[blue]Assistant:[-] [yellow]**Hi**"))
           "You: hi" "Assistant: **Hi**").
  - vm_compute. reflexivity.
  - vm_compute. reflexivity.
Defined.

(** * The parser flags and the output *)

Lemma sameInk_markdownLoop (line : string) (fuel : nat) :
  forall (i : nat) (p p' : MainGo.MarkdownParser) (active : bool),
    sameInk p p' ->
    sameInk (fst (MainGo.markdownLoop fuel line i p active))
            (fst (MainGo.markdownLoop fuel line i p' active)) /\
    snd (MainGo.markdownLoop fuel line i p active)
    = snd (MainGo.markdownLoop fuel line i p' active).
Proof.
  induction fuel as [|fuel IH]; intros i p p' active Hs;
    [split; [exact Hs | reflexivity]|].
  cbn [MainGo.markdownLoop]. destruct Hs as [Hc Hb]. rewrite <- Hc.
  repeat match goal with
         | |- context [if ?c then _ else _] => destruct c
         | |- context [match String.get ?n ?l with _ => _ end] =>
           destruct (String.get n l)
         end;
    try (split; [split; assumption | reflexivity]);
    apply IH; unfold sameInk, MainGo.bufWriteString, MainGo.bufWriteByte,
              MainGo.setInCode, MainGo.setBuf;
    cbn [MainGo.inCode MainGo.buf]; rewrite <- ?Hb; split; congruence.
Qed.

Lemma sameInk_markdownLine (p p' : MainGo.MarkdownParser) (line : string) :
  MainGo.inCode p = MainGo.inCode p' ->
  sameInk (MainGo.markdownLine p line) (MainGo.markdownLine p' line).
Proof.
  intros Hc. unfold MainGo.markdownLine.
  assert (Hs : sameInk (MainGo.bufReset p) (MainGo.bufReset p'))
    by (split; [exact Hc | reflexivity]).
  destruct (sameInk_markdownLoop line (String.length line) 0 _ _ false Hs)
    as [Hr Ha].
  destruct (MainGo.markdownLoop (String.length line) line 0
              (MainGo.bufReset p) false) as [r a].
  destruct (MainGo.markdownLoop (String.length line) line 0
              (MainGo.bufReset p') false) as [r' a'].
  simpl in Hr, Ha. subst a'. destruct Hr as [Hrc Hrb].
  destruct a; [|split; assumption].
  unfold sameInk, MainGo.bufWriteString, MainGo.setBuf.
  cbn [MainGo.inCode MainGo.buf]. rewrite Hrb. split; [exact Hrc | reflexivity].
Qed.

Lemma writeCells_buf (cells : list string) :
  forall p p' : MainGo.MarkdownParser,
    sameInk p p' ->
    sameInk (MainGo.writeCells p cells) (MainGo.writeCells p' cells).
Proof.
  unfold MainGo.writeCells.
  induction cells as [|cell cells IH]; intros p p' Hs; [exact Hs|].
  simpl. apply IH. destruct (negb _); [|exact Hs].
  destruct Hs as [Hc Hb].
  unfold sameInk, MainGo.bufWriteString, MainGo.setBuf.
  cbn [MainGo.inCode MainGo.buf]. rewrite Hb. split; [exact Hc | reflexivity].
Qed.

Lemma renderLines_flags (IsPrint : Z -> bool) (lines rest : list string) :
  forall (i : nat) (p p' : MainGo.MarkdownParser) (output : string)
         (prevLineEmpty : bool),
    MainGo.inCode p = MainGo.inCode p' ->
    snd (MainGo.renderLines IsPrint lines i rest p output prevLineEmpty)
    = snd (MainGo.renderLines IsPrint lines i rest p' output prevLineEmpty).
Proof.
  induction rest as [|line rest IH]; intros i p p' output prev Hc;
    [reflexivity|].
  cbn [MainGo.renderLines].
  destruct (String.eqb (strings.TrimSpace line) "" && prev);
    [now apply IH|].
  destruct (strings.HasPrefix (strings.TrimSpace line) "```");
    [now apply IH|].
  destruct (strings.HasPrefix (strings.TrimSpace line) "|"
            && strings.Contains (strings.TrimSpace line) "|").
  { destruct (Nat.ltb 0 i && _); [|now apply IH].
    destruct (writeCells_buf (strings.Split (strings.TrimSpace line) "|")
                (MainGo.bufReset p) (MainGo.bufReset p')
                (conj Hc eq_refl)) as [Hwc Hwb].
    rewrite Hwb. now apply IH. }
  assert (Hq : forall c (a a' : MainGo.MarkdownParser),
             MainGo.inCode a = MainGo.inCode a' ->
             snd (MainGo.renderLines IsPrint lines (S i) rest
                    (MainGo.markdownLine a c)
                    (output ++ MainGo.buf (MainGo.markdownLine a c) ++ nl)
                    (String.eqb (strings.TrimSpace line) ""))
             = snd (MainGo.renderLines IsPrint lines (S i) rest
                      (MainGo.markdownLine a' c)
                      (output ++ MainGo.buf (MainGo.markdownLine a' c) ++ nl)
                      (String.eqb (strings.TrimSpace line) ""))).
  { intros c a a' Ha. destruct (sameInk_markdownLine a a' c Ha) as [H1 H2].
    rewrite H2. now apply IH. }
  destruct (strings.HasPrefix (strings.TrimSpace line) "> ").
  { apply Hq. destruct (MainGo.inQuote p), (MainGo.inQuote p'); exact Hc. }
  destruct (strings.HasPrefix (strings.TrimSpace line) "- ").
  { apply Hq. destruct (MainGo.inList p), (MainGo.inList p'); exact Hc. }
  destruct (strings.HasPrefix (strings.TrimSpace line) "* ").
  { apply Hq. destruct (MainGo.inList p), (MainGo.inList p'); exact Hc. }
  destruct (String.eqb (strings.TrimSpace line) "").
  { apply IH.
    destruct p as [b1 i1 c1 q1 l1 u1], p' as [b2 i2 c2 q2 l2 u2].
    simpl in Hc |- *. destruct l1, l2, q1, q2; exact Hc. }
  apply Hq. exact Hc.
Qed.

(** X17.  Of the parser state only the open code span reaches the
    output.  In the line loop, two parsers that agree on [inCode] give
    the same output from any point on, whatever their list, quote, bold
    and italic flags and whatever their buffers hold: those flags and the
    incoming buffer have no effect on what is rendered. *)
Theorem X17_only_the_code_span_matters :
  forall (IsPrint : Z -> bool) (lines rest : list string) (i : nat)
         (p p' : MainGo.MarkdownParser) (output : string)
         (prevLineEmpty : bool),
    MainGo.inCode p = MainGo.inCode p' ->
    snd (MainGo.renderLines IsPrint lines i rest p output prevLineEmpty)
    = snd (MainGo.renderLines IsPrint lines i rest p' output prevLineEmpty).
Proof.
  intros IsPrint lines rest i p p' output prev Hc.
  now apply renderLines_flags.
Qed.

Lemma X17_only_the_code_span_matters_witness :
  let lines := ["> a"; "- b"; ""; "c"] in
  snd (MainGo.renderLines unicode.IsPrintLatin1 lines 0 lines
         (MainGo.mkParser true false false true true "left over") "" true)
  = snd (MainGo.renderLines unicode.IsPrintLatin1 lines 0 lines
           MainGo.NewMarkdownParser "" true).
Proof.
  apply (X17_only_the_code_span_matters unicode.IsPrintLatin1
           ["> a"; "- b"; ""; "c"] ["> a"; "- b"; ""; "c"] 0
           (MainGo.mkParser true false false true true "left over")
           MainGo.NewMarkdownParser "" true).
  reflexivity.
Defined.

Lemma prefixed_not_special (trimmed : string) :
  prefixedLine trimmed = true ->
  String.eqb trimmed "" = false /\
  strings.HasPrefix trimmed "```" = false /\
  strings.HasPrefix trimmed "|" = false.
Proof.
  unfold prefixedLine. destruct trimmed as [|c t]; [discriminate|].
  cbn [strings.HasPrefix]. intros H. split; [reflexivity|].
  destruct (Ascii.eqb c "`") eqn:E1; destruct (Ascii.eqb c "|") eqn:E2;
    cbn [andb]; try tauto;
    try (apply Ascii.eqb_eq in E1; subst c; discriminate H);
    try (apply Ascii.eqb_eq in E2; subst c; discriminate H).
Qed.

(** X18.  A quote line and a list line are rendered as the paragraph
    made of what follows their two-byte prefix: the line written to the
    output is the inline rendering of the filtered remainder and nothing
    else, whether the line opens a run or continues one. *)
Theorem X18_prefixed_line_renders_as_its_remainder :
  forall (IsPrint : Z -> bool) (lines rest : list string) (i : nat)
         (line : string) (p : MainGo.MarkdownParser) (output : string)
         (prevLineEmpty : bool),
    prefixedLine (strings.TrimSpace line) = true ->
    let r := MainGo.markdownLine p
               (MainGo.filteredString IsPrint
                  (sliceFrom 2 (strings.TrimSpace line))) in
    snd (MainGo.renderLines IsPrint lines i (line :: rest) p output
           prevLineEmpty)
    = snd (MainGo.renderLines IsPrint lines (S i) rest r
             (output ++ MainGo.buf r ++ nl) false).
Proof.
  intros IsPrint lines rest i line p output prev Hp r.
  destruct (prefixed_not_special _ Hp) as (He & Hf & Hb).
  cbn [MainGo.renderLines]. rewrite He, Hf, Hb. cbn [andb].
  assert (Hq : forall a : MainGo.MarkdownParser,
             MainGo.inCode a = MainGo.inCode p ->
             snd (MainGo.renderLines IsPrint lines (S i) rest
                    (MainGo.markdownLine a
                       (MainGo.filteredString IsPrint
                          (sliceFrom 2 (strings.TrimSpace line))))
                    (output ++
                     MainGo.buf
                       (MainGo.markdownLine a
                          (MainGo.filteredString IsPrint
                             (sliceFrom 2 (strings.TrimSpace line)))) ++ nl)
                    false)
             = snd (MainGo.renderLines IsPrint lines (S i) rest r
                      (output ++ MainGo.buf r ++ nl) false)).
  { intros a Ha. unfold r.
    destruct (sameInk_markdownLine a p
                (MainGo.filteredString IsPrint
                   (sliceFrom 2 (strings.TrimSpace line))) Ha) as [H1 H2].
    rewrite H2. now apply renderLines_flags. }
  unfold prefixedLine in Hp.
  destruct (strings.HasPrefix (strings.TrimSpace line) "> ").
  { apply Hq. destruct (MainGo.inQuote p); reflexivity. }
  destruct (strings.HasPrefix (strings.TrimSpace line) "- ").
  { apply Hq. destruct (MainGo.inList p); reflexivity. }
  destruct (strings.HasPrefix (strings.TrimSpace line) "* ");
    [|discriminate].
  apply Hq. destruct (MainGo.inList p); reflexivity.
Qed.

Lemma X18_prefixed_line_renders_as_its_remainder_witness :
  let line := "  - *item*" in
  let p := MainGo.NewMarkdownParser in
  let r := MainGo.markdownLine p
             (MainGo.filteredString unicode.IsPrintLatin1
                (sliceFrom 2 (strings.TrimSpace line))) in
  snd (MainGo.renderLines unicode.IsPrintLatin1 [line] 0 [line] p "" true)
  = snd (MainGo.renderLines unicode.IsPrintLatin1 [line] 1 [] r
           ("" ++ MainGo.buf r ++ nl) false).
Proof.
  apply (X18_prefixed_line_renders_as_its_remainder unicode.IsPrintLatin1
           ["  - *item*"] [] 0 "  - *item*" MainGo.NewMarkdownParser "" true).
  vm_compute. reflexivity.
Defined.

(** * The turn of part_001 *)

Lemma concatAll_app (a b : list string) :
  concatAll (a ++ b) = concatAll a ++ concatAll b.
Proof.
  induction a as [|x a IH]; simpl; [reflexivity|].
  now rewrite IH, append_assoc.
Qed.

Lemma concatAll_empty (ds : list string) :
  Forall (fun d => d <> "") ds -> concatAll ds = "" -> ds = [].
Proof.
  intros HF H. destruct ds as [|d ds]; [reflexivity|].
  exfalso. now apply (concatAll_nonempty (d :: ds) HF).
Qed.

Lemma append_nonempty_r (a b : string) : b <> "" -> a ++ b <> "".
Proof. intros Hb H. apply append_nil_inv in H. tauto. Qed.

Section Part001Turn.
Import Part001 Part001Inv.
Variable IsPrint : Z -> bool.
Variable json_Unmarshal : string -> string + MainGo.CompletionResponse.
Variable body : MainGo.Reader.
Variable log0 : list MainGo.Message.
Variable view1 : string.

Local Abbreviation streaming :=
  (streaming IsPrint json_Unmarshal body log0 view1).
Local Abbreviation settled :=
  (settled IsPrint json_Unmarshal body log0 view1).
Local Abbreviation Inv := (Inv IsPrint json_Unmarshal body log0 view1).
Local Abbreviation shown := (shown IsPrint).
Local Abbreviation deltas := (deltas json_Unmarshal body).
Local Abbreviation total := (total json_Unmarshal body).

Lemma shown_snoc (done : list string) (d : string) :
  shown (done ++ [d])
  = shown done ++ "[blue]Assistant:[-] "
      ++ snd (RenderPartial IsPrint NewMarkdownParser d).
Proof.
  unfold Part001Inv.shown. rewrite map_app, concatAll_app. simpl.
  unfold fragment. now rewrite append_nil_r.
Qed.

Lemma AppendPartialAssistant_view (x : ChatUI) (d : string) :
  let x' := AppendPartialAssistant IsPrint x d in
  chatHistory x' = chatHistory x ++ "[blue]Assistant:[-] "
                     ++ snd (RenderPartial IsPrint NewMarkdownParser d) /\
  assistantText x' = assistantText x /\ messages x' = messages x.
Proof.
  unfold AppendPartialAssistant.
  change (RenderPartial IsPrint (markdownParser x) d)
    with (RenderPartial IsPrint NewMarkdownParser d).
  destruct (RenderPartial IsPrint NewMarkdownParser d) as [p out].
  cbn. rewrite append_nil_r. auto.
Qed.

(** The display runs the closure of a delta. *)
Lemma streaming_display (x : ChatUI) (d : string) (q : list Update)
      (c : NetPC) (started : bool) (rest : list string)
      (tailq : list Update) (qd : list string) :
  forall done : list string,
    q = (map UpdPartial qd ++ tailq)%list ->
    chatHistory x = view1 ++ shown done ->
    assistantText x = concatAll (done ++ d :: qd) ->
    deltas = (done ++ (d :: qd) ++ rest)%list ->
    messages x = log0 ->
    started = negb (String.eqb (assistantText x) "") ->
    streaming (mkWorld (AppendPartialAssistant IsPrint x d) q c started)
              rest tailq.
Proof.
  intros done Hq Hv Ha Hd Hm Hs.
  destruct (AppendPartialAssistant_view x d) as (Hv' & Ha' & Hm').
  exists (done ++ [d])%list, qd. cbn [queue ui responseStarted].
  rewrite Hv', Ha', Hm', Hv, shown_snoc, <- !app_assoc.
  repeat split; auto. now rewrite append_assoc.
Qed.

Lemma Inv_netStep1 (w w' : World) :
  Inv w -> netStep json_Unmarshal w = Some w' -> Inv w'.
Proof.
  unfold Part001Inv.Inv, netStep, Part001Inv.streaming.
  destruct w as [x q c started]. cbn [pc ui queue responseStarted].
  destruct c as [o|r| |].
  - intros (-> & Hacc & done & qd & Hq & Hv & Ha & Hd & Hm & Hs) H.
    inversion H; subst w'. cbn [pc ui queue responseStarted].
    exists done, qd. repeat split; auto. now rewrite Hacc.
  - intros (done & qd & Hq & Hv & Ha & Hd & Hm & Hs).
    destruct (MainGo.ReadString r) as [[line [e|]] r'] eqn:E.
    + rewrite (streamDeltas_end json_Unmarshal _ _ _ _ E) in Hd.
      intros H; inversion H; subst w'. unfold goto.
      cbn [pc ui queue responseStarted].
      exists done, qd. repeat split; auto.
    + rewrite (streamDeltas_line json_Unmarshal _ _ _ E) in Hd.
      destruct (MainGo.lineEvent json_Unmarshal line) eqn:EL;
        intros H; inversion H; subst w'; unfold goto;
          cbn [pc ui queue responseStarted].
      * exists done, qd. repeat split; auto.
      * exists done, qd. repeat split; auto.
      * exists done, qd. repeat split; auto.
      * exists done, (qd ++ [delta])%list.
        cbn [setAssistantText assistantText chatHistory messages].
        rewrite Hq, map_app, !app_nil_r. simpl map.
        repeat split; auto.
        -- rewrite Ha, app_assoc, (concatAll_app (done ++ qd) [delta]).
           simpl. now rewrite append_nil_r.
        -- rewrite Hd, <- !app_assoc. reflexivity.
        -- symmetry. apply negb_true_iff, String.eqb_neq.
           apply append_nonempty_r.
           eapply lineEvent_Delta_nonempty; eauto.
  - intros (done & qd & Hq & Hv & Ha & Hd & Hm & Hs) H.
    inversion H; subst w'. unfold goto, enqueue.
    cbn [pc ui queue responseStarted]. left. exists done, qd.
    rewrite Hq, app_nil_r. repeat split; auto.
  - discriminate.
Qed.

Lemma settle (x : ChatUI) (started : bool) (done : list string) :
  chatHistory x = view1 ++ shown done ->
  assistantText x = concatAll done ->
  deltas = done ->
  messages x = log0 ->
  started = negb (String.eqb (assistantText x) "") ->
  settled (runUpdate IsPrint UpdFinish x started).
Proof.
  intros Hv Ha Hd Hm Hs. subst done.
  assert (Hat : assistantText x = total) by exact Ha.
  unfold Part001Inv.settled, runUpdate. rewrite Hs, Hat.
  destruct (String.eqb total "") eqn:E; cbn [negb]; cbv iota.
  - apply String.eqb_eq in E.
    assert (Hnil : deltas = []).
    { apply concatAll_empty; [|exact E].
      unfold Part001Inv.deltas, MainGo.streamDeltas.
      apply deltasFrom_nonempty. }
    unfold AppendToChat. cbn [String.eqb Ascii.eqb Bool.eqb]. cbv iota.
    unfold StopLoading, setLoading, Fprint.
    cbn [assistantText loadingActive inputDisabled messages chatHistory].
    split; [exact Hat|]. split; [reflexivity|]. split; [reflexivity|].
    split; [intros Hne; congruence|]. intros _. split; [exact Hm|].
    rewrite Hv, Hnil. unfold Part001Inv.shown. cbn [map concatAll fold_right].
    rewrite append_nil_r. reflexivity.
  - apply String.eqb_neq in E.
    unfold AddCompletedAssistantMessage, AppendToChat.
    cbn [String.eqb Ascii.eqb Bool.eqb]. cbv iota.
    cbn [AddMessage setMessages markdownParser].
    change (RenderMarkdown IsPrint (markdownParser x) total)
      with (RenderMarkdown IsPrint NewMarkdownParser total).
    destruct (RenderMarkdown IsPrint NewMarkdownParser total) as [p out].
    unfold StopLoading, setLoading, Fprint, setParser.
    cbn [assistantText loadingActive inputDisabled messages chatHistory snd].
    split; [exact Hat|]. split; [reflexivity|]. split; [reflexivity|].
    split; [|intros He; congruence]. intros _.
    unfold AddMessage, setMessages. cbn [messages chatHistory].
    split; [now rewrite Hm|].
    rewrite Hv, Sprintf_assistant, !append_assoc. reflexivity.
Qed.

Lemma Inv_displayStep1 (w w' : World) :
  Inv w -> displayStep IsPrint w = Some w' -> Inv w'.
Proof.
  unfold Part001Inv.Inv, displayStep.
  destruct w as [x q c started]. cbn [pc ui queue responseStarted].
  destruct q as [|u q]; [discriminate|].
  intros HI H; inversion H; subst w'; clear H. cbn [pc].
  destruct c as [o|r| |].
  - destruct HI as (Ho & Hacc & done & qd & Hq & Hv & Ha & Hd & Hm & Hs).
    cbn [pc ui queue responseStarted] in *.
    destruct qd as [|d qd]; [discriminate|].
    inversion Hq; subst u q. split; [exact Ho|]. split.
    + cbn [ui runUpdate].
      now destruct (AppendPartialAssistant_view x d) as (_ & -> & _).
    + apply (streaming_display x d _ _ _ _ [] qd done); auto.
  - destruct HI as (done & qd & Hq & Hv & Ha & Hd & Hm & Hs).
    cbn [pc ui queue responseStarted] in *.
    destruct qd as [|d qd]; [discriminate|].
    inversion Hq; subst u q.
    apply (streaming_display x d _ _ _ _ [] qd done); auto.
  - destruct HI as (done & qd & Hq & Hv & Ha & Hd & Hm & Hs).
    cbn [pc ui queue responseStarted] in *.
    destruct qd as [|d qd]; [discriminate|].
    inversion Hq; subst u q.
    apply (streaming_display x d _ _ _ _ [] qd done); auto.
  - destruct HI as [(done & qd & Hq & Hv & Ha & Hd & Hm & Hs) | (Hq & _)];
      [|discriminate].
    cbn [pc ui queue responseStarted] in *. destruct qd as [|d qd].
    + inversion Hq; subst u q. right. split; [reflexivity|].
      rewrite !app_nil_r in *. now apply (settle x started done).
    + inversion Hq; subst u q. left.
      apply (streaming_display x d _ _ _ _ [UpdFinish] qd done); auto.
Qed.

Lemma Inv_run1 (schedule : list MainGo.Actor) :
  forall w, Inv w -> Inv (runSchedule IsPrint json_Unmarshal schedule w).
Proof.
  induction schedule as [|a schedule IH]; intros w HI; [exact HI|].
  simpl. apply IH. destruct a; simpl.
  - destruct (netStep json_Unmarshal w) eqn:E;
      [eapply Inv_netStep1; eauto | exact HI].
  - destruct (displayStep IsPrint w) eqn:E;
      [eapply Inv_displayStep1; eauto | exact HI].
Qed.

End Part001Turn.

Lemma part001_turn_settles
      (IsPrint : Z -> bool)
      (json_Unmarshal : string -> string + MainGo.CompletionResponse)
      (x : Part001.ChatUI) (input : string) (body : MainGo.Reader)
      (schedule : list MainGo.Actor) :
  let w0 := Part001.handleInput IsPrint x input (Part001.Streamed body) in
  let w := Part001.runSchedule IsPrint json_Unmarshal schedule w0 in
  Part001.turnOver w = true ->
  Part001Inv.settled IsPrint json_Unmarshal body
    (Part001.messages x ++ [MainGo.mkMessage "user" input])%list
    (Part001.chatHistory x ++ "[purple]You:[-] [white]" ++ input ++ nl)
    (Part001.ui w).
Proof.
  intros w0 w Hover.
  assert (HI : Part001Inv.Inv IsPrint json_Unmarshal body
                 (Part001.messages x ++ [MainGo.mkMessage "user" input])%list
                 (Part001.chatHistory x ++ "[purple]You:[-] [white]"
                                      ++ input ++ nl) w).
  { apply Inv_run1. unfold Part001Inv.Inv, w0. cbn.
    split; [reflexivity|]. split; [reflexivity|].
    exists [], []. cbn. rewrite !append_nil_r. repeat split; reflexivity. }
  unfold Part001Inv.Inv in HI. unfold Part001.turnOver in Hover.
  destruct (Part001.pc w); try discriminate.
  destruct (Part001.queue w) eqn:Eq; [|discriminate].
  destruct HI as [(done & qd & Hq & _) | (_ & HS)]; [|exact HS].
  rewrite Eq in Hq. destruct qd; discriminate.
Qed.

(** X19.  In part_001 as in main.go, when a turn on a streamed body is
    over, under every interleaving, the accumulator holds the
    concatenation of the deltas, the log has gained the user message and,
    if that text is not empty, one assistant message holding it, and
    loading is off with the input enabled. *)
Theorem X19_part001_turn_log :
  forall (IsPrint : Z -> bool)
         (json_Unmarshal : string -> string + MainGo.CompletionResponse)
         (x : Part001.ChatUI) (input : string) (body : MainGo.Reader)
         (schedule : list MainGo.Actor),
    let w := Part001.runSchedule IsPrint json_Unmarshal schedule
               (Part001.handleInput IsPrint x input (Part001.Streamed body)) in
    let total := concatAll (MainGo.streamDeltas json_Unmarshal body) in
    Part001.turnOver w = true ->
    Part001.assistantText (Part001.ui w) = total /\
    Part001.messages (Part001.ui w)
    = (Part001.messages x ++ MainGo.mkMessage "user" input
         :: (if String.eqb total "" then []
             else [MainGo.mkMessage "assistant" total]))%list /\
    Part001.loadingActive (Part001.ui w) = false /\
    Part001.inputDisabled (Part001.ui w) = false.
Proof.
  intros IsPrint json x input body schedule w total Hover.
  destruct (part001_turn_settles IsPrint json x input body schedule Hover)
    as (Ha & Hl & Hd & Hne & He).
  fold w in Ha, Hl, Hd, Hne, He.
  change (Part001Inv.total json body) with total in *.
  repeat split; auto.
  destruct (String.eqb total "") eqn:E.
  - apply String.eqb_eq in E. now destruct (He E) as [-> _].
  - apply String.eqb_neq in E. destruct (Hne E) as [-> _].
    now rewrite <- app_assoc.
Qed.

Lemma X19_part001_turn_log_witness :
  let w := Sample.run001 Sample.schedule (Sample.start001 Sample.body) in
  let total := concatAll (MainGo.streamDeltas Sample.Unmarshal Sample.body) in
  Part001.assistantText (Part001.ui w) = total /\
  Part001.messages (Part001.ui w)
  = (Part001.messages Sample.emptyUI001 ++ MainGo.mkMessage "user" "hi"
       :: (if String.eqb total "" then []
           else [MainGo.mkMessage "assistant" total]))%list /\
  Part001.loadingActive (Part001.ui w) = false /\
  Part001.inputDisabled (Part001.ui w) = false.
Proof.
  apply (X19_part001_turn_log unicode.IsPrintLatin1 Sample.Unmarshal
           Sample.emptyUI001 "hi" Sample.body Sample.schedule).
  vm_compute. reflexivity.
Defined.

(** X20.  In part_001 every delta is rendered on its own, in partial
    mode, and written to the view after an assistant prefix of its own,
    and nothing of it is removed afterwards.  When the turn is over the
    view is the view before the turn, the user line, these fragments in
    the order of the deltas, and then the assistant prefix with the full
    rendering of the whole text and a line feed: the text is on display
    twice.  If no content arrived the view ends with the user line and
    the system notice of the empty response. *)
Theorem X20_part001_turn_view :
  forall (IsPrint : Z -> bool)
         (json_Unmarshal : string -> string + MainGo.CompletionResponse)
         (x : Part001.ChatUI) (input : string) (body : MainGo.Reader)
         (schedule : list MainGo.Actor),
    let w := Part001.runSchedule IsPrint json_Unmarshal schedule
               (Part001.handleInput IsPrint x input (Part001.Streamed body)) in
    let ds := MainGo.streamDeltas json_Unmarshal body in
    let view1 := Part001.chatHistory x ++ "[purple]You:[-] [white]"
                   ++ input ++ nl in
    Part001.turnOver w = true ->
    Part001.chatHistory (Part001.ui w)
    = if String.eqb (concatAll ds) ""
      then view1 ++ "[red]System:[-] Assistant returned an empty response"
                 ++ nl
      else view1 ++ Part001Inv.shown IsPrint ds ++ "[blue]Assistant:[-] "
             ++ snd (Part001.RenderMarkdown IsPrint Part001.NewMarkdownParser
                       (concatAll ds)) ++ nl.
Proof.
  intros IsPrint json x input body schedule w ds view1 Hover.
  destruct (part001_turn_settles IsPrint json x input body schedule Hover)
    as (_ & _ & _ & Hne & He).
  fold w in Hne, He. fold view1 in Hne, He.
  change (Part001Inv.total json body) with (concatAll ds) in *.
  change (Part001Inv.deltas json body) with ds in *.
  destruct (String.eqb (concatAll ds) "") eqn:E.
  - apply String.eqb_eq in E. now destruct (He E) as [_ ->].
  - apply String.eqb_neq in E. now destruct (Hne E) as [_ ->].
Qed.

Lemma X20_part001_turn_view_witness :
  let w := Sample.run001 Sample.schedule (Sample.start001 Sample.body) in
  let ds := MainGo.streamDeltas Sample.Unmarshal Sample.body in
  let view1 := Part001.chatHistory Sample.emptyUI001
                 ++ "[purple]You:[-] [white]" ++ "hi" ++ nl in
  Part001.chatHistory (Part001.ui w)
  = if String.eqb (concatAll ds) ""
    then view1 ++ "[red]System:[-] Assistant returned an empty response"
               ++ nl
    else view1 ++ Part001Inv.shown unicode.IsPrintLatin1 ds
           ++ "[blue]Assistant:[-] "
           ++ snd (Part001.RenderMarkdown unicode.IsPrintLatin1
                     Part001.NewMarkdownParser (concatAll ds)) ++ nl.
Proof.
  apply (X20_part001_turn_view unicode.IsPrintLatin1 Sample.Unmarshal
           Sample.emptyUI001 "hi" Sample.body Sample.schedule).
  vm_compute. reflexivity.
Defined.


(** X21.  In part_001 no problem of the stream reaches the display:
    during a turn on a streamed body, whatever the body holds (malformed
    chunks, a read error) and whatever the interleaving, the queue of the
    display never holds an error closure. *)
Theorem X21_part001_stream_errors_stay_off_the_display :
  forall (IsPrint : Z -> bool)
         (json_Unmarshal : string -> string + MainGo.CompletionResponse)
         (x : Part001.ChatUI) (input : string) (body : MainGo.Reader)
         (schedule : list MainGo.Actor),
    let w := Part001.runSchedule IsPrint json_Unmarshal schedule
               (Part001.handleInput IsPrint x input (Part001.Streamed body)) in
    existsb isStreamError (Part001.queue w) = false.
Proof.
  intros IsPrint json x input body schedule w.
  assert (HI : Part001Inv.Inv IsPrint json body
                 (Part001.messages x ++ [MainGo.mkMessage "user" input])%list
                 (Part001.chatHistory x ++ "[purple]You:[-] [white]"
                                      ++ input ++ nl) w).
  { apply Inv_run1. unfold Part001Inv.Inv. cbn.
    split; [reflexivity|]. split; [reflexivity|].
    exists [], []. cbn. rewrite !append_nil_r. repeat split; reflexivity. }
  assert (Hmap : forall (qd : list string) (t : list Part001.Update),
             existsb isStreamError t = false ->
             existsb isStreamError (map Part001.UpdPartial qd ++ t) = false).
  { intros qd t Ht. induction qd as [|d qd IH]; [exact Ht | exact IH]. }
  unfold Part001Inv.Inv, Part001Inv.streaming in HI.
  destruct (Part001.pc w).
  - destruct HI as (_ & _ & done & qd & -> & _). now apply Hmap.
  - destruct HI as (done & qd & -> & _). now apply Hmap.
  - destruct HI as (done & qd & -> & _). now apply Hmap.
  - destruct HI as [(done & qd & -> & _) | (-> & _)];
      [now apply Hmap | reflexivity].
Qed.

(** * Plain text through the renderer *)

Lemma printableASCII_noLF (l : string) :
  printableASCII l = true -> noLF l = true.
Proof.
  unfold printableASCII, noLF. induction l as [|c l IH]; [reflexivity|].
  simpl. intros H. apply andb_true_iff in H. destruct H as [Hc Hl].
  rewrite (IH Hl), andb_true_r.
  destruct (Ascii.eqb c LF) eqn:E; [|reflexivity].
  apply Ascii.eqb_eq in E. subst c. discriminate Hc.
Qed.

Lemma splitFrom_line_then (l rest : string) :
  forall cur : string,
    noLF l = true ->
    strings.splitFrom (l ++ nl ++ rest) nl 0 cur
    = (cur ++ l) :: strings.splitFrom rest nl 0 "".
Proof.
  unfold noLF. induction l as [|c l IH]; intros cur H.
  - change ("" ++ nl ++ rest) with (String LF rest).
    rewrite splitFrom_nl_step. cbn [Ascii.eqb Bool.eqb LF]. cbv iota.
    now rewrite append_nil_r.
  - simpl in H. apply andb_true_iff in H. destruct H as [Hc Hl].
    change (String c l ++ nl ++ rest) with (String c (l ++ nl ++ rest)).
    rewrite splitFrom_nl_step. apply negb_true_iff in Hc. rewrite Hc.
    rewrite (IH _ Hl). now rewrite append_assoc.
Qed.

(** Joining lines without line feeds and splitting again gives the
    lines back. *)
Lemma Split_Join (lines : list string) :
  lines <> [] -> forallb noLF lines = true ->
  strings.Split (strings.Join lines nl) nl = lines.
Proof.
  unfold strings.Split. induction lines as [|l lines IH]; [congruence|].
  intros _ H. simpl in H. apply andb_true_iff in H. destruct H as [Hl Hls].
  destruct lines as [|l' lines].
  - simpl. now rewrite (splitFrom_noLF l "" Hl).
  - rewrite Join_cons by discriminate.
    rewrite (splitFrom_line_then l _ "" Hl). cbn [append].
    f_equal. apply IH; [discriminate | exact Hls].
Qed.

Lemma markdownLine_quiet (p : MainGo.MarkdownParser) (line : string) :
  quietLine (MainGo.inCode p) line = true ->
  MainGo.markdownLine p line = MainGo.setBuf p line.
Proof.
  intros Hq. unfold MainGo.markdownLine.
  rewrite (markdownLoop_quiet line (String.length line) 0 (MainGo.bufReset p));
    [|exact Hq|lia].
  destruct p; reflexivity.
Qed.

Lemma renderLines_plain (IsPrint : Z -> bool) (all rest : list string) :
  (forall r, (0x20 <= r <= 0x7E)%Z -> IsPrint r = true) ->
  forall (i : nat) (p : MainGo.MarkdownParser) (output : string)
         (prevLineEmpty : bool),
    MainGo.inCode p = false ->
    forallb plainLine rest = true ->
    snd (MainGo.renderLines IsPrint all i rest p output prevLineEmpty)
    = output ++ concatAll (map (fun l => l ++ nl) rest).
Proof.
  intros HP. induction rest as [|line rest IH];
    intros i p output prev Hc H.
  - simpl. now rewrite append_nil_r.
  - simpl in H. apply andb_true_iff in H. destruct H as [Hl Hrest].
    unfold plainLine in Hl.
    apply andb_true_iff in Hl. destruct Hl as [Hl Hquiet].
    apply andb_true_iff in Hl. destruct Hl as [Hprint Hpara].
    unfold paragraphLine in Hpara. cbv zeta in Hpara.
    apply andb_true_iff in Hpara. destruct Hpara as [Hpara Hpre].
    apply andb_true_iff in Hpara. destruct Hpara as [Hpara Hpipe].
    apply andb_true_iff in Hpara. destruct Hpara as [Hne Hfence].
    apply negb_true_iff in Hne, Hfence, Hpipe, Hpre.
    unfold prefixedLine in Hpre.
    apply orb_false_iff in Hpre. destruct Hpre as [Hpre Hstar].
    apply orb_false_iff in Hpre. destruct Hpre as [Hquote Hdash].
    cbn [MainGo.renderLines].
    rewrite Hne, Hfence, Hpipe, Hquote, Hdash, Hstar. cbn [andb].
    unfold MainGo.filteredString. rewrite (Map_printable IsPrint line HP Hprint).
    rewrite markdownLine_quiet by (rewrite Hc; exact Hquiet).
    rewrite IH; [|exact Hc|exact Hrest].
    cbn [MainGo.buf MainGo.setBuf map concatAll fold_right].
    now rewrite !append_assoc.
Qed.

(** X22.  Plain text passes through the renderer unchanged.  For a
    text made of lines of printable ASCII that are paragraphs (not empty
    after trimming, no fence, table, quote or list prefix) and hold no
    backslash, asterisk, underscore or backtick, the output is these
    lines, each followed by a line feed. *)
Theorem X22_plain_text_is_rendered_as_it_is :
  forall (IsPrint : Z -> bool) (p : MainGo.MarkdownParser)
         (lines : list string),
    (forall r, (0x20 <= r <= 0x7E)%Z -> IsPrint r = true) ->
    forallb plainLine lines = true ->
    snd (MainGo.RenderMarkdown IsPrint p (strings.Join lines nl))
    = concatAll (map (fun l => l ++ nl) lines).
Proof.
  intros IsPrint p lines HP H. unfold MainGo.RenderMarkdown.
  destruct lines as [|l lines]; [reflexivity|].
  rewrite Split_Join; [|discriminate|].
  - rewrite (renderLines_plain IsPrint _ _ HP); [reflexivity|reflexivity|].
    exact H.
  - clear -H. induction (l :: lines) as [|a ls IH]; [reflexivity|].
    simpl in *. apply andb_true_iff in H. destruct H as [Ha Hls].
    rewrite (IH Hls), andb_true_r. apply printableASCII_noLF.
    unfold plainLine in Ha. apply andb_true_iff in Ha. destruct Ha as [Ha _].
    apply andb_true_iff in Ha. tauto.
Qed.

Lemma X22_plain_text_is_rendered_as_it_is_witness :
  snd (MainGo.RenderMarkdown unicode.IsPrintLatin1 MainGo.NewMarkdownParser
         (strings.Join ["Hello, world."; "  How are you?"] nl))
  = concatAll (map (fun l => l ++ nl) ["Hello, world."; "  How are you?"]).
Proof.
  apply (X22_plain_text_is_rendered_as_it_is unicode.IsPrintLatin1
           MainGo.NewMarkdownParser ["Hello, world."; "  How are you?"]).
  - intros r Hr. unfold unicode.IsPrintLatin1.
    apply orb_true_iff; left. apply andb_true_iff; split; apply Z.leb_le; lia.
  - vm_compute. reflexivity.
Defined.
